(** * ldesign-docs: a shallow embedding of the documentation generator

    The development follows the TypeScript sources:
    - [JS]        the string primitives of the host language the code calls;
    - [Plugin]    [core/plugin-manager.ts];
    - [Markdown]  [markdown/processor.ts];
    - [Generator] [core/doc-generator.ts];
    - [Vue], [React], [TS]  the three parsers under [parsers/];
    - [Builder]   [builder/build.ts].

    A JavaScript string is a sequence of UTF-16 code units; it is modelled
    as [list N].  Definitions come first, the theorems follow. *)

From Stdlib Require Import NArith ZArith String Ascii Bool Lia.
From stdpp Require Import base option list gmap.

Open Scope N_scope.
Open Scope list_scope.

(* ===================================================================== *)
(** * Definitions *)
(* ===================================================================== *)

(** ** JavaScript strings *)
Module JS.

Abbreviation str := (list N).

(** An ASCII literal as a sequence of code units. *)
Fixpoint lit (s : string) : str :=
  match s with
  | EmptyString => []
  | String a r => N_of_ascii a :: lit r
  end.

(** The double quote, U+0022. *)
Definition dq : str := [34].

Definition inRange (lo hi c : N) : bool := (lo <=? c) && (c <=? hi).

(** [\s] of a regular expression and the white space [trim] removes:
    WhiteSpace and LineTerminator of ECMAScript. *)
Definition isWhiteSpace (c : N) : bool :=
  inRange 9 13 c || (c =? 32) || (c =? 160) || (c =? 0x1680)
  || inRange 0x2000 0x200a c || (c =? 0x2028) || (c =? 0x2029)
  || (c =? 0x202f) || (c =? 0x205f) || (c =? 0x3000) || (c =? 0xfeff).

(** [\w]: [A-Za-z0-9_]. *)
Definition isWord (c : N) : bool :=
  inRange 65 90 c || inRange 97 122 c || inRange 48 57 c || (c =? 95).

Fixpoint dropWhile (p : N -> bool) (s : str) : str :=
  match s with
  | [] => []
  | c :: r => if p c then dropWhile p r else s
  end.

Fixpoint takeWhile (p : N -> bool) (s : str) : str :=
  match s with
  | [] => []
  | c :: r => if p c then c :: takeWhile p r else []
  end.

Definition trimStart (s : str) : str := dropWhile isWhiteSpace s.
Definition trimEnd (s : str) : str := rev (dropWhile isWhiteSpace (rev s)).
Definition trim (s : str) : str := trimEnd (trimStart s).

(** [toLowerCase] and [toUpperCase]; the case mapping is written out for
    the Basic Latin letters, other code units are left as they are. *)
Definition lowerUnit (c : N) : N := if inRange 65 90 c then c + 32 else c.
Definition upperUnit (c : N) : N := if inRange 97 122 c then c - 32 else c.
Definition toLowerCase (s : str) : str := map lowerUnit s.
Definition toUpperCase (s : str) : str := map upperUnit s.

Definition eqb (a b : str) : bool := bool_decide (a = b).

(** [s.startsWith(p)], and the rest of [s] after [p]. *)
Fixpoint stripPrefix (p s : str) : option str :=
  match p, s with
  | [], _ => Some s
  | _ :: _, [] => None
  | a :: p', b :: s' => if a =? b then stripPrefix p' s' else None
  end.

Definition startsWith (p s : str) : bool :=
  match stripPrefix p s with Some _ => true | None => false end.

Definition endsWith (p s : str) : bool := startsWith (rev p) (rev s).

(** [s.includes(p)]. *)
Fixpoint includes (p s : str) : bool :=
  startsWith p s || match s with [] => false | _ :: r => includes p r end.

(** [s.split(sep)] for a separator of one code unit. *)
Fixpoint split (sep : N) (s : str) : list str :=
  match s with
  | [] => [[]]
  | c :: r =>
      if c =? sep then [] :: split sep r
      else match split sep r with
           | [] => [[c]]
           | w :: ws => (c :: w) :: ws
           end
  end.

(** [parts.join(sep)]. *)
Fixpoint join (sep : str) (parts : list str) : str :=
  match parts with
  | [] => []
  | [p] => p
  | p :: ps => p ++ sep ++ join sep ps
  end.

(** [s.split(sep).pop()] *)
Definition popSplit (sep : N) (s : str) : str := default [] (last (split sep s)).

(** Truthiness of a string: the empty string is falsy. *)
Definition truthy (s : str) : bool := match s with [] => false | _ => true end.

(** [a || b] on strings. *)
Definition orElse (a b : str) : str := if truthy a then a else b.

(** *** [encodeURIComponent] *)

Definition hexDigit (d : N) : N := if d <? 10 then 48 + d else 55 + d.

Definition percent (byte : N) : str := [37; hexDigit (byte / 16); hexDigit (byte mod 16)].

(** The UTF-8 octets of a code point. *)
Definition utf8 (cp : N) : list N :=
  if cp <? 0x80 then [cp]
  else if cp <? 0x800 then [0xC0 + cp / 64; 0x80 + cp mod 64]
  else if cp <? 0x10000 then
    [0xE0 + cp / 4096; 0x80 + (cp / 64) mod 64; 0x80 + cp mod 64]
  else
    [0xF0 + cp / 262144; 0x80 + (cp / 4096) mod 64;
     0x80 + (cp / 64) mod 64; 0x80 + cp mod 64].

(** uriUnescaped: letters, digits and [- _ . ! ~ * ' ( )]. *)
Definition uriUnreserved (c : N) : bool :=
  inRange 65 90 c || inRange 97 122 c || inRange 48 57 c
  || (c =? 45) || (c =? 95) || (c =? 46) || (c =? 33) || (c =? 126)
  || (c =? 42) || (c =? 39) || (c =? 40) || (c =? 41).

(** [None] is the URIError thrown on a lone surrogate. *)
Fixpoint encodeURIComponent (s : str) : option str :=
  match s with
  | [] => Some []
  | c :: r =>
      if uriUnreserved c then (c ::.) <$> encodeURIComponent r
      else if inRange 0xDC00 0xDFFF c then None
      else if inRange 0xD800 0xDBFF c then
        match r with
        | c2 :: r2 =>
            if inRange 0xDC00 0xDFFF c2 then
              (fun t => flat_map percent
                          (utf8 ((c - 0xD800) * 0x400 + (c2 - 0xDC00) + 0x10000)) ++ t)
                <$> encodeURIComponent r2
            else None
        | [] => None
        end
      else (fun t => flat_map percent (utf8 c) ++ t) <$> encodeURIComponent r
  end.

End JS.

(** ** types/index.ts

    One module per interface, so that the fields keep their names.  An
    optional field ([description?: string]) is an [option]. *)
Module DocsConfig.
(** [ResolvedDocsConfig], as far as the modelled code reads it. *)
Record t := mk {
  title : JS.str;
  description : JS.str;
  root : JS.str;
  docsDir : JS.str;
  componentsDir : JS.str;
  outDir : JS.str;
  base : JS.str;
}.
End DocsConfig.

Module DocNode.
Inductive kind := markdown | api | component.
Record t := mk {
  path : JS.str;
  title : JS.str;
  content : JS.str;
  type : kind;
  meta : option (gmap JS.str JS.str);
}.
End DocNode.

Module GenerateContext.
Record t := mk {
  config : DocsConfig.t;
  files : list JS.str;
  docs : list DocNode.t;
}.
End GenerateContext.

Module TypeDoc.
Record t := mk { name : JS.str; type : JS.str; isGeneric : option bool }.
End TypeDoc.

Module ParameterDoc.
Record t := mk {
  name : JS.str;
  type : TypeDoc.t;
  description : option JS.str;
  optional : bool;
  defaultValue : option JS.str;
}.
End ParameterDoc.

Module SourceLocation.
Record t := mk { file : JS.str; line : N; column : option N }.
End SourceLocation.

Module ApiDocNode.
Inductive kind := function | class | interface | type | variable | enum.
Inductive t := mk {
  name : JS.str;
  kind_ : kind;
  description : option JS.str;
  signature : option JS.str;
  parameters : option (list ParameterDoc.t);
  returns : option TypeDoc.t;
  examples : option (list JS.str);
  tags : option (list (JS.str * (JS.str + list JS.str)));
  source : option SourceLocation.t;
  children : option (list t);
}.
(** The text of [kind] in a template literal. *)
Definition kindText (k : kind) : JS.str :=
  JS.lit match k with
         | function => "function" | class => "class" | interface => "interface"
         | type => "type" | variable => "variable" | enum => "enum"
         end.
End ApiDocNode.

Module PropDoc.
(** [type: string | string[]]. *)
Record t := mk {
  name : JS.str;
  type : JS.str + list JS.str;
  description : option JS.str;
  required : option bool;
  default : option JS.str;
}.
End PropDoc.

Module EventDoc.
Record t := mk { name : JS.str; description : option JS.str; payload : option TypeDoc.t }.
End EventDoc.

Module SlotDoc.
Record t := mk { name : JS.str; description : option JS.str; scoped : option bool }.
End SlotDoc.

Module ComponentDoc.
Record t := mk {
  name : JS.str;
  description : option JS.str;
  props : option (list PropDoc.t);
  events : option (list EventDoc.t);
  slots : option (list SlotDoc.t);
  source : option SourceLocation.t;
}.
End ComponentDoc.

(** ** core/plugin-manager.ts *)
Module Plugin.
Import JS.

(** The names of the observer hooks. *)
Inductive Observer :=
  | configResolved | beforeGenerate | afterGenerate | beforeBuild | afterBuild.

(** [DocsPlugin]: a name and optional hooks.  A transform hook is present
    as [Some f]; [config] may return nothing ([None], the [void] of the
    declaration).  An observer hook has no result: only whether the plugin
    defines it matters to the manager. *)
Record DocsPlugin := mkPlugin {
  name : str;
  config : option (DocsConfig.t -> option DocsConfig.t);
  transformMarkdown : option (str -> str -> str);
  observes : Observer -> bool;
}.

(** [PluginManager.config]: the loop over [this.plugins] with the running
    [result]. *)
Fixpoint configLoop (plugins : list DocsPlugin) (result : DocsConfig.t) : DocsConfig.t :=
  match plugins with
  | [] => result
  | plugin :: rest =>
      match config plugin with
      | Some hook =>
          match hook result with
          | Some modified => configLoop rest modified
          | None => configLoop rest result
          end
      | None => configLoop rest result
      end
  end.

Definition runConfig (plugins : list DocsPlugin) (cfg : DocsConfig.t) : DocsConfig.t :=
  configLoop plugins cfg.

(** [PluginManager.transformMarkdown]. *)
Fixpoint transformLoop (plugins : list DocsPlugin) (file : str) (result : str) : str :=
  match plugins with
  | [] => result
  | plugin :: rest =>
      match transformMarkdown plugin with
      | Some hook => transformLoop rest file (hook result file)
      | None => transformLoop rest file result
      end
  end.

Definition runTransformMarkdown (plugins : list DocsPlugin) (content file : str) : str :=
  transformLoop plugins file content.

(** The observer loops ([beforeGenerate], [afterGenerate], ...) call the
    hook of every plugin that defines it, in order: the names of the
    plugins called.  A hook is taken to return; the loops have no [catch],
    so one that throws would end the loop and the caller with it. *)
Fixpoint observerLoop (h : Observer) (plugins : list DocsPlugin) : list str :=
  match plugins with
  | [] => []
  | plugin :: rest =>
      if observes plugin h then name plugin :: observerLoop h rest
      else observerLoop h rest
  end.

(** [register] pushes onto [this.plugins]; [registerBatch] registers in the
    order given. *)
Definition register (plugins : list DocsPlugin) (plugin : DocsPlugin) : list DocsPlugin :=
  plugins ++ [plugin].

Definition registerBatch (plugins batch : list DocsPlugin) : list DocsPlugin :=
  fold_left register batch plugins.

(** What one plugin contributes to a chained hook: its hook applied to the
    running value when it has one. *)
Definition configStep (acc : DocsConfig.t) (plugin : DocsPlugin) : DocsConfig.t :=
  match config plugin with
  | Some hook => match hook acc with Some modified => modified | None => acc end
  | None => acc
  end.

Definition transformStep (file : str) (acc : str) (plugin : DocsPlugin) : str :=
  match transformMarkdown plugin with
  | Some hook => hook acc file
  | None => acc
  end.

End Plugin.

(** ** markdown/processor.ts *)
Module Markdown.
Import JS.

(** [s.replace(/[class]+/g, by)]: every maximal run of code units of the
    class is replaced by [by].  [inRun] tells that the previous code unit
    belonged to the run being replaced. *)
Fixpoint replaceRuns (class : N -> bool) (by_ : str) (inRun : bool) (s : str) : str :=
  match s with
  | [] => []
  | c :: r =>
      if class c then
        if inRun then replaceRuns class by_ true r
        else by_ ++ replaceRuns class by_ true r
      else c :: replaceRuns class by_ false r
  end.

(** [.replace(/\s+/g, '-')] *)
Definition hyphenateSpaces (s : str) : str := replaceRuns isWhiteSpace (lit "-") false s.

(** The class [[^\w\-\u4e00-\u9fa5]]. *)
Definition notSlugUnit (c : N) : bool :=
  negb (isWord c || (c =? 45) || inRange 0x4e00 0x9fa5 c).

(** [.replace(/[^\w\-\u4e00-\u9fa5]+/g, '')] *)
Definition stripNonSlug (s : str) : str := replaceRuns notSlugUnit [] false s.

(** The [slugify] option given to the anchor plugin in
    [createMarkdownProcessor]: the slug of the heading anchors of Render.
    [None] is the URIError of [encodeURIComponent]. *)
Definition anchorSlugify (s : str) : option str :=
  encodeURIComponent (hyphenateSpaces (toLowerCase (trim s))).

(** [MarkdownProcessor.slugify], used by [extractHeaders]. *)
Definition slugify (text : str) : option str :=
  encodeURIComponent (stripNonSlug (hyphenateSpaces (toLowerCase (trim text)))).

(** A token of the markdown-it token stream. *)
Record Token := mkToken { type : str; tag : str; tcontent : str }.

(** The markdown-it instance the processor wraps: its parser, and its
    renderer, which either returns HTML or throws an error with a message. *)
Record MarkdownIt := mkMd {
  parse : str -> list Token;
  mdRender : str -> str + str;
}.

(** [MarkdownProcessor.render]: when the renderer throws ([inl]), the
    [catch] branch passes the error to [logger.error] and returns a
    placeholder with the message in it.  The result is the message logged,
    if any, and the HTML returned. *)
Definition render (md : MarkdownIt) (content : str) : option str * str :=
  match mdRender md content with
  | inr html => (None, html)
  | inl message =>
      (Some message, lit "<pre>Error rendering markdown: " ++ message ++ lit "</pre>")
  end.

(** [parseInt(s)]: white space, an optional sign, then the digits, which
    are hexadecimal after the prefix [0x] and decimal otherwise; [None] is
    NaN. *)
Definition digitValue (c : N) : option N :=
  if inRange 48 57 c then Some (c - 48)
  else if inRange 97 102 c then Some (c - 87)
  else if inRange 65 70 c then Some (c - 55)
  else None.

Definition isDigit (radix : N) (c : N) : bool :=
  match digitValue c with Some d => d <? radix | None => false end.

Definition digitsValue (radix : N) (ds : str) : Z :=
  Z.of_N (fold_left (fun acc d => radix * acc + default 0 (digitValue d)) ds 0).

Definition parseInt (s : str) : option Z :=
  let '(negative, body) :=
    match trimStart s with
    | 45 :: r => (true, r)
    | 43 :: r => (false, r)
    | r => (false, r)
    end in
  let '(radix, body) :=
    match body with
    | 48 :: x :: r => if (x =? 120) || (x =? 88) then (16, r) else (10, body)
    | _ => (10, body)
    end in
  match takeWhile (isDigit radix) body with
  | [] => None
  | ds => Some (if negative then (- digitsValue radix ds)%Z else digitsValue radix ds)
  end.

Record Header := mkHeader { level : option Z; text : str; slug : str }.

(** [extractHeaders]: the loop over the token stream.  [None] when
    [slugify] throws. *)
Fixpoint headersOf (tokens : list Token) : option (list Header) :=
  match tokens with
  | [] => Some []
  | token :: rest =>
      if eqb (type token) (lit "heading_open") then
        match rest with
        | textToken :: _ =>
            if eqb (type textToken) (lit "inline") then
              sl ← slugify (tcontent textToken);
              hs ← headersOf rest;
              Some (mkHeader (parseInt (drop 1 (tag token))) (tcontent textToken) sl :: hs)
            else headersOf rest
        | [] => headersOf rest
        end
      else headersOf rest
  end.

Definition extractHeaders (md : MarkdownIt) (content : str) : option (list Header) :=
  headersOf (parse md content).

End Markdown.

(** ** node:path (POSIX flavour) *)
Module Path.
Import JS.

Definition slash : N := 47.
Definition dot : N := 46.

(** The last segment of a path, trailing slashes dropped. *)
Definition lastSegment (p : str) : str :=
  rev (takeWhile (fun c => negb (c =? slash)) (dropWhile (fun c => c =? slash) (rev p))).

(** [path.extname]: from the last dot of the last segment, unless there is
    no dot, the dot starts the segment, or the segment is [..]. *)
Definition extname (p : str) : str :=
  let b := lastSegment p in
  let afterDot := takeWhile (fun c => negb (c =? dot)) (rev b) in
  if (length afterDot =? length b)%nat then []
  else if (S (length afterDot) =? length b)%nat then []
  else if eqb b [dot; dot] then []
  else drop (length b - S (length afterDot)) b.

(** [path.basename(p, ext)]. *)
Definition basename (p ext : str) : str :=
  let b := lastSegment p in
  if truthy ext && eqb ext p then []
  else if truthy ext && endsWith ext b && negb (eqb ext b)
       then take (length b - length ext) b
       else b.

End Path.

(** ** core/doc-generator.ts *)
Module Generator.
Import JS.

(** *** Pure helpers *)

(** An HTML literal of the source; a backquote in the Rocq text stands for
    the double quote of the source text. *)
Definition tpl (s : string) : str := map (fun c => if c =? 96 then 34 else c) (lit s).

(** [escapeHtml]: each of the five code units of the class (ampersand,
    less-than, greater-than, double quote, apostrophe) is replaced by its
    entry of [map]. *)
Definition escapeUnit (c : N) : str :=
  if c =? 38 then lit "&amp;"
  else if c =? 60 then lit "&lt;"
  else if c =? 62 then lit "&gt;"
  else if c =? 34 then lit "&quot;"
  else if c =? 39 then lit "&#039;"
  else [c].

Definition escapeHtml (text : str) : str := flat_map escapeUnit text.

(** Truthiness of an optional string field. *)
Definition present (o : option str) : bool :=
  match o with Some s => truthy s | None => false end.

Definition textOf (o : option str) : str := default [] o.

(** [getTitleFromPath] *)
Definition capitalize (word : str) : str := toUpperCase (take 1 word) ++ drop 1 word.

Definition getTitleFromPath (filePath : str) : str :=
  let basename := Path.basename filePath (Path.extname filePath) in
  join (lit " ") (map capitalize (split 45 basename)).

(** [s.replace(/\.ext$/, new)] for the alternatives [exts] of the
    extension, none of which is a suffix of another. *)
Fixpoint replaceExt (exts : list str) (new : str) (s : str) : str :=
  match exts with
  | [] => s
  | e :: rest =>
      if endsWith e s then take (length s - length e) s ++ new
      else replaceExt rest new s
  end.

(** *** [extractFrontmatter] *)

(** The shortest prefix of [s] after which [delim] starts. *)
Fixpoint lazyUntil (delim : str) (s : str) : option str :=
  if startsWith delim s then Some []
  else match s with
       | [] => None
       | c :: r => (c ::.) <$> lazyUntil delim r
       end.

(** [content.match(/^---\n([\s\S]+?)\n---/)]: the first capture group. *)
Definition frontmatterMatch (content : str) : option str :=
  match stripPrefix (lit "---" ++ [10]) content with
  | Some (c :: r) => (c ::.) <$> lazyUntil (10 :: lit "---") r
  | _ => None
  end.

Definition isQuote (c : N) : bool := (c =? 39) || (c =? 34).

(** The [replace] applied to a value: a quote (single or double) at the
    start and a quote at the end of the string are removed. *)
Definition unquote (value : str) : str :=
  let v := match value with
           | c :: r => if isQuote c then r else value
           | [] => []
           end in
  match rev v with
  | c :: r => if isQuote c then rev r else v
  | [] => []
  end.

Record Frontmatter := mkFm { title : str; meta : option (gmap str str) }.

(** The body of the [forEach] over the lines of the block.  [meta] is a
    plain object: assigning a string to its [__proto__] stores nothing. *)
Definition frontmatterLine (acc : str * gmap str str) (line : str) : str * gmap str str :=
  match split 58 line with
  | key :: valueParts =>
      if truthy key && negb (length valueParts =? 0)%nat then
        let value := trim (join (lit ":") valueParts) in
        let trimmedKey := trim key in
        if eqb trimmedKey (lit "title") then (unquote value, acc.2)
        else if eqb trimmedKey (lit "__proto__") then acc
        else (acc.1, <[trimmedKey := unquote value]> acc.2)
      else acc
  | [] => acc
  end.

Definition extractFrontmatter (content : str) : Frontmatter :=
  match frontmatterMatch content with
  | None => mkFm [] None
  | Some frontmatter =>
      let r := fold_left frontmatterLine (split 10 frontmatter) ([], ∅) in
      mkFm r.1 (Some r.2)
  end.

(** *** [renderApiDoc] and [renderComponentDoc] *)

Definition renderParam (param : ParameterDoc.t) : str :=
  tpl "<tr>"
  ++ tpl "<td><code>" ++ ParameterDoc.name param ++ tpl "</code>"
     ++ (if ParameterDoc.optional param
         then tpl " <em>(" ++ [0x53EF; 0x9009] ++ tpl ")</em>" else [])
     ++ tpl "</td>"
  ++ tpl "<td><code>" ++ TypeDoc.type (ParameterDoc.type param) ++ tpl "</code></td>"
  ++ tpl "<td>" ++ orElse (textOf (ParameterDoc.description param)) (lit "-") ++ tpl "</td>"
  ++ tpl "<td>"
     ++ (if present (ParameterDoc.defaultValue param)
         then tpl "<code>" ++ textOf (ParameterDoc.defaultValue param) ++ tpl "</code>"
         else lit "-")
     ++ tpl "</td>"
  ++ tpl "</tr>".

Definition renderExample (example : str) : str :=
  tpl "<pre><code>" ++ escapeHtml example ++ tpl "</code></pre>".

Definition nonEmptyList {A} (o : option (list A)) : bool :=
  match o with Some (_ :: _) => true | _ => false end.

(** The description part of an item. *)
Definition apiDescription (node : ApiDocNode.t) : str :=
  if present (ApiDocNode.description node)
  then tpl "<p class=`description`>" ++ textOf (ApiDocNode.description node) ++ tpl "</p>"
  else [].

(** The signature part. *)
Definition apiSignature (node : ApiDocNode.t) : str :=
  if present (ApiDocNode.signature node)
  then tpl "<pre><code>" ++ escapeHtml (textOf (ApiDocNode.signature node))
       ++ tpl "</code></pre>"
  else [].

(** The parameter table. *)
Definition apiParameters (node : ApiDocNode.t) : str :=
  if nonEmptyList (ApiDocNode.parameters node) then
    tpl "<h4>" ++ [0x53C2; 0x6570] ++ tpl "</h4>"
    ++ tpl "<table class=`params-table`>"
    ++ tpl "<thead><tr><th>" ++ [0x540D; 0x79F0] ++ tpl "</th><th>" ++ [0x7C7B; 0x578B]
       ++ tpl "</th><th>" ++ [0x63CF; 0x8FF0] ++ tpl "</th><th>" ++ [0x9ED8; 0x8BA4; 0x503C]
       ++ tpl "</th></tr></thead>"
    ++ tpl "<tbody>"
    ++ flat_map renderParam (default [] (ApiDocNode.parameters node))
    ++ tpl "</tbody></table>"
  else [].

(** The return type. *)
Definition apiReturns (node : ApiDocNode.t) : str :=
  match ApiDocNode.returns node with
  | Some returns =>
      tpl "<h4>" ++ [0x8FD4; 0x56DE; 0x503C] ++ tpl "</h4>"
      ++ tpl "<p><code>" ++ TypeDoc.type returns ++ tpl "</code></p>"
  | None => []
  end.

(** The examples. *)
Definition apiExamples (node : ApiDocNode.t) : str :=
  if nonEmptyList (ApiDocNode.examples node) then
    tpl "<h4>" ++ [0x793A; 0x4F8B] ++ tpl "</h4>"
    ++ flat_map renderExample (default [] (ApiDocNode.examples node))
  else [].

(** The body of the loop of [renderApiDoc]: what one node appends to
    [html]. *)
Definition renderApiItem (node : ApiDocNode.t) : str :=
  tpl "<div class=`api-item api-" ++ ApiDocNode.kindText (ApiDocNode.kind_ node) ++ tpl "`>"
  ++ tpl "<h3 id=`" ++ ApiDocNode.name node ++ tpl "`>" ++ ApiDocNode.name node ++ tpl "</h3>"
  ++ apiDescription node
  ++ apiSignature node
  ++ apiParameters node
  ++ apiReturns node
  ++ apiExamples node
  ++ tpl "</div>".

Definition renderApiDoc (apiNodes : list ApiDocNode.t) : str :=
  tpl "<div class=`api-doc`>" ++ flat_map renderApiItem apiNodes ++ tpl "</div>".

Definition dashOr (o : option str) : str := orElse (textOf o) (lit "-").

Definition codeOrDash (o : option str) : str :=
  if present o then tpl "<code>" ++ textOf o ++ tpl "</code>" else lit "-".

Definition checkOrDash (o : option bool) : str :=
  if default false o then [0x2713] else lit "-".

Definition renderProp (prop : PropDoc.t) : str :=
  tpl "<tr>"
  ++ tpl "<td><code>" ++ PropDoc.name prop ++ tpl "</code></td>"
  ++ tpl "<td><code>"
     ++ match PropDoc.type prop with
        | inl type => type
        | inr types => join (lit " | ") types
        end
     ++ tpl "</code></td>"
  ++ tpl "<td>" ++ checkOrDash (PropDoc.required prop) ++ tpl "</td>"
  ++ tpl "<td>" ++ codeOrDash (PropDoc.default prop) ++ tpl "</td>"
  ++ tpl "<td>" ++ dashOr (PropDoc.description prop) ++ tpl "</td>"
  ++ tpl "</tr>".

Definition renderEvent (event : EventDoc.t) : str :=
  tpl "<tr>"
  ++ tpl "<td><code>" ++ EventDoc.name event ++ tpl "</code></td>"
  ++ tpl "<td>"
     ++ match EventDoc.payload event with
        | Some payload => tpl "<code>" ++ TypeDoc.type payload ++ tpl "</code>"
        | None => lit "-"
        end
     ++ tpl "</td>"
  ++ tpl "<td>" ++ dashOr (EventDoc.description event) ++ tpl "</td>"
  ++ tpl "</tr>".

Definition renderSlot (slot : SlotDoc.t) : str :=
  tpl "<tr>"
  ++ tpl "<td><code>" ++ SlotDoc.name slot ++ tpl "</code></td>"
  ++ tpl "<td>" ++ checkOrDash (SlotDoc.scoped slot) ++ tpl "</td>"
  ++ tpl "<td>" ++ dashOr (SlotDoc.description slot) ++ tpl "</td>"
  ++ tpl "</tr>".

Definition renderComponentDoc (component : ComponentDoc.t) : str :=
  tpl "<div class=`component-doc`>"
  ++ tpl "<h2>" ++ ComponentDoc.name component ++ tpl "</h2>"
  ++ (if present (ComponentDoc.description component)
      then tpl "<p class=`description`>" ++ textOf (ComponentDoc.description component)
           ++ tpl "</p>"
      else [])
  ++ (if nonEmptyList (ComponentDoc.props component) then
        tpl "<h3>Props</h3>"
        ++ tpl "<table class=`props-table`>"
        ++ tpl "<thead><tr><th>" ++ [0x540D; 0x79F0] ++ tpl "</th><th>" ++ [0x7C7B; 0x578B]
           ++ tpl "</th><th>" ++ [0x5FC5; 0x9700] ++ tpl "</th><th>"
           ++ [0x9ED8; 0x8BA4; 0x503C] ++ tpl "</th><th>" ++ [0x63CF; 0x8FF0]
           ++ tpl "</th></tr></thead>"
        ++ tpl "<tbody>"
        ++ flat_map renderProp (default [] (ComponentDoc.props component))
        ++ tpl "</tbody></table>"
      else [])
  ++ (if nonEmptyList (ComponentDoc.events component) then
        tpl "<h3>Events</h3>"
        ++ tpl "<table class=`events-table`>"
        ++ tpl "<thead><tr><th>" ++ [0x4E8B; 0x4EF6; 0x540D] ++ tpl "</th><th>"
           ++ [0x53C2; 0x6570] ++ tpl "</th><th>" ++ [0x63CF; 0x8FF0]
           ++ tpl "</th></tr></thead>"
        ++ tpl "<tbody>"
        ++ flat_map renderEvent (default [] (ComponentDoc.events component))
        ++ tpl "</tbody></table>"
      else [])
  ++ (if nonEmptyList (ComponentDoc.slots component) then
        tpl "<h3>Slots</h3>"
        ++ tpl "<table class=`slots-table`>"
        ++ tpl "<thead><tr><th>" ++ [0x63D2; 0x69FD; 0x540D] ++ tpl "</th><th>"
           ++ [0x4F5C; 0x7528; 0x57DF] ++ tpl "</th><th>" ++ [0x63CF; 0x8FF0]
           ++ tpl "</th></tr></thead>"
        ++ tpl "<tbody>"
        ++ flat_map renderSlot (default [] (ComponentDoc.slots component))
        ++ tpl "</tbody></table>"
      else [])
  ++ tpl "</div>".

(** *** The generation pass

    The effects of a pass are traced: which source file is read or parsed,
    which text is rendered, which observer hook is called with which
    context, and the calls of [logger.error]: the one of a [catch] block
    of the generator, for a file that is skipped, and the one of the
    Markdown processor, for a text whose rendering throws.  (The [info],
    [debug] and [warn] lines of the logger are not traced.) *)
Inductive Event :=
  | ReadFile (file : str)
  | Rendered (file : str)
  | ParsedTypeScript (file : str)
  | ParsedVue (file : str)
  | ParsedReact (file : str)
  | HookCalled (plugin : str) (hook : Plugin.Observer) (context : GenerateContext.t)
  | LogError (file : str) (message : str)
  | LogRenderError (message : str).

(** A computation: the events it performs, then the message of the error it
    throws or its value. *)
Definition M (A : Type) : Type := list Event * (str + A).

Definition ret {A} (a : A) : M A := ([], inr a).

Definition bind {A B} (m : M A) (k : A -> M B) : M B :=
  match m with
  | (t, inl e) => (t, inl e)
  | (t, inr a) => (t ++ (k a).1, (k a).2)
  end.

Definition emit (ev : Event) : M unit := ([ev], inr tt).

(** [await f(x)] for an external call that throws ([inl]) or returns. *)
Definition call {A} (r : str + A) : M A := ([], r).

(** The value of a computation that returns. *)
Definition produced {A} (m : M A) : option A :=
  match m.2 with inr a => Some a | inl _ => None end.

(** [try { m } catch (error) { handler error }] *)
Definition tryCatch {A} (m : M A) (handler : str -> M A) : M A :=
  match m with
  | (t, inl e) => (t ++ (handler e).1, (handler e).2)
  | (t, inr a) => (t, inr a)
  end.

#[global] Instance M_ret : MRet M := @ret.
#[global] Instance M_bind : MBind M := fun A B k m => bind m k.

(** The four file enumerations of a pass. *)
Inductive Glob := MarkdownFiles | ApiFiles | VueFiles | ReactFiles.

(** What the generator finds outside itself: the files matched by each
    [fg] call, the contents of files, the three parsers applied to a file
    on disk, and [path.relative]. *)
Record Env := mkEnv {
  fg : Glob -> list str;
  readFile : str -> str + str;
  parseTypeScriptFile : str -> str + list ApiDocNode.t;
  parseVueComponent : str -> str + ComponentDoc.t;
  parseReactComponent : str -> str + ComponentDoc.t;
  relative : str -> str -> str;
}.

(** The fields of the [DocGenerator] object. *)
Record DocGenerator := mkGen {
  config : DocsConfig.t;
  plugins : list Plugin.DocsPlugin;
  markdownProcessor : Markdown.MarkdownIt;
}.

Section Pass.
Variable this : DocGenerator.
Variable env : Env.

(** The body of the [try] block of [generateMarkdownDocs]. *)
Definition markdownDoc (file : str) : M DocNode.t :=
  emit (ReadFile file);;
  content ← call (readFile env file);
  let transformed := Plugin.runTransformMarkdown (plugins this) content file in
  emit (Rendered file);;
  let rendered := Markdown.render (markdownProcessor this) transformed in
  match rendered.1 with
  | Some message => emit (LogRenderError message)
  | None => ret tt
  end;;
  let html := rendered.2 in
  let fm := extractFrontmatter content in
  let relativePath := relative env (DocsConfig.docsDir (config this)) file in
  ret (DocNode.mk relativePath
         (orElse (title fm) (getTitleFromPath relativePath))
         html DocNode.markdown (meta fm)).

Fixpoint markdownLoop (files : list str) (docs : list DocNode.t) : M (list DocNode.t) :=
  match files with
  | [] => ret docs
  | file :: rest =>
      docs' ← tryCatch (doc ← markdownDoc file; ret (docs ++ [doc]))
                        (fun error => emit (LogError file error);; ret docs);
      markdownLoop rest docs'
  end.

Definition generateMarkdownDocs : M (list DocNode.t) :=
  markdownLoop (fg env MarkdownFiles) [].

(** The body of the [try] block of [generateApiDocs]; [None] is the
    [continue] of a file without nodes. *)
Definition apiDoc (file : str) : M (option DocNode.t) :=
  emit (ParsedTypeScript file);;
  apiNodes ← call (parseTypeScriptFile env file);
  if (length apiNodes =? 0)%nat then ret None
  else
    let html := renderApiDoc apiNodes in
    let relativePath := relative env (DocsConfig.root (config this)) file in
    let docPath := replaceExt [lit ".ts"; lit ".tsx"] (lit ".html") relativePath in
    ret (Some (DocNode.mk (lit "api/" ++ docPath) (getTitleFromPath relativePath)
                 html DocNode.api None)).

Fixpoint apiLoop (files : list str) (docs : list DocNode.t) : M (list DocNode.t) :=
  match files with
  | [] => ret docs
  | file :: rest =>
      docs' ← tryCatch (doc ← apiDoc file;
                         ret (match doc with Some d => docs ++ [d] | None => docs end))
                        (fun error => emit (LogError file error);; ret docs);
      apiLoop rest docs'
  end.

Definition generateApiDocs : M (list DocNode.t) := apiLoop (fg env ApiFiles) [].

(** The bodies of the two [try] blocks of [generateComponentDocs]. *)
Definition componentNode (exts : list str) (componentDoc : ComponentDoc.t) (file : str)
  : DocNode.t :=
  let html := renderComponentDoc componentDoc in
  let relativePath := relative env (DocsConfig.componentsDir (config this)) file in
  let docPath := replaceExt exts (lit ".html") relativePath in
  DocNode.mk (lit "components/" ++ docPath) (ComponentDoc.name componentDoc)
    html DocNode.component None.

Definition vueDoc (file : str) : M DocNode.t :=
  emit (ParsedVue file);;
  componentDoc ← call (parseVueComponent env file);
  ret (componentNode [lit ".vue"] componentDoc file).

Definition reactDoc (file : str) : M DocNode.t :=
  emit (ParsedReact file);;
  componentDoc ← call (parseReactComponent env file);
  ret (componentNode [lit ".jsx"; lit ".tsx"] componentDoc file).

Fixpoint componentLoop (one : str -> M DocNode.t) (files : list str) (docs : list DocNode.t)
  : M (list DocNode.t) :=
  match files with
  | [] => ret docs
  | file :: rest =>
      docs' ← tryCatch (doc ← one file; ret (docs ++ [doc]))
                        (fun error => emit (LogError file error);; ret docs);
      componentLoop one rest docs'
  end.

Definition generateComponentDocs : M (list DocNode.t) :=
  docs ← componentLoop vueDoc (fg env VueFiles) [];
  componentLoop reactDoc (fg env ReactFiles) docs.

(** [pluginManager.beforeGenerate(context)] and [afterGenerate]: one call
    per plugin that defines the hook, in registration order. *)
Fixpoint emitAll (evs : list Event) : M unit :=
  match evs with
  | [] => ret tt
  | ev :: rest => emit ev ;; emitAll rest
  end.

Definition observe (hook : Plugin.Observer) (context : GenerateContext.t) : M unit :=
  emitAll (map (fun plugin => HookCalled plugin hook context)
             (Plugin.observerLoop hook (plugins this))).

(** [DocGenerator.generate] *)
Definition generate : M (list DocNode.t) :=
  markdownDocs ← generateMarkdownDocs;
  apiDocs ← generateApiDocs;
  componentDocs ← generateComponentDocs;
  let docs := markdownDocs ++ apiDocs ++ componentDocs in
  let context := GenerateContext.mk (config this) (map DocNode.path docs) docs in
  observe Plugin.beforeGenerate context ;;
  observe Plugin.afterGenerate context ;;
  ret docs.

(** The nodes each category contributes. *)
Definition markdownNodes : list DocNode.t :=
  omap (fun file => produced (markdownDoc file)) (fg env MarkdownFiles).
Definition apiNodes : list DocNode.t :=
  omap (fun file => mjoin (produced (apiDoc file))) (fg env ApiFiles).
Definition componentNodes : list DocNode.t :=
  omap (fun file => produced (vueDoc file)) (fg env VueFiles)
  ++ omap (fun file => produced (reactDoc file)) (fg env ReactFiles).

Definition allNodes : list DocNode.t := markdownNodes ++ apiNodes ++ componentNodes.

End Pass.

End Generator.

(** ** Regular expressions

    The parsers match text with regular expressions.  Each expression is
    written out as the function that tries it at the start of a string
    ("at" functions: the captures and the input left after the match);
    [search] and [matchAll] are [String.prototype.match] without and
    [matchAll] with the [g] flag. *)
Module Regex.
Import JS.

(** The first position, from left to right, where the expression matches. *)
Fixpoint search {A} (at_ : str -> option A) (s : str) : option A :=
  match at_ s with
  | Some a => Some a
  | None => match s with [] => None | _ :: r => search at_ r end
  end.

(** All matches, each search starting where the previous match ended;
    [skip] counts the code units of the last match still to pass.  (No
    expression below matches the empty string.) *)
Fixpoint matchAllFrom {A} (at_ : str -> option (A * str)) (skip : nat) (s : str) : list A :=
  match skip with
  | S k => match s with [] => [] | _ :: r => matchAllFrom at_ k r end
  | O =>
      match at_ s with
      | Some (a, rest) =>
          a :: match s with
               | [] => []
               | _ :: r => matchAllFrom at_ (length s - length rest - 1) r
               end
      | None => match s with [] => [] | _ :: r => matchAllFrom at_ 0 r end
      end
  end.

Definition matchAll {A} (at_ : str -> option (A * str)) (s : str) : list A :=
  matchAllFrom at_ 0 s.

(** [\w+]: the word and the rest. *)
Definition word (s : str) : option (str * str) :=
  match takeWhile isWord s with
  | [] => None
  | w => Some (w, dropWhile isWord s)
  end.

Definition skipSpaces (s : str) : str := dropWhile isWhiteSpace s.

(** A quote, single or double. *)
Definition quote (s : str) : option str :=
  match s with
  | c :: r => if (c =? 39) || (c =? 34) then Some r else None
  | [] => None
  end.

(** The line terminators, which [.] does not match. *)
Definition isLineTerminator (c : N) : bool :=
  (c =? 10) || (c =? 13) || (c =? 0x2028) || (c =? 0x2029).

(** [([^}]+)\}] followed by [suffix]: the capture and the rest. *)
Definition notClose (c : N) : bool := negb (c =? 125).

Definition braced (suffix : str) (s : str) : option (str * str) :=
  match takeWhile notClose s with
  | [] => None
  | body => (fun rest => (body, rest)) <$> stripPrefix (125 :: suffix) (dropWhile notClose s)
  end.

(** The suffixes of [ws ++ r] that start inside or right after [ws], the
    shortest first: the positions a greedy [\s*] over [ws] tries in turn. *)
Fixpoint giveBack (ws r : str) : list str :=
  match ws with
  | [] => [r]
  | c :: ws' => giveBack ws' r ++ [ws ++ r]
  end.

(** The first candidate that [f] accepts. *)
Fixpoint firstOf {A} (f : str -> option A) (cands : list str) : option A :=
  match cands with
  | [] => None
  | s :: rest => match f s with Some a => Some a | None => firstOf f rest end
  end.

End Regex.

(** ** parsers/vue.ts *)
Module Vue.
Import JS Regex.

(** The [descriptor] of the SFC parser: the contents of the script, script
    setup and template blocks that are present. *)
Record Descriptor := mkDescriptor {
  script : option str;
  scriptSetup : option str;
  template : option str;
}.

(** [descriptor.script?.content || descriptor.scriptSetup?.content || ''] *)
Definition scriptContent (d : Descriptor) : str :=
  orElse (default [] (script d)) (orElse (default [] (scriptSetup d)) []).

Definition hasScript (d : Descriptor) : bool :=
  match script d, scriptSetup d with None, None => false | _, _ => true end.

(** [/defineProps<\{([^}]+)\}>/s] *)
Definition definePropsAt (s : str) : option str :=
  r ← stripPrefix (lit "defineProps<{") s; fst <$> braced (lit ">") r.

(** [/(\w+)\??:\s*([^;\n]+)/g]: the name, the type and the whole match.
    When nothing that the type can start with follows the white space,
    [\s*] gives white space back, and the type is the last white space
    unit that is not a line feed. *)
Definition notSep (c : N) : bool := negb ((c =? 59) || (c =? 10)).

Definition typedPropAt (s : str) : option ((str * str * str) * str) :=
  '(name, s1) ← word s;
  let '(q, s2) := match s1 with
                  | 63 :: r => ([63], r)
                  | _ => ([], s1)
                  end in
  match s2 with
  | 58 :: s3 =>
      let ws := takeWhile isWhiteSpace s3 in
      let s4 := dropWhile isWhiteSpace s3 in
      match takeWhile notSep s4 with
      | (_ :: _) as ty => Some ((name, ty, name ++ q ++ [58] ++ ws ++ ty), dropWhile notSep s4)
      | [] =>
          match dropWhile (fun c => c =? 10) (rev ws) with
          | c :: before =>
              Some ((name, [c], name ++ q ++ [58] ++ rev before ++ [c]),
                    drop (S (length before)) s3)
          | [] => None
          end
      end
  | _ => None
  end.

Definition typedProp (m : str * str * str) : PropDoc.t :=
  let '(name, type, whole) := m in
  PropDoc.mk name (inl (trim type)) None (Some (negb (includes (lit "?") whole))) None.

(** [/props:\s*\{([^}]+)\}/s] *)
Definition propsObjectAt (s : str) : option str :=
  r ← stripPrefix (lit "props:") s;
  r' ← stripPrefix (lit "{") (skipSpaces r);
  fst <$> braced [] r'.

(** [/(\w+):\s*\{([^}]+)\}/g] *)
Definition optionPropAt (s : str) : option ((str * str) * str) :=
  '(name, s1) ← word s;
  s2 ← stripPrefix (lit ":") s1;
  s3 ← stripPrefix (lit "{") (skipSpaces s2);
  '(propDef, rest) ← braced [] s3;
  Some ((name, propDef), rest).

(** [/type:\s*(\w+)/] *)
Definition typeAt (s : str) : option str :=
  r ← stripPrefix (lit "type:") s; fst <$> word (skipSpaces r).

(** [/required:\s*(true|false)/] *)
Definition requiredAt (s : str) : option str :=
  r ← stripPrefix (lit "required:") s;
  if startsWith (lit "true") (skipSpaces r) then Some (lit "true")
  else if startsWith (lit "false") (skipSpaces r) then Some (lit "false")
  else None.

(** [(.+?)(?:,|$)]: the shortest run of units other than line terminators
    that a comma or the end of the input follows. *)
Fixpoint lazyToComma (s : str) : option str :=
  match s with
  | [] => None
  | c :: r =>
      if isLineTerminator c then None
      else match r with
           | [] => Some [c]
           | d :: _ => if d =? 44 then Some [c] else (c ::.) <$> lazyToComma r
           end
  end.

(** [/default:\s*(.+?)(?:,|$)/] *)
Definition defaultAt (s : str) : option str :=
  r ← stripPrefix (lit "default:") s;
  firstOf lazyToComma (giveBack (takeWhile isWhiteSpace r) (skipSpaces r)).

Definition optionProp (m : str * str) : PropDoc.t :=
  let '(name, propDef) := m in
  PropDoc.mk name
    (inl (default (lit "any") (search typeAt propDef)))
    None
    (Some (match search requiredAt propDef with
           | Some r => eqb r (lit "true")
           | None => false
           end))
    (trim <$> search defaultAt propDef).

(** [extractProps] *)
Definition extractProps (descriptor : Descriptor) : list PropDoc.t :=
  if negb (hasScript descriptor) then []
  else
    let content := scriptContent descriptor in
    match search definePropsAt content with
    | Some propsContent =>
        map typedProp (matchAll typedPropAt propsContent)
    | None => []
    end
    ++
    match search propsObjectAt content with
    | Some propsContent =>
        map optionProp (matchAll optionPropAt propsContent)
    | None => []
    end.

(** [/defineEmits<\{([^}]+)\}>/s] *)
Definition defineEmitsAt (s : str) : option str :=
  r ← stripPrefix (lit "defineEmits<{") s; fst <$> braced (lit ">") r.

(** [/(\w+):\s*\[( [^\]]* )\]/g] (the blanks inside the group are not part of it) *)
Definition notBracket (c : N) : bool := negb (c =? 93).

Definition eventAt (s : str) : option ((str * str) * str) :=
  '(name, s1) ← word s;
  s2 ← stripPrefix (lit ":") s1;
  s3 ← stripPrefix (lit "[") (skipSpaces s2);
  rest ← stripPrefix (lit "]") (dropWhile notBracket s3);
  Some ((name, takeWhile notBracket s3), rest).

Definition typedEvent (m : str * str) : EventDoc.t :=
  let '(name, payload) := m in
  EventDoc.mk name None
    (if truthy payload
     then Some (TypeDoc.mk (trim payload) (trim payload) None)
     else None).

(** [/\$emit\(['quote](\w+)['quote]/g], the two quotes being one of the
    single and the double quote each. *)
Definition emitCallAt (s : str) : option (str * str) :=
  s1 ← stripPrefix (lit "$emit(") s;
  s2 ← quote s1;
  '(name, s3) ← word s2;
  rest ← quote s3;
  Some (name, rest).

(** The loop over the [$emit] calls: a name already among the events is
    not pushed again. *)
Fixpoint pushEmits (events : list EventDoc.t) (names : list str) : list EventDoc.t :=
  match names with
  | [] => events
  | name :: rest =>
      if existsb (fun e => eqb (EventDoc.name e) name) events
      then pushEmits events rest
      else pushEmits (events ++ [EventDoc.mk name None None]) rest
  end.

(** [extractEvents] *)
Definition extractEvents (descriptor : Descriptor) : list EventDoc.t :=
  if negb (hasScript descriptor) then []
  else
    let content := scriptContent descriptor in
    let typed :=
      match search defineEmitsAt content with
      | Some emitsContent =>
          map typedEvent (matchAll eventAt emitsContent)
      | None => []
      end in
    pushEmits typed (matchAll emitCallAt content).

(** The optional group [(?:name=['quote](\w+)['quote])?]. *)
Definition slotNameGroup (s : str) : option (str * str) :=
  s1 ← stripPrefix (lit "name=") s;
  s2 ← quote s1;
  '(name, s3) ← word s2;
  rest ← quote s3;
  Some (name, rest).

Definition notGt (c : N) : bool := negb (c =? 62).

(** [/<slot\s+(?:name=['quote](\w+)['quote])?( [^>]* )>/g], without the blanks inside the last group: the name, when
    the group takes part in the match, and the attributes. *)
Definition slotAt (s : str) : option ((option str * str) * str) :=
  s1 ← stripPrefix (lit "<slot") s;
  match takeWhile isWhiteSpace s1 with
  | [] => None
  | _ :: _ =>
      let s2 := skipSpaces s1 in
      let '(name, s3) := match slotNameGroup s2 with
                         | Some (n, r) => (Some n, r)
                         | None => (None, s2)
                         end in
      rest ← stripPrefix (lit ">") (dropWhile notGt s3);
      Some ((name, takeWhile notGt s3), rest)
  end.

(** The loop of [extractSlots]. *)
Fixpoint pushSlots (slots : list SlotDoc.t) (ms : list (option str * str)) : list SlotDoc.t :=
  match ms with
  | [] => slots
  | (name, attrs) :: rest =>
      let slotName := orElse (default [] name) (lit "default") in
      let scoped := includes (lit ":") attrs || includes (lit "v-bind") attrs in
      if existsb (fun s => eqb (SlotDoc.name s) slotName) slots
      then pushSlots slots rest
      else pushSlots (slots ++ [SlotDoc.mk slotName None (Some scoped)]) rest
  end.

(** [extractSlots] *)
Definition extractSlots (descriptor : Descriptor) : list SlotDoc.t :=
  match template descriptor with
  | None => []
  | Some templateContent =>
      pushSlots [] (matchAll slotAt templateContent)
  end.

(** [(.+?)['quote]]: the shortest run of units other than line
    terminators that a quote follows. *)
Fixpoint lazyToQuote (s : str) : option str :=
  match s with
  | [] => None
  | c :: r =>
      if isLineTerminator c then None
      else match quote r with
           | Some _ => Some [c]
           | None => (c ::.) <$> lazyToQuote r
           end
  end.

(** [/name:\s*['quote](.+?)['quote]/] *)
Definition nameAt (s : str) : option str :=
  r ← stripPrefix (lit "name:") s;
  r' ← quote (skipSpaces r);
  lazyToQuote r'.

(** [extractComponentName] *)
Definition extractComponentName (filePath : str) (descriptor : Descriptor) : str :=
  match (if hasScript descriptor then search nameAt (scriptContent descriptor) else None) with
  | Some name => name
  | None =>
      let basename :=
        orElse (popSplit 47 filePath) (orElse (popSplit 92 filePath) (lit "Unknown")) in
      Generator.replaceExt [lit ".vue"] [] basename
  end.

Definition hasLineFeed (s : str) : bool := existsb (fun c => c =? 10) s.

(** [(.+?)\s*\n]: the shortest run of units other than line terminators
    after which white space with a line feed in it follows. *)
Fixpoint lazyLine (s : str) : option str :=
  match s with
  | [] => None
  | c :: r =>
      if isLineTerminator c then None
      else if hasLineFeed (takeWhile isWhiteSpace r) then Some [c]
      else (c ::.) <$> lazyLine r
  end.

(** [/\/\*\*\s*\n\s*\*\s*(.+?)\s*\n/]: the white space after the opening
    has a line feed in it and a star follows it; then the capture starts
    after the white space behind the star, or inside it when [\s*] has to
    give white space back. *)
Definition descriptionAt (s : str) : option str :=
  r ← stripPrefix (lit "/**") s;
  if hasLineFeed (takeWhile isWhiteSpace r) then
    r2 ← stripPrefix (lit "*") (skipSpaces r);
    firstOf lazyLine (giveBack (takeWhile isWhiteSpace r2) (skipSpaces r2))
  else None.

(** [extractDescription] *)
Definition extractDescription (descriptor : Descriptor) : option str :=
  search descriptionAt (scriptContent descriptor).

(** [parseVueComponent], from the descriptor the SFC parser returned. *)
Definition parseVueComponent (filePath : str) (descriptor : Descriptor) : ComponentDoc.t :=
  ComponentDoc.mk
    (extractComponentName filePath descriptor)
    (extractDescription descriptor)
    (Some (extractProps descriptor))
    (Some (extractEvents descriptor))
    (Some (extractSlots descriptor))
    (Some (SourceLocation.mk filePath 1 None)).

End Vue.

(** ** parsers/react.ts *)
Module React.
Import JS.

(** The type nodes of the Babel syntax tree that [getTypeString] and the
    prop extraction tell apart.  A key or type name is [Some] when it is an
    identifier. *)
Inductive TSType :=
  | TSStringKeyword | TSNumberKeyword | TSBooleanKeyword | TSAnyKeyword
  | TSVoidKeyword | TSNullKeyword | TSUndefinedKeyword
  | TSArrayType (elementType : TSType)
  | TSUnionType (types : list TSType)
  | TSTypeReference (typeName : option str)
  | TSTypeLiteral (members : list Member)
  | TSOtherType
with Member :=
  | TSPropertySignature (key : option str) (typeAnnotation : option TSType) (optional : bool)
  | OtherMember.

Fixpoint getTypeString (typeNode : TSType) : str :=
  match typeNode with
  | TSStringKeyword => lit "string"
  | TSNumberKeyword => lit "number"
  | TSBooleanKeyword => lit "boolean"
  | TSAnyKeyword => lit "any"
  | TSVoidKeyword => lit "void"
  | TSNullKeyword => lit "null"
  | TSUndefinedKeyword => lit "undefined"
  | TSArrayType elementType => getTypeString elementType ++ lit "[]"
  | TSUnionType types =>
      join (lit " | ")
        ((fix each (ts : list TSType) : list str :=
            match ts with
            | [] => []
            | t :: r => getTypeString t :: each r
            end) types)
  | TSTypeReference (Some typeName) => typeName
  | _ => lit "any"
  end.

(** The body of the two [forEach] loops over members. *)
Definition memberProp (member : Member) : list PropDoc.t :=
  match member with
  | TSPropertySignature (Some key) typeAnnotation optional =>
      [PropDoc.mk key
         (inl (match typeAnnotation with
               | Some t => getTypeString t
               | None => lit "any"
               end))
         None (Some (negb optional)) None]
  | _ => []
  end.

Definition extractPropsFromTypeNode (typeNode : TSType) : list PropDoc.t :=
  match typeNode with
  | TSTypeLiteral members => flat_map memberProp members
  | _ => []
  end.

Definition extractPropsFromInterface (body : list Member) : list PropDoc.t :=
  flat_map memberProp body.

(** A parameter's [typeAnnotation]. *)
Inductive Annotation := TSTypeAnnotation (typeAnnotation : TSType) | Noop.

Definition extractPropsFromTypeAnnotation (annotation : Annotation) : list PropDoc.t :=
  match annotation with
  | TSTypeAnnotation t => extractPropsFromTypeNode t
  | Noop => []
  end.

Inductive Pattern := Identifier (typeAnnotation : option Annotation) | OtherPattern.

Inductive CommentType := CommentBlock | CommentLine.
Record Comment := mkComment { ctype : CommentType; value : str }.

Inductive SuperClass :=
  | SuperIdentifier (name : str)
  | SuperMember (object property : option str)
  | SuperOther.

Inductive Init := ArrowFunctionExpression (params : list Pattern) | OtherInit.

(** The nodes the five visitors of [traverse] are called on. *)
Inductive Visited :=
  | FunctionDeclaration (id : option str) (leadingComments : list Comment)
      (params : list Pattern)
  | VariableDeclarator (id : option str) (init : Init) (leadingComments : list Comment)
  | ClassDeclaration (id : option str) (superClass : option SuperClass)
      (superTypeParameters : option (list TSType)) (leadingComments : list Comment)
  | TSInterfaceDeclaration (id : str) (body : list Member)
  | TSTypeAliasDeclaration (id : str) (typeAnnotation : TSType).

(** [/^[A-Z]/.test(name)] *)
Definition capitalized (name : str) : bool :=
  match name with c :: _ => inRange 65 90 c | [] => false end.

(** [isComponentFunction]: only a function declaration with an [id]
    passes the first test. *)
Definition isComponentFunction (node : Visited + Init) : bool :=
  match node with
  | inl (FunctionDeclaration (Some name) _ _) => capitalized name
  | _ => false
  end.

Definition isComponentClass (superClass : option SuperClass) : bool :=
  match superClass with
  | None => false
  | Some (SuperIdentifier name) =>
      eqb name (lit "Component") || eqb name (lit "PureComponent")
  | Some (SuperMember (Some object) (Some property)) =>
      eqb object (lit "React")
      && (eqb property (lit "Component") || eqb property (lit "PureComponent"))
  | Some _ => false
  end.

(** [line.trim().replace(/^\*\s?/, '')] *)
Definition stripStar (line : str) : str :=
  match trim line with
  | 42 :: c :: r => if isWhiteSpace c then r else c :: r
  | 42 :: [] => []
  | l => l
  end.

Definition extractJSDocComment (leadingComments : list Comment) : option str :=
  match last leadingComments with
  | Some comment =>
      match ctype comment with
      | CommentBlock =>
          if startsWith (lit "*") (value comment) then
            Some (join (lit " ")
                    (filter (fun line => truthy line && negb (startsWith (lit "@") line))
                       (map stripStar (split 10 (value comment)))))
          else None
      | CommentLine => None
      end
  | None => None
  end.

(** [deduplicateProps]: the filter with the set [seen]. *)
Fixpoint dedupFrom (seen : gset str) (props : list PropDoc.t) : list PropDoc.t :=
  match props with
  | [] => []
  | prop :: rest =>
      if bool_decide (PropDoc.name prop ∈ seen) then dedupFrom seen rest
      else prop :: dedupFrom ({[PropDoc.name prop]} ∪ seen) rest
  end.

Definition deduplicateProps (props : list PropDoc.t) : list PropDoc.t := dedupFrom ∅ props.

Definition extractComponentName (filePath : str) : str :=
  let basename := orElse (popSplit 47 filePath) (orElse (popSplit 92 filePath) (lit "Unknown")) in
  Generator.replaceExt [lit ".ts"; lit ".tsx"; lit ".js"; lit ".jsx"] [] basename.

(** The variables the visitors assign to. *)
Record State := mkState {
  componentName : str;
  description : option str;
  props : list PropDoc.t;
}.

Definition firstParamProps (params : list Pattern) : list PropDoc.t :=
  match params with
  | Identifier (Some annotation) :: _ => extractPropsFromTypeAnnotation annotation
  | _ => []
  end.

Definition visit (st : State) (node : Visited) : State :=
  match node with
  | FunctionDeclaration id leadingComments params =>
      match id with
      | Some name =>
          if isComponentFunction (inl node) then
            mkState name (extractJSDocComment leadingComments)
              (props st ++ firstParamProps params)
          else st
      | None => st
      end
  | VariableDeclarator id init leadingComments =>
      match id, init with
      | Some name, ArrowFunctionExpression params =>
          if isComponentFunction (inr init) then
            mkState name (extractJSDocComment leadingComments)
              (props st ++ firstParamProps params)
          else st
      | _, _ => st
      end
  | ClassDeclaration id superClass superTypeParameters leadingComments =>
      match id with
      | Some name =>
          if isComponentClass superClass then
            mkState name (extractJSDocComment leadingComments)
              (props st ++ match superTypeParameters with
                           | Some (t :: _) => extractPropsFromTypeNode t
                           | _ => []
                           end)
          else st
      | None => st
      end
  | TSInterfaceDeclaration id body =>
      if endsWith (lit "Props") id
      then mkState (componentName st) (description st)
             (props st ++ extractPropsFromInterface body)
      else st
  | TSTypeAliasDeclaration id typeAnnotation =>
      if endsWith (lit "Props") id
      then mkState (componentName st) (description st)
             (props st ++ extractPropsFromTypeNode typeAnnotation)
      else st
  end.

(** [parseReactComponent], from the nodes of the parsed file in the order
    [traverse] visits them. *)
Definition parseReactComponent (filePath : str) (ast : list Visited) : ComponentDoc.t :=
  let st := fold_left visit ast (mkState (extractComponentName filePath) None []) in
  ComponentDoc.mk (componentName st) (description st)
    (Some (deduplicateProps (props st))) None None
    (Some (SourceLocation.mk filePath 1 None)).

End React.

(** ** parsers/typescript.ts *)
Module TS.
Import JS.

Inductive SyntaxKind :=
  | SourceFile | FunctionDeclaration | ClassDeclaration | InterfaceDeclaration
  | TypeAliasDeclaration | VariableStatement | VariableDeclarationList
  | VariableDeclaration | EnumDeclaration | MethodDeclaration | PropertyDeclaration
  | PropertySignature | Parameter_ | Block | ModuleDeclaration | ModuleBlock
  | Identifier | OtherKind.

(** [node.name]: whether it is an identifier, and its text. *)
Record Name := mkName { isIdentifier : bool; nameText : str }.

(** A JSDoc tag: [tag.tagName.text] and the text of [tag.comment], if any. *)
Record JSDocTag := mkTag { tagName : str; tagComment : option str }.

(** A node of the compiler's syntax tree with what the parser reads of it:
    - [text] is [node.getText(sourceFile)];
    - [startLine] and [startCharacter] are the zero-based line and
      character of [node.getStart()], the position of the node's first
      token, the comments before it skipped;
    - [jsDoc] holds the text of the [comment] of each attached JSDoc block,
      [jsDocTags] is [ts.getJSDocTags(node)];
    - [typeText] is the text of [node.type];
    - [children] are the nodes [ts.forEachChild] calls back on, in order;
      the members of a class or interface, the parameters of a function
      and the declaration list of a variable statement are among them. *)
Inductive Node := mkNode {
  kind : SyntaxKind;
  name : option Name;
  text : str;
  startLine : N;
  startCharacter : N;
  jsDoc : list (option str);
  jsDocTags : list JSDocTag;
  typeText : option str;
  questionToken : bool;
  initializer : option str;
  children : list Node;
}.

Definition isKind (k : SyntaxKind) (node : Node) : bool :=
  match k, kind node with
  | SourceFile, SourceFile | FunctionDeclaration, FunctionDeclaration
  | ClassDeclaration, ClassDeclaration | InterfaceDeclaration, InterfaceDeclaration
  | TypeAliasDeclaration, TypeAliasDeclaration | VariableStatement, VariableStatement
  | VariableDeclarationList, VariableDeclarationList
  | VariableDeclaration, VariableDeclaration | EnumDeclaration, EnumDeclaration
  | MethodDeclaration, MethodDeclaration | PropertyDeclaration, PropertyDeclaration
  | PropertySignature, PropertySignature | Parameter_, Parameter_ | Block, Block
  | ModuleDeclaration, ModuleDeclaration | ModuleBlock, ModuleBlock
  | Identifier, Identifier | OtherKind, OtherKind => true
  | _, _ => false
  end.

Definition nameOf (node : Node) : str :=
  match name node with Some n => nameText n | None => [] end.

(** [getSourceLocation] *)
Definition getSourceLocation (fileName : str) (node : Node) : SourceLocation.t :=
  SourceLocation.mk fileName (startLine node + 1) (Some (startCharacter node + 1)).

(** [parseType] on the text of a type node. *)
Definition parseType (typeName : str) : TypeDoc.t :=
  TypeDoc.mk typeName typeName (Some (includes (lit "<") typeName)).

Definition typeOr (fallback : string) (node : Node) : TypeDoc.t :=
  match typeText node with
  | Some t => parseType t
  | None => TypeDoc.mk (lit fallback) (lit fallback) None
  end.

Record JSDocComment := mkJSDoc {
  description : option str;
  examples : list str;
  tags : list (str * (str + list str));
}.

(** The assignment to [tags[tagName]] in [getJSDocComment], for a tag
    name that a plain object does not inherit (for one it inherits, such
    as [constructor], the test [tags[tagName]] already holds before the
    first assignment). *)
Fixpoint addTag (tags : list (str * (str + list str))) (tagName tagText : str)
  : list (str * (str + list str)) :=
  match tags with
  | [] => [(tagName, inl tagText)]
  | (k, v) :: rest =>
      if eqb k tagName then
        match v with
        | inr texts => (k, inr (texts ++ [tagText])) :: rest
        | inl text =>
            if truthy text then (k, inr [text; tagText]) :: rest
            else (k, inl tagText) :: rest
        end
      else (k, v) :: addTag rest tagName tagText
  end.

Definition getJSDocComment (node : Node) : option JSDocComment :=
  match jsDoc node with
  | [] => None
  | comment :: _ =>
      let description := match comment with
                         | Some c => if truthy c then Some c else None
                         | None => None
                         end in
      let r := fold_left
                 (fun (acc : list str * list (str * (str + list str))) tag =>
                    let tagText := default [] (tagComment tag) in
                    if eqb (tagName tag) (lit "example") then (acc.1 ++ [tagText], acc.2)
                    else (acc.1, addTag acc.2 (tagName tag) tagText))
                 (jsDocTags node) ([], []) in
      Some (mkJSDoc description r.1 r.2)
  end.

Definition docDescription (node : Node) : option str := getJSDocComment node ≫= description.
Definition docExamples (node : Node) : option (list str) := examples <$> getJSDocComment node.
Definition docTags (node : Node) : option (list (str * (str + list str))) :=
  tags <$> getJSDocComment node.

Definition parseParameter (param : Node) : ParameterDoc.t :=
  ParameterDoc.mk (nameOf param) (typeOr "any" param) None (questionToken param)
    (initializer param).

Definition parametersOf (node : Node) : list Node := filter (isKind Parameter_) (children node).

Definition parseFunctionDeclaration (fileName : str) (node : Node) : ApiDocNode.t :=
  ApiDocNode.mk (nameOf node) ApiDocNode.function (docDescription node)
    (Some (text node))
    (Some (map parseParameter (parametersOf node)))
    (Some (typeOr "void" node))
    (docExamples node) (docTags node)
    (Some (getSourceLocation fileName node)) None.

Definition withName (name : str) (doc : ApiDocNode.t) : ApiDocNode.t :=
  ApiDocNode.mk name (ApiDocNode.kind_ doc) (ApiDocNode.description doc)
    (ApiDocNode.signature doc) (ApiDocNode.parameters doc) (ApiDocNode.returns doc)
    (ApiDocNode.examples doc) (ApiDocNode.tags doc) (ApiDocNode.source doc)
    (ApiDocNode.children doc).

Definition propertyChild (fileName : str) (member : Node) : ApiDocNode.t :=
  ApiDocNode.mk (nameOf member) ApiDocNode.variable (docDescription member) None None
    (Some (typeOr "any" member)) None None
    (Some (getSourceLocation fileName member)) None.

(** The body of the [forEach] over the members of a class. *)
Definition classMember (fileName : str) (member : Node) : list ApiDocNode.t :=
  match name member with
  | Some n =>
      if isKind MethodDeclaration member
      then [withName (nameText n) (parseFunctionDeclaration fileName member)]
      else if isKind PropertyDeclaration member then [propertyChild fileName member]
      else []
  | None => []
  end.

Definition parseClassDeclaration (fileName : str) (node : Node) : ApiDocNode.t :=
  ApiDocNode.mk (nameOf node) ApiDocNode.class (docDescription node)
    (Some (lit "class " ++ nameOf node)) None None
    (docExamples node) (docTags node)
    (Some (getSourceLocation fileName node))
    (Some (flat_map (classMember fileName) (children node))).

Definition interfaceMember (fileName : str) (member : Node) : list ApiDocNode.t :=
  match name member with
  | Some _ =>
      if isKind PropertySignature member then [propertyChild fileName member] else []
  | None => []
  end.

Definition parseInterfaceDeclaration (fileName : str) (node : Node) : ApiDocNode.t :=
  ApiDocNode.mk (nameOf node) ApiDocNode.interface (docDescription node)
    (Some (lit "interface " ++ nameOf node)) None None
    (docExamples node) (docTags node)
    (Some (getSourceLocation fileName node))
    (Some (flat_map (interfaceMember fileName) (children node))).

Definition parseTypeAliasDeclaration (fileName : str) (node : Node) : ApiDocNode.t :=
  ApiDocNode.mk (nameOf node) ApiDocNode.type (docDescription node)
    (Some (text node)) None (Some (parseType (default [] (typeText node))))
    (docExamples node) (docTags node)
    (Some (getSourceLocation fileName node)) None.

(** [node.declarationList.declarations] *)
Definition declarationsOf (node : Node) : list Node :=
  flat_map (fun list => filter (isKind VariableDeclaration) (children list))
    (filter (isKind VariableDeclarationList) (children node)).

Definition parseVariableStatement (fileName : str) (node : Node) : list ApiDocNode.t :=
  flat_map
    (fun declaration =>
       match name declaration with
       | Some n =>
           if isIdentifier n then
             [ApiDocNode.mk (nameText n) ApiDocNode.variable (docDescription node)
                (Some (text declaration)) None (Some (typeOr "any" declaration))
                (docExamples node) (docTags node)
                (Some (getSourceLocation fileName declaration)) None]
           else []
       | None => []
       end)
    (declarationsOf node).

Definition parseEnumDeclaration (fileName : str) (node : Node) : ApiDocNode.t :=
  ApiDocNode.mk (nameOf node) ApiDocNode.enum (docDescription node)
    (Some (lit "enum " ++ nameOf node)) None None
    (docExamples node) (docTags node)
    (Some (getSourceLocation fileName node)) None.

Definition hasName (node : Node) : bool :=
  match name node with Some _ => true | None => false end.

(** The chain of tests at the head of [visit]: what the node itself
    pushes onto [nodes]. *)
Definition declared (fileName : str) (node : Node) : list ApiDocNode.t :=
  if isKind FunctionDeclaration node && hasName node
  then [parseFunctionDeclaration fileName node]
  else if isKind ClassDeclaration node && hasName node
  then [parseClassDeclaration fileName node]
  else if isKind InterfaceDeclaration node then [parseInterfaceDeclaration fileName node]
  else if isKind TypeAliasDeclaration node then [parseTypeAliasDeclaration fileName node]
  else if isKind VariableStatement node then parseVariableStatement fileName node
  else if isKind EnumDeclaration node then [parseEnumDeclaration fileName node]
  else [].

(** [visit]: the node, then [ts.forEachChild(node, visit)]. *)
Fixpoint visit (fileName : str) (node : Node) : list ApiDocNode.t :=
  declared fileName node
  ++ (fix visitAll (nodes : list Node) : list ApiDocNode.t :=
        match nodes with
        | [] => []
        | child :: rest => visit fileName child ++ visitAll rest
        end) (children node).

(** [isExported]: every node counts as exported. *)
Definition isExported (node : ApiDocNode.t) : bool := true.

(** [parseTypeScriptFile], from the source file the compiler created. *)
Definition parseTypeScriptFile (fileName : str) (sourceFile : Node) : list ApiDocNode.t :=
  filter isExported (visit fileName sourceFile).

(** The nodes of a tree in the order [visit] reaches them. *)
Fixpoint preorder (node : Node) : list Node :=
  node :: (fix all (nodes : list Node) : list Node :=
             match nodes with
             | [] => []
             | child :: rest => preorder child ++ all rest
             end) (children node).

End TS.

(** ** builder/build.ts *)
Module Builder.
Import JS.

(** The output tree: the text of the file at each path. *)
Abbreviation FS := (gmap str str).

(** A build step: it changes the output tree and returns, or throws. *)
Definition B (A : Type) : Type := FS -> (str + A) * FS.

#[global] Instance B_ret : MRet B := fun A a fs => (inr a, fs).
#[global] Instance B_bind : MBind B := fun A C k m fs =>
  match m fs with
  | (inl e, fs') => (inl e, fs')
  | (inr a, fs') => k a fs'
  end.

(** [fs.writeFile]: the file is created or replaced.  The calls of the
    file system are taken to succeed, and a path to name the file it spells. *)
Definition writeFile (path content : str) : B unit :=
  fun fs => (inr tt, <[path := content]> fs).

(** [fs.ensureDir]: directories hold no text. *)
Definition ensureDir (dir : str) : B unit := fun fs => (inr tt, fs).

Section Build.
(** [path.join] and [path.dirname] of node:path, and [renderPage], a pure
    function of the configuration and the node. *)
Variable join : str -> str -> str.
Variable dirname : str -> str.
Variable renderPage : DocsConfig.t -> DocNode.t -> str.

Definition htmlPath (config : DocsConfig.t) (doc : DocNode.t) : str :=
  join (DocsConfig.outDir config)
    (Generator.replaceExt [lit ".md"] (lit ".html") (DocNode.path doc)).

(** [generateHtmlFiles] *)
Fixpoint generateHtmlFiles (config : DocsConfig.t) (docs : list DocNode.t) : B unit :=
  match docs with
  | [] => mret tt
  | doc :: rest =>
      let htmlPath := htmlPath config doc in
      let html := renderPage config doc in
      ensureDir (dirname htmlPath);;
      writeFile htmlPath html;;
      generateHtmlFiles config rest
  end.

End Build.

End Builder.

(** ** Statements of the specification and sample inputs *)
Module Spec.
Import JS.

(** [s] occurs in [t] as a contiguous piece. *)
Definition infix (s t : str) : Prop := exists pre post, t = pre ++ s ++ post.

(** The title of a prose node as the specification words it: the front
    matter title when there is one, otherwise the first extracted heading,
    otherwise the humanized file name. *)
Definition specTitle (md : Markdown.MarkdownIt) (content relativePath : str) : str :=
  let fm := Generator.extractFrontmatter content in
  if truthy (Generator.title fm) then Generator.title fm
  else match Markdown.extractHeaders md content with
       | Some (h :: _) => Markdown.text h
       | _ => Generator.getTitleFromPath relativePath
       end.

(** The file enumerations of [env] without the file [f]. *)
Definition withoutFile (f : str) (env : Generator.Env) : Generator.Env :=
  Generator.mkEnv
    (fun g => filter (fun file => file ≠ f) (Generator.fg env g))
    (Generator.readFile env) (Generator.parseTypeScriptFile env)
    (Generator.parseVueComponent env) (Generator.parseReactComponent env)
    (Generator.relative env).

Definition throws {A} (r : str + A) : Prop := match r with inl _ => True | inr _ => False end.

Definition sameGlob (a b : Generator.Glob) : bool :=
  match a, b with
  | Generator.MarkdownFiles, Generator.MarkdownFiles
  | Generator.ApiFiles, Generator.ApiFiles
  | Generator.VueFiles, Generator.VueFiles
  | Generator.ReactFiles, Generator.ReactFiles => true
  | _, _ => false
  end.

(** The project [env] without the listing of the file [f] in the
    enumeration [g]; the other enumerations are as they were. *)
Definition withoutListing (g : Generator.Glob) (f : str) (env : Generator.Env)
  : Generator.Env :=
  Generator.mkEnv
    (fun g' => if sameGlob g g'
               then filter (fun file => file ≠ f) (Generator.fg env g')
               else Generator.fg env g')
    (Generator.readFile env) (Generator.parseTypeScriptFile env)
    (Generator.parseVueComponent env) (Generator.parseReactComponent env)
    (Generator.relative env).

(** Processing [f] as a file of the enumeration [g] throws [e]. *)
Definition failsIn (env : Generator.Env) (g : Generator.Glob) (f e : str) : Prop :=
  match g with
  | Generator.MarkdownFiles => Generator.readFile env f = inl e
  | Generator.ApiFiles => Generator.parseTypeScriptFile env f = inl e
  | Generator.VueFiles => Generator.parseVueComponent env f = inl e
  | Generator.ReactFiles => Generator.parseReactComponent env f = inl e
  end.






(** White space only. *)
Definition blank (s : str) : Prop := Forall (fun c => isWhiteSpace c = true) s.



(** The syntax nodes a node of the tree is documented as: itself for a
    named function or class, an interface, a type alias and an enum; its
    identifier-named declarators for a variable statement. *)
Definition declarations (node : TS.Node) : list TS.Node :=
  if TS.isKind TS.FunctionDeclaration node && TS.hasName node then [node]
  else if TS.isKind TS.ClassDeclaration node && TS.hasName node then [node]
  else if TS.isKind TS.InterfaceDeclaration node then [node]
  else if TS.isKind TS.TypeAliasDeclaration node then [node]
  else if TS.isKind TS.VariableStatement node then
    flat_map (fun declaration =>
                match TS.name declaration with
                | Some n => if TS.isIdentifier n then [declaration] else []
                | None => []
                end)
      (TS.declarationsOf node)
  else if TS.isKind TS.EnumDeclaration node then [node]
  else [].

(** The kinds of syntax node that are documented. *)
Definition isDeclaration (node : TS.Node) : bool :=
  TS.isKind TS.FunctionDeclaration node || TS.isKind TS.ClassDeclaration node
  || TS.isKind TS.InterfaceDeclaration node || TS.isKind TS.TypeAliasDeclaration node
  || TS.isKind TS.VariableDeclaration node || TS.isKind TS.EnumDeclaration node.

(** The nodes of the top-level declarations only, as the specification
    words the result of the extractor. *)
Definition topLevelOnly (fileName : str) (sourceFile : TS.Node) : list ApiDocNode.t :=
  flat_map (TS.declared fileName) (TS.children sourceFile).

(** The page last written at [path] by a build of [docs], if any. *)
Fixpoint written (pathOf : DocNode.t -> str) (page : DocNode.t -> str)
    (docs : list DocNode.t) (path : str) : option str :=
  match docs with
  | [] => None
  | doc :: rest =>
      match written pathOf page rest path with
      | Some html => Some html
      | None => if eqb (pathOf doc) path then Some (page doc) else None
      end
  end.

(** Two nodes of a list resolve to the same output path. *)
Definition collide (pathOf : DocNode.t -> str) (docs : list DocNode.t) : Prop :=
  exists i j a b, i <> j /\ nth_error docs i = Some a /\ nth_error docs j = Some b
                  /\ pathOf a = pathOf b.

End Spec.

Module Examples.
Import JS.

Definition cfg : DocsConfig.t :=
  DocsConfig.mk (lit "Docs") (lit "Documentation site") (lit "/proj") (lit "/proj/docs")
    (lit "/proj/src/components") (lit "/proj/dist") (lit "/").

(** [path.relative] for a file below the directory. *)
Definition relativeBelow (from to : str) : str :=
  default to (stripPrefix (from ++ lit "/") to).

(** A prose file without front matter whose text is one heading, and
    markdown-it on it: the token stream and the HTML of that text. *)
Definition welcome : str := lit "# Welcome".

Definition md : Markdown.MarkdownIt :=
  Markdown.mkMd
    (fun content =>
       if eqb content welcome then
         [Markdown.mkToken (lit "heading_open") (lit "h1") [];
          Markdown.mkToken (lit "inline") [] (lit "Welcome");
          Markdown.mkToken (lit "heading_close") (lit "h1") []]
       else [])
    (fun content => inr (if eqb content welcome then lit "<h1>Welcome</h1>" else content)).

(** A plugin that defines the two generation observers and nothing else. *)
Definition watcher : Plugin.DocsPlugin :=
  Plugin.mkPlugin (lit "watcher") None None
    (fun h => match h with
              | Plugin.beforeGenerate | Plugin.afterGenerate => true
              | _ => false
              end).

Definition generator : Generator.DocGenerator := Generator.mkGen cfg [watcher] md.

Definition gettingStarted : str := lit "/proj/docs/getting-started.md".
Definition broken : str := lit "/proj/docs/broken.md".

(** A project with two prose files, one of which cannot be read. *)
Definition env : Generator.Env :=
  Generator.mkEnv
    (fun g => match g with
              | Generator.MarkdownFiles => [broken; gettingStarted]
              | _ => []
              end)
    (fun file => if eqb file gettingStarted then inr welcome
                 else inl (lit "ENOENT: no such file or directory"))
    (fun _ => inl (lit "no such file"))
    (fun _ => inl (lit "no such file"))
    (fun _ => inl (lit "no such file"))
    relativeBelow.

(** The same project with the readable file only. *)
Definition env1 : Generator.Env := Spec.withoutFile broken env.

(** A component file below the project root that is both an API file and
    a React file: the Babel parser rejects it, the TypeScript compiler
    still gives a tree with one interface. *)
Definition card : str := lit "/proj/src/components/Card.tsx".

Definition cardProps : ApiDocNode.t :=
  ApiDocNode.mk (lit "CardProps") ApiDocNode.interface None
    (Some (lit "interface CardProps")) None None None None
    (Some (SourceLocation.mk card 1 (Some 1))) (Some []).

Definition cardEnv : Generator.Env :=
  Generator.mkEnv
    (fun g => match g with
              | Generator.ApiFiles | Generator.ReactFiles => [card]
              | _ => []
              end)
    (fun _ => inl (lit "no such file"))
    (fun file => if eqb file card then inr [cardProps] else inl (lit "no such file"))
    (fun _ => inl (lit "no such file"))
    (fun file => inl (lit "Unexpected token (12:4)"))
    relativeBelow.

Definition gettingStartedDoc : DocNode.t :=
  DocNode.mk (lit "getting-started.md") (lit "Getting Started") (lit "<h1>Welcome</h1>")
    DocNode.markdown None.

Definition context1 : GenerateContext.t :=
  GenerateContext.mk cfg [lit "getting-started.md"] [gettingStartedDoc].


(** A script setup block whose typed prop block has a commented-out line
    above the declaration of [size]. *)
Definition sizeScript : str :=
  lit "defineProps<{" ++ [10]
  ++ lit "  // size: 'small' | 'large'" ++ [10]
  ++ lit "  size: string" ++ [10]
  ++ lit "}>()".

Definition sizeComponent : Vue.Descriptor :=
  Vue.mkDescriptor None (Some sizeScript) (Some (lit "<div><slot /></div>")).





(** [function outer() { function inner() {} }] on lines 1 to 3 of a file. *)
Definition plain (kind : TS.SyntaxKind) (text : str) (line character : N)
    (children : list TS.Node) : TS.Node :=
  TS.mkNode kind None text line character [] [] None false None children.

Definition named (kind : TS.SyntaxKind) (name text : str) (line character : N)
    (children : list TS.Node) : TS.Node :=
  TS.mkNode kind (Some (TS.mkName true name)) text line character [] [] None false None
    children.

Definition innerText : str := lit "function inner() {}".
Definition outerText : str := lit "function outer() {" ++ [10] ++ lit "  " ++ innerText ++ [10] ++ lit "}".

Definition innerFunction : TS.Node :=
  named TS.FunctionDeclaration (lit "inner") innerText 1 2
    [plain TS.Identifier (lit "inner") 1 11 []; plain TS.Block (lit "{}") 1 19 []].

Definition outerFunction : TS.Node :=
  named TS.FunctionDeclaration (lit "outer") outerText 0 0
    [plain TS.Identifier (lit "outer") 0 9 [];
     plain TS.Block (lit "{" ++ [10] ++ lit "  " ++ innerText ++ [10] ++ lit "}") 0 17
       [innerFunction]].

Definition nestedFile : TS.Node := plain TS.SourceFile outerText 0 0 [outerFunction].

(** [for (let i = 0; i < 3; i++) {}]: the declarator of [i] stands in the
    head of the loop, not in a variable statement. *)
Definition loopText : str := lit "for (let i = 0; i < 3; i++) {}".

Definition loopFile : TS.Node :=
  plain TS.SourceFile loopText 0 0
    [plain TS.OtherKind loopText 0 0
       [plain TS.VariableDeclarationList (lit "let i = 0") 0 5
          [named TS.VariableDeclaration (lit "i") (lit "i = 0") 0 9
             [plain TS.Identifier (lit "i") 0 9 []; plain TS.OtherKind (lit "0") 0 13 []]];
        plain TS.OtherKind (lit "i < 3") 0 16 [];
        plain TS.OtherKind (lit "i++") 0 23 [];
        plain TS.Block (lit "{}") 0 28 []]].

(** Two component nodes, one from [Button.vue] and one from [Button.tsx],
    with the same path. *)
Definition vueButton : DocNode.t :=
  DocNode.mk (lit "components/Button.html") (lit "Button")
    (lit "<div class=component-doc><h2>Button</h2><h3>Slots</h3></div>")
    DocNode.component None.

Definition reactButton : DocNode.t :=
  DocNode.mk (lit "components/Button.html") (lit "Button")
    (lit "<div class=component-doc><h2>Button</h2><h3>Props</h3></div>")
    DocNode.component None.

(** [path.join] and [path.dirname] on normalized relative paths, and a
    page that is the title and the content. *)
Definition joinPath (a b : str) : str := a ++ lit "/" ++ b.

Definition dirnamePath (p : str) : str :=
  rev (drop 1 (dropWhile (fun c => negb (c =? 47)) (rev p))).

Definition page (config : DocsConfig.t) (doc : DocNode.t) : str :=
  lit "<title>" ++ DocNode.title doc ++ lit " - " ++ DocsConfig.title config
  ++ lit "</title>" ++ DocNode.content doc.

End Examples.

(** ** Notions used to state further properties *)
(** ** search/indexer.ts *)
Module Indexer.
Import JS Regex.

(** [h] under the flag [i], the class [[1-6]] and the class [[^<]]. *)
Definition isH (c : N) : bool := (c =? 104) || (c =? 72).
Definition isLevel (c : N) : bool := inRange 49 54 c.
Definition notLt (c : N) : bool := negb (c =? 60).

(** [/<h[1-6]( [^>]* )>( [^<]+ )<\/h[1-6]>/gi], without the blanks: the
    opening tag runs to the first greater-than sign, the capture to the
    next less-than sign, where the closing tag has to stand.  The capture
    and the rest. *)
Definition headerAt (s : str) : option (str * str) :=
  match s with
  | 60 :: h :: d :: s1 =>
      if isH h && isLevel d then
        match dropWhile Vue.notGt s1 with
        | _ :: s2 =>
            match takeWhile notLt s2, dropWhile notLt s2 with
            | (_ :: _) as text, 60 :: 47 :: h' :: d' :: 62 :: rest =>
                if isH h' && isLevel d' then Some (text, rest) else None
            | _, _ => None
            end
        | [] => None
        end
      else None
  | _ => None
  end.

(** [extractHeaders]: the loop over [headerRegex.exec(html)]. *)
Definition extractHeaders (html : str) : list str := map trim (matchAll headerAt html).

End Indexer.

(** ** core/logger.ts *)
Module Logger.

Inductive LogLevel := debug | info | warn | error | success.

Definition sameLevel (a b : LogLevel) : bool :=
  match a, b with
  | debug, debug | info, info | warn, warn | error, error | success, success => true
  | _, _ => false
  end.

Definition levels : list LogLevel := [debug; info; warn; error; success].

(** [levels.indexOf(level)], which is -1 for a level that is not listed. *)
Fixpoint indexFrom (i : Z) (levels : list LogLevel) (level : LogLevel) : Z :=
  match levels with
  | [] => (-1)%Z
  | l :: rest => if sameLevel l level then i else indexFrom (i + 1)%Z rest level
  end.

Definition indexOf (levels : list LogLevel) (level : LogLevel) : Z := indexFrom 0 levels level.

(** [shouldLog], for a logger whose level is [logLevel]. *)
Definition shouldLog (logLevel level : LogLevel) : bool :=
  let currentLevelIndex := indexOf levels logLevel in
  let targetLevelIndex := indexOf levels level in
  (targetLevelIndex >=? currentLevelIndex)%Z.

End Logger.

Module Notions.
Import JS.

(** The calls of [logger.error]. *)
Definition isLogError (ev : Generator.Event) : bool :=
  match ev with
  | Generator.LogError _ _ | Generator.LogRenderError _ => true
  | _ => false
  end.

(** What is logged as an error for a prose file: the read error, or the
    error of the renderer on the transformed text. *)
Definition markdownLog (this : Generator.DocGenerator) (env : Generator.Env) (file : str)
  : list Generator.Event :=
  match Generator.readFile env file with
  | inl e => [Generator.LogError file e]
  | inr content =>
      match (Markdown.render (Generator.markdownProcessor this)
               (Plugin.runTransformMarkdown (Generator.plugins this) content file)).1 with
      | Some message => [Generator.LogRenderError message]
      | None => []
      end
  end.

Definition isHookCalled (ev : Generator.Event) : bool :=
  match ev with Generator.HookCalled _ _ _ => true | _ => false end.

(** The log entry of a call that throws. *)
Definition logged {A} (file : str) (r : str + A) : option Generator.Event :=
  match r with inl e => Some (Generator.LogError file e) | inr _ => None end.

(** What processing one file adds to the trace: its own events, then the
    log entry when it throws. *)
Definition fileTrace {A} (one : str -> Generator.M A) (file : str) : list Generator.Event :=
  (one file).1
  ++ match (one file).2 with
     | inl e => [Generator.LogError file e]
     | inr _ => []
     end.

(** A directory prefix of a path: nothing, or text that ends with a slash. *)
Definition directory (dir : str) : Prop := dir = [] \/ last dir = Some 47.

(** A call that returns, and a parse that returns at least one node. *)
Definition returns {A} (r : str + A) : bool :=
  match r with inr _ => true | inl _ => false end.

Definition declares (r : str + list ApiDocNode.t) : bool :=
  match r with inr (_ :: _) => true | _ => false end.

(** The code units a slug is made of: word units, the hyphen and the
    percent sign. *)
Definition slugUnit (c : N) : bool := isWord c || (c =? 45) || (c =? 37).

(** The tokens [extractHeaders] looks at. *)
Definition headingOpen (token : Markdown.Token) : bool :=
  eqb (Markdown.type token) (lit "heading_open").

(** A component that declares its props in the options style. *)
Definition optionsComponent : Vue.Descriptor :=
  Vue.mkDescriptor
    (Some (lit "export default { props: { size: { type: String, required: true } } }"))
    None (Some (lit "<div><slot></slot></div>")).

(** A component that emits two events, one of them twice. *)
Definition emittingComponent : Vue.Descriptor :=
  Vue.mkDescriptor
    (Some (lit "function f() { this.$emit('open'); this.$emit('close'); this.$emit('open') }"))
    None None.

(** A location in [fileName] with a line and a column counted from 1. *)
Definition locatedIn (fileName : str) (source : option SourceLocation.t) : Prop :=
  exists line column,
    source = Some (SourceLocation.mk fileName line (Some column)) /\ 1 <= line /\ 1 <= column.

(** The text of an [example] tag. *)
Definition isExample (tag : TS.JSDocTag) : bool := eqb (TS.tagName tag) (lit "example").
Definition tagText (tag : TS.JSDocTag) : str := default [] (TS.tagComment tag).

(** The path [a] lies below the path [b] taken as a directory. *)
Definition below (a b : str) : bool := startsWith (b ++ lit "/") a.

(** No path of the list lies below another one. *)
Definition unnested (paths : list str) : Prop :=
  Forall (fun a => Forall (fun b => below a b = false) paths) paths.

(** Two prose nodes with different paths. *)
Definition guideDoc : DocNode.t :=
  DocNode.mk (lit "guide/intro.md") (lit "Intro") (lit "<p>Hello</p>") DocNode.markdown None.

(** A component with one prop whose type has markup characters in it. *)
Definition listComponent : ComponentDoc.t :=
  ComponentDoc.mk (lit "List") None
    (Some [PropDoc.mk (lit "items") (inl (lit "Array<string>")) None (Some true) None])
    (Some []) (Some []) None.

Definition wordName (name : str) : Prop := name <> [] /\ Forall (fun c => isWord c = true) name.

End Notions.

(* ===================================================================== *)
(** * Theorems *)
(* ===================================================================== *)

Section PluginFacts.
Import JS Plugin.

Lemma configLoop_fold (plugins : list DocsPlugin) (cfg : DocsConfig.t) :
  configLoop plugins cfg = fold_left configStep plugins cfg.
Proof.
  revert cfg; induction plugins as [|p ps IH]; intros cfg; [reflexivity|].
  cbn [configLoop fold_left]; unfold configStep at 2.
  destruct (config p) as [hook|]; [|apply IH].
  destruct (hook cfg); apply IH.
Qed.

Lemma transformLoop_fold (plugins : list DocsPlugin) (file content : str) :
  transformLoop plugins file content = fold_left (transformStep file) plugins content.
Proof.
  revert content; induction plugins as [|p ps IH]; intros content; [reflexivity|].
  cbn [transformLoop fold_left]; unfold transformStep at 2.
  destruct (transformMarkdown p); apply IH.
Qed.

(** Plugins run in the order [registerBatch] received them. *)
Lemma registerBatch_order (plugins batch : list DocsPlugin) :
  registerBatch plugins batch = plugins ++ batch.
Proof.
  revert plugins; induction batch as [|p ps IH]; intros plugins.
  - now rewrite app_nil_r.
  - unfold registerBatch in *; cbn [fold_left]; rewrite IH.
    unfold register; now rewrite <- app_assoc.
Qed.

(** C7: [PluginManager.config] and [PluginManager.transformMarkdown] are the
    left-to-right folds, in registration order, of the plugins' hooks: a
    plugin without the hook passes the running value on unchanged, and so
    does a [config] hook that returns nothing. *)
Theorem plugin_hooks_fold_in_order :
  forall (plugins : list DocsPlugin) (cfg : DocsConfig.t) (content file : str),
    runConfig plugins cfg
    = fold_left
        (fun acc p =>
           match config p with
           | None => acc
           | Some hook => match hook acc with None => acc | Some modified => modified end
           end)
        plugins cfg
    /\ runTransformMarkdown plugins content file
       = fold_left
           (fun acc p =>
              match transformMarkdown p with
              | None => acc
              | Some hook => hook acc file
              end)
           plugins content.
Proof.
  intros plugins cfg content file; split.
  - apply configLoop_fold.
  - apply transformLoop_fold.
Qed.

End PluginFacts.



Section GeneratorFacts.
Import JS Generator Spec.

(** C2: the two slug computations disagree on a heading with punctuation:
    the anchor slug of Render keeps (and percent-encodes) what
    [extractHeaders] strips. *)
Theorem slug_paths_diverge :
  Markdown.anchorSlugify (lit "Hello, World!") = Some (lit "hello%2C-world!")
  /\ Markdown.slugify (lit "Hello, World!") = Some (lit "hello-world").
Proof. split; vm_compute; reflexivity. Qed.

Lemma replaceRuns_none (class : N -> bool) (by_ : str) (b : bool) (s : str) :
  forallb (fun c => negb (class c)) s = true ->
  Markdown.replaceRuns class by_ b s = s.
Proof.
  revert b; induction s as [|c r IH]; intros b H; [reflexivity|].
  cbn in H; apply andb_prop in H as [Hc Hr].
  cbn; destruct (class c); [discriminate|]; now rewrite IH.
Qed.

(** Where nothing is stripped, the two slugs are the same. *)
Lemma slugs_agree_without_strip (text : str) :
  forallb (fun c => negb (Markdown.notSlugUnit c))
    (Markdown.hyphenateSpaces (toLowerCase (trim text))) = true ->
  Markdown.slugify text = Markdown.anchorSlugify text.
Proof.
  intros H; unfold Markdown.slugify, Markdown.anchorSlugify, Markdown.stripNonSlug.
  now rewrite replaceRuns_none.
Qed.

(** *** The loops of a pass never throw *)

Lemma bind_value {A B} (m : M A) (k : A -> M B) :
  (m ≫= k).2 = match m.2 with inl e => inl e | inr a => (k a).2 end.
Proof. destruct m as [t [e|a]]; reflexivity. Qed.

Lemma bind_trace {A B} (m : M A) (k : A -> M B) :
  (m ≫= k).1 = m.1 ++ match m.2 with inl _ => [] | inr a => (k a).1 end.
Proof. destruct m as [t [e|a]]; cbn; [now rewrite app_nil_r | reflexivity]. Qed.

Section Loops.
Variable this : DocGenerator.
Variable env : Env.

Lemma tryCatch_push {A} (m : M A) (file : str) (docs : list DocNode.t)
    (push : A -> list DocNode.t) :
  (tryCatch (m ≫= fun a => ret (push a))
     (fun error => emit (LogError file error) ≫= fun _ => ret docs)).2
  = inr (match m.2 with inr a => push a | inl _ => docs end).
Proof. destruct m as [t [e|a]]; reflexivity. Qed.

Lemma markdownLoop_value (files : list str) (docs : list DocNode.t) :
  (markdownLoop this env files docs).2
  = inr (docs ++ omap (fun file => produced (markdownDoc this env file)) files).
Proof.
  revert docs; induction files as [|file rest IH]; intros docs.
  - cbn; now rewrite app_nil_r.
  - cbn [markdownLoop omap list_omap]; rewrite bind_value, tryCatch_push, IH.
    unfold produced at 2.
    destruct (markdownDoc this env file).2; [reflexivity|].
    now rewrite <- app_assoc.
Qed.

Lemma apiLoop_value (files : list str) (docs : list DocNode.t) :
  (apiLoop this env files docs).2
  = inr (docs ++ omap (fun file => mjoin (produced (apiDoc this env file))) files).
Proof.
  revert docs; induction files as [|file rest IH]; intros docs.
  - cbn; now rewrite app_nil_r.
  - cbn [apiLoop omap list_omap]; rewrite bind_value, tryCatch_push, IH.
    unfold produced at 2.
    destruct (apiDoc this env file).2 as [e|[doc|]]; [reflexivity| |reflexivity].
    cbn; now rewrite <- app_assoc.
Qed.

Lemma componentLoop_value (one : str -> M DocNode.t) (files : list str)
    (docs : list DocNode.t) :
  (componentLoop one files docs).2
  = inr (docs ++ omap (fun file => produced (one file)) files).
Proof.
  revert docs; induction files as [|file rest IH]; intros docs.
  - cbn; now rewrite app_nil_r.
  - cbn [componentLoop omap list_omap]; rewrite bind_value, tryCatch_push, IH.
    unfold produced at 2.
    destruct (one file).2; [reflexivity|].
    now rewrite <- app_assoc.
Qed.

Lemma emitAll_run (evs : list Event) : emitAll evs = (evs, inr tt).
Proof.
  induction evs as [|ev rest IH]; [reflexivity|].
  cbn [emitAll]; rewrite IH; reflexivity.
Qed.

Lemma generateComponentDocs_value :
  (generateComponentDocs this env).2 = inr (componentNodes this env).
Proof.
  unfold generateComponentDocs; rewrite bind_value, componentLoop_value.
  cbn [app]; now rewrite componentLoop_value.
Qed.

(** [generate] returns, and its value is the nodes of the three
    categories in turn. *)
Lemma generate_value : (generate this env).2 = inr (allNodes this env).
Proof.
  unfold generate, generateMarkdownDocs, generateApiDocs.
  rewrite bind_value, markdownLoop_value; cbn [app].
  rewrite bind_value, apiLoop_value; cbn [app].
  rewrite bind_value, generateComponentDocs_value.
  unfold observe; rewrite !emitAll_run; reflexivity.
Qed.

(** The trace of [generate]: the three categories, then every
    [beforeGenerate] hook, then every [afterGenerate] hook, both called
    with the finished node list. *)
Lemma generate_trace :
  let context := GenerateContext.mk (config this) (map DocNode.path (allNodes this env)) (allNodes this env) in
  (generate this env).1
  = (generateMarkdownDocs this env).1 ++ (generateApiDocs this env).1
    ++ (generateComponentDocs this env).1
    ++ map (fun plugin => HookCalled plugin Plugin.beforeGenerate context)
         (Plugin.observerLoop Plugin.beforeGenerate (plugins this))
    ++ map (fun plugin => HookCalled plugin Plugin.afterGenerate context)
         (Plugin.observerLoop Plugin.afterGenerate (plugins this)).
Proof.
  intros context; unfold generate.
  rewrite bind_trace; f_equal.
  unfold generateMarkdownDocs at 1; rewrite markdownLoop_value; cbn [app].
  rewrite bind_trace; f_equal.
  unfold generateApiDocs at 1; rewrite apiLoop_value; cbn [app].
  rewrite bind_trace; f_equal.
  rewrite generateComponentDocs_value.
  unfold observe; rewrite !emitAll_run; cbn.
  now rewrite app_nil_r.
Qed.

End Loops.

(** C3: in the sample project the prose file is read and rendered first;
    the [beforeGenerate] hook is called only after that, with the finished
    node list, immediately before [afterGenerate]. *)
Theorem beforeGenerate_called_after_the_batch :
  (generate Examples.generator Examples.env1).1
  = [ReadFile Examples.gettingStarted;
     Rendered Examples.gettingStarted;
     HookCalled (lit "watcher") Plugin.beforeGenerate Examples.context1;
     HookCalled (lit "watcher") Plugin.afterGenerate Examples.context1].
Proof. vm_compute; reflexivity. Qed.

(** *** Titles *)

(** C4, as stated, fails: a file without front matter whose text starts
    with a heading gets the humanized file name, not the heading. *)
Lemma title_is_not_the_heading :
  Markdown.extractHeaders Examples.md Examples.welcome
  = Some [Markdown.mkHeader (Some 1%Z) (lit "Welcome") (lit "welcome")]
  /\ specTitle Examples.md Examples.welcome (lit "getting-started.md") = lit "Welcome"
  /\ (DocNode.title <$> produced (markdownDoc Examples.generator Examples.env
                                   Examples.gettingStarted))
     = Some (lit "Getting Started")
  /\ (DocNode.title <$> produced (markdownDoc Examples.generator Examples.env
                                   Examples.gettingStarted))
     <> Some (specTitle Examples.md Examples.welcome (lit "getting-started.md")).
Proof. vm_compute; repeat split; discriminate. Qed.

(** C4, amended: the title of a prose node is the front matter title when
    [extractFrontmatter] finds a non-empty one, and the humanized file name
    of the relative path otherwise; headings play no part. *)
Theorem title_from_frontmatter_or_path (this : DocGenerator) (env : Env)
    (file content : str) :
  readFile env file = inr content ->
  exists doc,
    (markdownDoc this env file).2 = inr doc
    /\ DocNode.title doc
       = if truthy (title (extractFrontmatter content))
         then title (extractFrontmatter content)
         else getTitleFromPath (relative env (DocsConfig.docsDir (config this)) file).
Proof.
  intros H; unfold markdownDoc; rewrite H; cbn -[Markdown.render].
  destruct (Markdown.render (markdownProcessor this)
              (Plugin.runTransformMarkdown (plugins this) content file)) as [[message|] html];
    cbn; eexists; split; reflexivity.
Qed.

Lemma title_from_frontmatter_or_path_witness :
  exists doc,
    (markdownDoc Examples.generator Examples.env Examples.gettingStarted).2 = inr doc
    /\ DocNode.title doc
       = if truthy (title (extractFrontmatter Examples.welcome))
         then title (extractFrontmatter Examples.welcome)
         else getTitleFromPath
                (relative Examples.env
                   (DocsConfig.docsDir (config Examples.generator)) Examples.gettingStarted).
Proof.
  apply (title_from_frontmatter_or_path Examples.generator Examples.env
           Examples.gettingStarted Examples.welcome).
  reflexivity.
Defined.

(** The scenario of the specification: a front matter title wins over the
    heading below it. *)
Example frontmatter_title_home :
  title (extractFrontmatter
           (lit "---" ++ [10] ++ lit "title: Home" ++ [10] ++ lit "---" ++ [10]
            ++ lit "# Welcome"))
  = lit "Home".
Proof. vm_compute; reflexivity. Qed.

(** *** A failing file *)

Lemma omap_filter_skip {A} (g : str -> option A) (f : str) (files : list str) :
  (f ∈ files -> g f = None) ->
  omap g (filter (fun file => file ≠ f) files) = omap g files.
Proof.
  induction files as [|file rest IH]; intros H; [reflexivity|].
  rewrite filter_cons; destruct (decide (file ≠ f)) as [Hne|Heq].
  - cbn; rewrite IH; [reflexivity|].
    intros Hin; apply H; now right.
  - apply dec_stable in Heq; subst file.
    cbn; rewrite H by now left.
    apply IH; intros Hin; apply H; now right.
Qed.

(** C6, as stated, fails: a component file that the React parser rejects
    is skipped as a React file, but as an API file it still gives a node;
    without the file there is none. *)
Lemma failing_file_still_contributes :
  throws (parseReactComponent Examples.cardEnv Examples.card)
  /\ (map DocNode.path <$> produced (generate Examples.generator Examples.cardEnv))
     = Some [lit "api/src/components/Card.html"]
  /\ produced (generate Examples.generator (withoutFile Examples.card Examples.cardEnv))
     = Some []
  /\ (generate Examples.generator Examples.cardEnv).2
     <> (generate Examples.generator (withoutFile Examples.card Examples.cardEnv)).2.
Proof.
  split; [exact I|].
  split; [vm_compute; reflexivity|].
  split; [vm_compute; reflexivity|].
  intros H.
  assert (E : (length <$> produced (generate Examples.generator Examples.cardEnv))
              = (length <$> produced (generate Examples.generator
                                        (withoutFile Examples.card Examples.cardEnv))))
    by (unfold produced; now rewrite H).
  vm_compute in E; discriminate E.
Qed.

(** In the sample project the unreadable file is logged and the other file
    is the only node. *)
Example broken_file_logged :
  generate Examples.generator Examples.env
  = ([ReadFile Examples.broken;
      LogError Examples.broken (lit "ENOENT: no such file or directory");
      ReadFile Examples.gettingStarted;
      Rendered Examples.gettingStarted;
      HookCalled (lit "watcher") Plugin.beforeGenerate Examples.context1;
      HookCalled (lit "watcher") Plugin.afterGenerate Examples.context1],
     inr [Examples.gettingStartedDoc]).
Proof. vm_compute; reflexivity. Qed.

(** *** Escaping in the API page *)

Lemma infix_here (s post : str) : infix s (s ++ post).
Proof. exists [], post; reflexivity. Qed.

Lemma infix_app_l (s a b : str) : infix s a -> infix s (a ++ b).
Proof. intros (pre & post & ->); exists pre, (post ++ b); now rewrite <- !app_assoc. Qed.

Lemma infix_app_r (s a b : str) : infix s b -> infix s (a ++ b).
Proof. intros (pre & post & ->); exists (a ++ pre), post; now rewrite <- !app_assoc. Qed.

Lemma infix_flat_map {A} (f : A -> str) (s : str) (x : A) (l : list A) :
  In x l -> infix s (f x) -> infix s (flat_map f l).
Proof.
  induction l as [|y l IH]; intros Hin Hs; [destruct Hin|].
  cbn; destruct Hin as [->|Hin]; [now apply infix_app_l | apply infix_app_r; auto].
Qed.








(** What the escaped texts of the sample node are. *)
Example escaped_signature :
  escapeHtml (lit "function less(a: number, b: number): boolean { return a < b }")
  = lit "function less(a: number, b: number): boolean { return a &lt; b }"
  /\ escapeHtml (lit "less(1, 2) && 'yes'") = lit "less(1, 2) &amp;&amp; &#039;yes&#039;".
Proof. split; vm_compute; reflexivity. Qed.

End GeneratorFacts.

Section ComponentFacts.
Import JS Regex Spec.

(** *** [deduplicateProps] *)

Lemma dedupFrom_fresh (seen : gset str) (props : list PropDoc.t) (p : PropDoc.t) :
  In p (React.dedupFrom seen props) -> PropDoc.name p ∉ seen.
Proof.
  revert seen; induction props as [|q rest IH]; intros seen Hin; [destruct Hin|].
  cbn in Hin; case_bool_decide as Hq.
  - now apply IH.
  - destruct Hin as [->|Hin]; [exact Hq|].
    apply IH in Hin; set_solver.
Qed.

Lemma dedupFrom_NoDup (seen : gset str) (props : list PropDoc.t) :
  List.NoDup (map PropDoc.name (React.dedupFrom seen props)).
Proof.
  revert seen; induction props as [|q rest IH]; intros seen; [constructor|].
  cbn; case_bool_decide as Hq; [apply IH|].
  cbn; constructor; [|apply IH].
  intros Hin; apply in_map_iff in Hin as (p & Hname & Hp).
  apply dedupFrom_fresh in Hp; set_solver.
Qed.

Lemma dedupFrom_first (seen : gset str) (props : list PropDoc.t) (n : str) :
  n ∉ seen ->
  find (fun p => eqb (PropDoc.name p) n) (React.dedupFrom seen props)
  = find (fun p => eqb (PropDoc.name p) n) props.
Proof.
  revert seen; induction props as [|q rest IH]; intros seen Hn; [reflexivity|].
  cbn; case_bool_decide as Hq.
  - unfold eqb at 2; case_bool_decide as Heq; [subst n; contradiction|].
    now apply IH.
  - cbn; unfold eqb at 1 3; case_bool_decide as Heq; [reflexivity|].
    apply IH; intros Hin; apply elem_of_union in Hin as [Hin|Hin]; [|contradiction].
    apply elem_of_singleton in Hin; congruence.
Qed.

(** The props of a function/class component have pairwise distinct names,
    and the entry kept for a name is the first one collected for it. *)
Lemma deduplicateProps_first_wins (props : list PropDoc.t) :
  List.NoDup (map PropDoc.name (React.deduplicateProps props))
  /\ forall n,
      find (fun p => eqb (PropDoc.name p) n) (React.deduplicateProps props)
      = find (fun p => eqb (PropDoc.name p) n) props.
Proof.
  split; [apply dedupFrom_NoDup|].
  intros n; apply dedupFrom_first; set_solver.
Qed.

Lemma parseReactComponent_props_NoDup (filePath : str) (ast : list React.Visited) :
  exists props,
    ComponentDoc.props (React.parseReactComponent filePath ast) = Some props
    /\ List.NoDup (map PropDoc.name props).
Proof. eexists; split; [reflexivity | apply dedupFrom_NoDup]. Qed.

(** *** Slots and call-site events are pushed once *)

Lemma existsb_name_false {A} (name : A -> str) (n : str) (l : list A) :
  existsb (fun x => eqb (name x) n) l = false -> ~ In n (map name l).
Proof.
  induction l as [|x l IH]; cbn; [tauto|].
  intros H; apply orb_false_elim in H as [Hx Hl].
  unfold eqb in Hx; case_bool_decide; [discriminate|].
  intros [?|?]; [congruence | now apply IH].
Qed.

Lemma NoDup_snoc_name {A} (name : A -> str) (l : list A) (x : A) :
  List.NoDup (map name l) -> ~ In (name x) (map name l) ->
  List.NoDup (map name (l ++ [x])).
Proof.
  intros Hl Hx; rewrite map_app; cbn.
  apply NoDup_ListNoDup, NoDup_app; repeat split.
  - now apply NoDup_ListNoDup.
  - intros y Hy Hy'; apply list_elem_of_singleton in Hy'; subst y.
    apply Hx, list_elem_of_In, Hy.
  - apply NoDup_singleton.
Qed.

Lemma pushSlots_NoDup (slots : list SlotDoc.t) (ms : list (option str * str)) :
  List.NoDup (map SlotDoc.name slots) ->
  List.NoDup (map SlotDoc.name (Vue.pushSlots slots ms)).
Proof.
  revert slots; induction ms as [|[name attrs] rest IH]; intros slots H; [exact H|].
  cbn [Vue.pushSlots].
  destruct (existsb _ slots) eqn:E; [now apply IH|].
  apply IH, NoDup_snoc_name; [exact H|].
  now apply existsb_name_false in E.
Qed.

Lemma extractSlots_NoDup (descriptor : Vue.Descriptor) :
  List.NoDup (map SlotDoc.name (Vue.extractSlots descriptor)).
Proof.
  unfold Vue.extractSlots; destruct (Vue.template descriptor); [|constructor].
  apply pushSlots_NoDup; constructor.
Qed.

Lemma pushEmits_NoDup (events : list EventDoc.t) (names : list str) :
  List.NoDup (map EventDoc.name events) ->
  List.NoDup (map EventDoc.name (Vue.pushEmits events names)).
Proof.
  revert events; induction names as [|name rest IH]; intros events H; [exact H|].
  cbn [Vue.pushEmits].
  destruct (existsb _ events) eqn:E; [now apply IH|].
  apply IH, (NoDup_snoc_name EventDoc.name); [exact H|].
  now apply existsb_name_false in E.
Qed.

(** C5: the props of a composition-style component are not deduplicated:
    with a commented-out line above the declaration, the typed prop block
    yields two props named [size]. *)
Theorem vue_props_keep_duplicates :
  Vue.extractProps Examples.sizeComponent
  = [PropDoc.mk (lit "size") (inl (lit "'small' | 'large'")) None (Some true) None;
     PropDoc.mk (lit "size") (inl (lit "string")) None (Some true) None]
  /\ ~ List.NoDup (map PropDoc.name (Vue.extractProps Examples.sizeComponent)).
Proof.
  assert (E : Vue.extractProps Examples.sizeComponent
              = [PropDoc.mk (lit "size") (inl (lit "'small' | 'large'")) None (Some true) None;
                 PropDoc.mk (lit "size") (inl (lit "string")) None (Some true) None])
    by (vm_compute; reflexivity).
  split; [exact E|].
  rewrite E; cbn; intros H; inversion H as [|? ? Hin _]; apply Hin; now left.
Qed.

(** *** The typed prop block *)

Lemma takeWhile_dropWhile (p : N -> bool) (s : str) : takeWhile p s ++ dropWhile p s = s.
Proof. induction s as [|c r IH]; cbn; [reflexivity|]; destruct (p c); cbn; congruence. Qed.

Lemma takeWhile_all (p : N -> bool) (s : str) :
  Forall (fun c => p c = true) s -> takeWhile p s = s /\ dropWhile p s = [].
Proof. induction 1 as [|c r Hc _ [IH1 IH2]]; cbn; [easy|]; rewrite Hc; split; congruence. Qed.


Lemma takeWhile_app_all (p : N -> bool) (a b : str) :
  Forall (fun c => p c = true) a -> takeWhile p (a ++ b) = a ++ takeWhile p b.
Proof. induction 1 as [|c r Hc _ IH]; cbn; [reflexivity|]; rewrite Hc; congruence. Qed.

Lemma Forall_takeWhile (p : N -> bool) (s : str) : Forall (fun c => p c = true) (takeWhile p s).
Proof.
  induction s as [|c r IH]; cbn; [constructor|].
  destruct (p c) eqn:E; constructor; assumption.
Qed.


Lemma isWhiteSpace_not_word (c : N) : isWhiteSpace c = true -> isWord c = false.
Proof.
  unfold isWhiteSpace, isWord, inRange; intros H.
  repeat match goal with
         | H : _ || _ = true |- _ => apply orb_prop in H as [H|H]
         | H : _ && _ = true |- _ => apply andb_prop in H as [? ?]
         | H : (_ =? _) = true |- _ => apply N.eqb_eq in H; subst
         | H : (_ <=? _) = true |- _ => apply N.leb_le in H
         end;
    try reflexivity;
    repeat match goal with
           | |- context [N.leb ?a ?b] => destruct (N.leb_spec a b); cbn; try lia
           | |- context [N.eqb ?a ?b] => destruct (N.eqb_spec a b); cbn; try lia
           end; reflexivity.
Qed.



Lemma matchAll_miss {A} (at_ : str -> option (A * str)) (c : N) (s : str) :
  at_ (c :: s) = None -> matchAll at_ (c :: s) = matchAll at_ s.
Proof. intros H; unfold matchAll; cbn [matchAllFrom]; now rewrite H. Qed.




Lemma blank_not_word (ws : str) : blank ws -> Forall (fun c => isWord c = false) ws.
Proof.
  intros H; eapply Forall_impl; [exact H|].
  intros c; apply isWhiteSpace_not_word.
Qed.



(** *** The options-style props object

    The capture of the object ends before the first closing brace, and
    every entry needs one: no prop is ever read from it. *)

Lemma In_dropWhile (p : N -> bool) (x : N) (s : str) : In x (dropWhile p s) -> In x s.
Proof.
  induction s as [|c r IH]; cbn; [tauto|].
  destruct (p c); [right; auto | tauto].
Qed.

Lemma In_stripPrefix (p s r : str) (x : N) : stripPrefix p s = Some r -> In x r -> In x s.
Proof.
  revert s; induction p as [|a p IH]; intros s H Hx; cbn in H.
  - now injection H as ->.
  - destruct s as [|b s]; [discriminate|].
    destruct (a =? b); [|discriminate]. right; now apply (IH s).
Qed.

Lemma braced_needs_close (suffix s : str) (r : str * str) :
  braced suffix s = Some r -> In 125 s.
Proof.
  unfold braced; destruct (takeWhile notClose s); [discriminate|].
  destruct (stripPrefix (125 :: suffix) (dropWhile notClose s)) as [rest|] eqn:E;
    [|discriminate].
  intros _; apply (In_dropWhile notClose).
  destruct (dropWhile notClose s) as [|c r']; [cbn in E; discriminate|].
  change (stripPrefix (125 :: suffix) (c :: r'))
    with (if 125 =? c then stripPrefix suffix r' else None) in E.
  destruct (N.eqb_spec 125 c); [subst; now left | discriminate].
Qed.

Lemma braced_body_open (suffix s body rest : str) :
  braced suffix s = Some (body, rest) -> ~ In 125 body.
Proof.
  unfold braced; destruct (takeWhile notClose s) as [|c b] eqn:E; [discriminate|].
  destruct (stripPrefix _ _); [|discriminate]; cbn; intros [= <- _] Hin.
  rewrite <- E in Hin.
  pose proof (Forall_takeWhile notClose s) as H.
  apply (proj1 (List.Forall_forall _ _) H) in Hin; discriminate.
Qed.

Lemma word_rest (s w r : str) (x : N) : word s = Some (w, r) -> In x r -> In x s.
Proof.
  unfold word; destruct (takeWhile isWord s); [discriminate|].
  intros [= _ <-]; apply In_dropWhile.
Qed.

Lemma optionPropAt_needs_close (s : str) : ~ In 125 s -> Vue.optionPropAt s = None.
Proof.
  intros Hs; unfold Vue.optionPropAt.
  destruct (word s) as [[name s1]|] eqn:Ew; [|reflexivity]; cbn [mbind option_bind].
  destruct (stripPrefix (lit ":") s1) as [s2|] eqn:E2; [|reflexivity];
    cbn [mbind option_bind].
  destruct (stripPrefix (lit "{") (skipSpaces s2)) as [s3|] eqn:E3; [|reflexivity];
    cbn [mbind option_bind].
  destruct (braced [] s3) as [[propDef rest]|] eqn:Eb; [|reflexivity].
  exfalso; apply Hs.
  apply braced_needs_close in Eb.
  eapply word_rest; [exact Ew|].
  eapply In_stripPrefix; [exact E2|].
  apply (In_dropWhile isWhiteSpace).
  eapply In_stripPrefix; [exact E3 | exact Eb].
Qed.

Lemma optionProps_none (s : str) : ~ In 125 s -> matchAll Vue.optionPropAt s = [].
Proof.
  induction s as [|c r IH]; intros Hs.
  - unfold matchAll; cbn [matchAllFrom]; now rewrite optionPropAt_needs_close.
  - rewrite matchAll_miss; [apply IH; intros H; apply Hs; now right|].
    now apply optionPropAt_needs_close.
Qed.

Lemma search_Some {A} (at_ : str -> option A) (s : str) (a : A) :
  search at_ s = Some a -> exists s', at_ s' = Some a.
Proof.
  induction s as [|c r IH]; cbn; destruct (at_ _) eqn:E; intros H.
  - injection H as ->; eauto.
  - discriminate.
  - injection H as ->; eauto.
  - auto.
Qed.

Lemma options_props_never_read (content : str) :
  match search Vue.propsObjectAt content with
  | Some propsContent => map Vue.optionProp (matchAll Vue.optionPropAt propsContent)
  | None => []
  end = [].
Proof.
  destruct (search Vue.propsObjectAt content) as [pc|] eqn:E; [|reflexivity].
  apply search_Some in E as (s' & E); unfold Vue.propsObjectAt in E.
  destruct (stripPrefix (lit "props:") s') as [r|]; [|discriminate];
    cbn [mbind option_bind] in E.
  destruct (stripPrefix (lit "{") (skipSpaces r)) as [r'|]; [|discriminate];
    cbn [mbind option_bind] in E.
  destruct (braced [] r') as [[body rest]|] eqn:Eb; [|discriminate].
  cbn in E; injection E as <-.
  rewrite optionProps_none; [reflexivity|].
  now apply braced_body_open in Eb.
Qed.

(** The props of a composition-style component come from the typed prop
    block alone. *)
Lemma extractProps_typed_only (d : Vue.Descriptor) :
  Vue.extractProps d
  = if negb (Vue.hasScript d) then []
    else match search Vue.definePropsAt (Vue.scriptContent d) with
         | Some propsContent => map Vue.typedProp (matchAll Vue.typedPropAt propsContent)
         | None => []
         end.
Proof.
  unfold Vue.extractProps; destruct (negb (Vue.hasScript d)); [reflexivity|].
  now rewrite options_props_never_read, app_nil_r.
Qed.




Lemma Forall_takeWhile_of {P : N -> Prop} (p : N -> bool) (s : str) :
  Forall P s -> Forall P (takeWhile p s).
Proof.
  induction 1 as [|c r Hc Hr IH]; cbn; [constructor|].
  destruct (p c); now constructor.
Qed.









(** The same two props with line ends of carriage return and line feed,
    a blank behind the first type and a semicolon behind the second. *)
Example typed_props_crlf :
  Vue.extractProps
    (Vue.mkDescriptor None
       (Some (lit "defineProps<{" ++ [13; 10] ++ lit "  text: string " ++ [13; 10]
              ++ lit "  disabled?: boolean;" ++ [13; 10] ++ lit "}>()"))
       None)
  = [PropDoc.mk (lit "text") (inl (lit "string")) None (Some true) None;
     PropDoc.mk (lit "disabled") (inl (lit "boolean")) None (Some false) None].
Proof. vm_compute; reflexivity. Qed.

End ComponentFacts.

Section ExtractorFacts.
Import JS Spec.

Lemma Node_children_ind (P : TS.Node -> Prop) :
  (forall node, Forall P (TS.children node) -> P node) -> forall node, P node.
Proof.
  intros H; fix IH 1; intros node; apply H.
  destruct node as [? ? ? ? ? ? ? ? ? ? children]; cbn.
  revert children; fix IHl 1; intros [|child rest]; constructor;
    [apply IH | apply IHl].
Qed.

Lemma visit_unfold (fileName : str) (node : TS.Node) :
  TS.visit fileName node
  = TS.declared fileName node ++ flat_map (TS.visit fileName) (TS.children node).
Proof.
  destruct node; reflexivity.
Qed.

Lemma preorder_unfold (node : TS.Node) :
  TS.preorder node = node :: flat_map TS.preorder (TS.children node).
Proof.
  destruct node; reflexivity.
Qed.

Lemma visit_preorder (fileName : str) (node : TS.Node) :
  TS.visit fileName node = flat_map (TS.declared fileName) (TS.preorder node).
Proof.
  induction node as [node IH] using Node_children_ind.
  rewrite visit_unfold, preorder_unfold; cbn [flat_map]; f_equal.
  induction IH as [|child rest Hc _ IHrest]; [reflexivity|].
  cbn [flat_map]; now rewrite List.flat_map_app, Hc, IHrest.
Qed.

Lemma filter_isExported (nodes : list ApiDocNode.t) : filter TS.isExported nodes = nodes.
Proof.
  induction nodes as [|n rest IH]; [reflexivity|].
  rewrite filter_cons_True by exact I; now rewrite IH.
Qed.

Lemma declared_sources (fileName : str) (node : TS.Node) :
  map (fun d => (ApiDocNode.name d, ApiDocNode.source d)) (TS.declared fileName node)
  = map (fun n => (TS.nameOf n, Some (TS.getSourceLocation fileName n))) (declarations node).
Proof.
  unfold TS.declared, declarations.
  repeat match goal with |- context [if ?b then _ else _] => destruct b end;
    try reflexivity.
  unfold TS.parseVariableStatement.
  induction (TS.declarationsOf node) as [|declaration rest IH]; [reflexivity|].
  cbn [flat_map]; rewrite !map_app, IH; f_equal.
  destruct (TS.name declaration) as [n|] eqn:En; [|reflexivity].
  destruct (TS.isIdentifier n); [|reflexivity].
  cbn [map]; unfold TS.nameOf; now rewrite En.
Qed.

Lemma declarations_kinds (node : TS.Node) :
  Forall (fun n => isDeclaration n = true) (declarations node).
Proof.
  unfold declarations, isDeclaration.
  repeat match goal with
         | |- context [if ?b then _ else _] => destruct b eqn:?
         end;
    repeat match goal with
           | H : _ && _ = true |- _ => apply andb_prop in H as [? ?]
           end;
    try (repeat constructor; repeat match goal with
                                     | H : _ = true |- _ => rewrite H
                                     end; cbn; now rewrite ?orb_true_r).
  apply Forall_flat_map, Forall_forall; intros declaration Hd.
  unfold TS.declarationsOf in Hd.
  apply list_elem_of_In, in_flat_map in Hd as (l & _ & Hd).
  apply list_elem_of_In, list_elem_of_filter in Hd as [Hk _].
  destruct (TS.name declaration) as [n|]; [|constructor].
  destruct (TS.isIdentifier n); repeat constructor.
  apply Is_true_true in Hk; rewrite Hk; cbn; now rewrite ?orb_true_r.
Qed.

(** C8, as stated, fails: a function declared inside another function is
    returned beside it. *)
Lemma nested_function_is_returned :
  map ApiDocNode.name (TS.parseTypeScriptFile (lit "/proj/src/outer.ts") Examples.nestedFile)
  = [lit "outer"; lit "inner"]
  /\ map ApiDocNode.name (topLevelOnly (lit "/proj/src/outer.ts") Examples.nestedFile)
     = [lit "outer"]
  /\ TS.parseTypeScriptFile (lit "/proj/src/outer.ts") Examples.nestedFile
     <> topLevelOnly (lit "/proj/src/outer.ts") Examples.nestedFile.
Proof.
  split; [vm_compute; reflexivity|].
  split; [vm_compute; reflexivity|].
  intros H; apply (f_equal (@length _)) in H; vm_compute in H; discriminate.
Qed.

(** A declarator that is not part of a variable statement, such as the
    one in the head of a loop, is walked over without a node. *)
Example loop_variable_is_not_returned :
  TS.parseTypeScriptFile (lit "/proj/src/loop.ts") Examples.loopFile = [].
Proof. vm_compute; reflexivity. Qed.

(** C8, amended: the extractor returns one node for every documented
    declaration anywhere in the syntax tree, nested ones included, in the
    order of a pre-order walk: every named function and class, every
    interface, type alias and enum, and every identifier-named declarator
    of a variable statement; each node carries the name of its declaration
    and the line and column of the declaration's first token; members of
    classes and interfaces are not among the declarations, and a
    declaration list or declarator gives no node by itself, only through
    the variable statement it is part of. *)
Theorem parse_returns_every_declaration (fileName : str) (sourceFile : TS.Node) :
  TS.parseTypeScriptFile fileName sourceFile
  = flat_map (TS.declared fileName) (TS.preorder sourceFile)
  /\ map (fun d => (ApiDocNode.name d, ApiDocNode.source d))
       (TS.parseTypeScriptFile fileName sourceFile)
     = map (fun n => (TS.nameOf n,
                      Some (SourceLocation.mk fileName (TS.startLine n + 1)
                              (Some (TS.startCharacter n + 1)))))
         (flat_map declarations (TS.preorder sourceFile))
  /\ Forall (fun n => isDeclaration n = true)
       (flat_map declarations (TS.preorder sourceFile))
  /\ (forall node,
        TS.isKind TS.VariableDeclarationList node || TS.isKind TS.VariableDeclaration node
        = true ->
        TS.declared fileName node = [] /\ declarations node = []).
Proof.
  assert (K : forall node,
             TS.isKind TS.VariableDeclarationList node
             || TS.isKind TS.VariableDeclaration node = true ->
             TS.declared fileName node = [] /\ declarations node = []).
  { intros node; unfold TS.declared, declarations, TS.isKind.
    destruct (TS.kind node); cbn; intros H; try discriminate H; split; reflexivity. }
  assert (E : TS.parseTypeScriptFile fileName sourceFile
              = flat_map (TS.declared fileName) (TS.preorder sourceFile)).
  { unfold TS.parseTypeScriptFile; now rewrite filter_isExported, visit_preorder. }
  split; [exact E|]; split; [|split; [|exact K]].
  - rewrite E; clear E.
    induction (TS.preorder sourceFile) as [|n rest IH]; [reflexivity|].
    cbn [flat_map]; rewrite !map_app, IH.
    now rewrite (declared_sources fileName n).
  - apply Forall_flat_map, Forall_forall; intros n _; apply declarations_kinds.
Qed.

End ExtractorFacts.

Section BuilderFacts.
Import JS Spec Builder.

Variable join : str -> str -> str.
Variable dirname : str -> str.
Variable renderPage : DocsConfig.t -> DocNode.t -> str.

Lemma generateHtmlFiles_cons (config : DocsConfig.t) (doc : DocNode.t)
    (rest : list DocNode.t) (fs : FS) :
  generateHtmlFiles join dirname renderPage config (doc :: rest) fs
  = generateHtmlFiles join dirname renderPage config rest
      (<[htmlPath join config doc := renderPage config doc]> fs).
Proof. reflexivity. Qed.

Lemma generateHtmlFiles_run (config : DocsConfig.t) (docs : list DocNode.t) (fs : FS) :
  (generateHtmlFiles join dirname renderPage config docs fs).1 = inr tt
  /\ forall path,
      (generateHtmlFiles join dirname renderPage config docs fs).2 !! path
      = match written (htmlPath join config) (renderPage config) docs path with
        | Some html => Some html
        | None => fs !! path
        end.
Proof.
  revert fs; induction docs as [|doc rest IH]; intros fs; [split; reflexivity|].
  rewrite generateHtmlFiles_cons; destruct (IH (<[htmlPath join config doc := renderPage config doc]> fs)) as [IH1 IH2].
  split; [exact IH1|].
  intros path; rewrite IH2; cbn [written].
  destruct (written _ _ rest path); [reflexivity|].
  unfold eqb; case_bool_decide as Hp.
  - rewrite Hp; apply lookup_insert_eq.
  - now apply lookup_insert_ne.
Qed.

End BuilderFacts.

Section BuilderClaims.
Import JS Spec Builder.

(** C1, as stated, fails: two nodes with the same output path are both
    written without an error, and the page of the first is lost. *)
Lemma colliding_pages_overwrite :
  collide (htmlPath Examples.joinPath Examples.cfg) [Examples.vueButton; Examples.reactButton]
  /\ generateHtmlFiles Examples.joinPath Examples.dirnamePath Examples.page Examples.cfg
       [Examples.vueButton; Examples.reactButton] ∅
     = (inr tt,
        {[ lit "/proj/dist/components/Button.html"
           := Examples.page Examples.cfg Examples.reactButton ]}).
Proof.
  split.
  - exists 0%nat, 1%nat, Examples.vueButton, Examples.reactButton.
    split; [discriminate|]; repeat split; reflexivity.
  - vm_compute; reflexivity.
Qed.

(** C1, amended: [generateHtmlFiles] never throws of its own; after it,
    the file at a path is the page of the last node that resolves to the
    path, a later node overwriting an earlier one, and a path that no node
    resolves to is left as it was. *)
Theorem last_page_wins (join : str -> str -> str) (dirname : str -> str)
    (renderPage : DocsConfig.t -> DocNode.t -> str)
    (config : DocsConfig.t) (docs : list DocNode.t) (fs : FS) :
  (generateHtmlFiles join dirname renderPage config docs fs).1 = inr tt
  /\ forall path,
      (generateHtmlFiles join dirname renderPage config docs fs).2 !! path
      = match written (htmlPath join config) (renderPage config) docs path with
        | Some html => Some html
        | None => fs !! path
        end.
Proof. apply generateHtmlFiles_run. Qed.

End BuilderClaims.

(* ===================================================================== *)
(** * Further properties of the code *)
(* ===================================================================== *)

Section PluginProperties.
Import JS Plugin.

(** X1: plugins registered later run on the result of the earlier ones:
    both chained hooks over [registerBatch plugins batch] are the run over
    [batch] applied to the run over [plugins]. *)
Theorem chained_hooks_compose (plugins batch : list DocsPlugin) (cfg : DocsConfig.t)
    (content file : str) :
  runConfig (registerBatch plugins batch) cfg = runConfig batch (runConfig plugins cfg)
  /\ runTransformMarkdown (registerBatch plugins batch) content file
     = runTransformMarkdown batch (runTransformMarkdown plugins content file) file.
Proof.
  rewrite registerBatch_order; unfold runConfig, runTransformMarkdown.
  rewrite !configLoop_fold, !transformLoop_fold; split; apply fold_left_app.
Qed.

End PluginProperties.

Section GeneratorProperties.
Import JS Generator Spec Notions.

Variable this : DocGenerator.
Variable env : Env.

Lemma tryCatch_push_trace {A} (m : M A) (file : str) (docs : list DocNode.t)
    (push : A -> list DocNode.t) :
  (tryCatch (m ≫= fun a => ret (push a))
     (fun error => emit (LogError file error) ≫= fun _ => ret docs)).1
  = m.1 ++ match m.2 with inl e => [LogError file e] | inr _ => [] end.
Proof. destruct m as [t [e|a]]; cbn; now rewrite ?app_nil_r. Qed.

Lemma markdownLoop_trace (files : list str) (docs : list DocNode.t) :
  (markdownLoop this env files docs).1 = flat_map (fileTrace (markdownDoc this env)) files.
Proof.
  revert docs; induction files as [|file rest IH]; intros docs; [reflexivity|].
  cbn [markdownLoop flat_map]; rewrite bind_trace, tryCatch_push_trace, tryCatch_push.
  now rewrite IH.
Qed.

Lemma apiLoop_trace (files : list str) (docs : list DocNode.t) :
  (apiLoop this env files docs).1 = flat_map (fileTrace (apiDoc this env)) files.
Proof.
  revert docs; induction files as [|file rest IH]; intros docs; [reflexivity|].
  cbn [apiLoop flat_map]; rewrite bind_trace, tryCatch_push_trace, tryCatch_push.
  now rewrite IH.
Qed.

Lemma componentLoop_trace (one : str -> M DocNode.t) (files : list str)
    (docs : list DocNode.t) :
  (componentLoop one files docs).1 = flat_map (fileTrace one) files.
Proof.
  revert docs; induction files as [|file rest IH]; intros docs; [reflexivity|].
  cbn [componentLoop flat_map]; rewrite bind_trace, tryCatch_push_trace, tryCatch_push.
  now rewrite IH.
Qed.

(** The trace of the three categories. *)
Lemma batch_trace :
  (generateMarkdownDocs this env).1 ++ (generateApiDocs this env).1
  ++ (generateComponentDocs this env).1
  = flat_map (fileTrace (markdownDoc this env)) (fg env MarkdownFiles)
    ++ flat_map (fileTrace (apiDoc this env)) (fg env ApiFiles)
    ++ flat_map (fileTrace (vueDoc this env)) (fg env VueFiles)
    ++ flat_map (fileTrace (reactDoc this env)) (fg env ReactFiles).
Proof.
  unfold generateMarkdownDocs, generateApiDocs, generateComponentDocs.
  rewrite markdownLoop_trace, apiLoop_trace, bind_trace, componentLoop_trace.
  rewrite componentLoop_value; cbn [app].
  now rewrite (componentLoop_trace (reactDoc this env)).
Qed.

Lemma fileTrace_step {A B} (ev : Event) (r : str + A) (k : A -> M B) (file : str) :
  (forall a, List.filter isLogError (k a).1 = [] /\ exists b, (k a).2 = inr b) ->
  isLogError ev = false ->
  List.filter isLogError (fileTrace (fun _ => emit ev ≫= fun _ => call r ≫= k) file)
  = match logged file r with Some l => [l] | None => [] end.
Proof.
  intros Hk Hev; unfold fileTrace; destruct r as [e|a]; cbn.
  - now rewrite Hev.
  - destruct (Hk a) as [Hf [b Hb]].
    destruct (k a) as [t v]; cbn in *; subst v.
    now rewrite Hev, app_nil_r, Hf.
Qed.

Lemma filter_flat_map_logged {A} (one : str -> M A) (result : str -> option Event)
    (files : list str) :
  (forall file, List.filter isLogError (fileTrace one file)
                = match result file with Some l => [l] | None => [] end) ->
  List.filter isLogError (flat_map (fileTrace one) files) = omap result files.
Proof.
  intros H; induction files as [|file rest IH]; [reflexivity|].
  cbn [flat_map omap list_omap]; rewrite List.filter_app, H, IH.
  now destruct (result file).
Qed.

Lemma hooks_not_logged (hook : Plugin.Observer) (context : GenerateContext.t)
    (names : list str) :
  List.filter isLogError (map (fun plugin => HookCalled plugin hook context) names) = [].
Proof. induction names as [|n rest IH]; [reflexivity | exact IH]. Qed.

(** The value of the body of the prose loop. *)
Lemma markdownDoc_value (file : str) :
  (markdownDoc this env file).2
  = match readFile env file with
    | inl e => inl e
    | inr content =>
        let relativePath := relative env (DocsConfig.docsDir (config this)) file in
        inr (DocNode.mk relativePath
               (orElse (title (extractFrontmatter content)) (getTitleFromPath relativePath))
               (Markdown.render (markdownProcessor this)
                  (Plugin.runTransformMarkdown (plugins this) content file)).2
               DocNode.markdown (meta (extractFrontmatter content)))
    end.
Proof.
  unfold markdownDoc.
  destruct (readFile env file) as [e|content]; [reflexivity|]; cbn -[Markdown.render].
  destruct (Markdown.render (markdownProcessor this)
              (Plugin.runTransformMarkdown (plugins this) content file)) as [[message|] html];
    reflexivity.
Qed.

Lemma markdown_trace_logged (file : str) :
  List.filter isLogError (fileTrace (markdownDoc this env) file) = markdownLog this env file.
Proof.
  unfold fileTrace, markdownDoc, markdownLog.
  destruct (readFile env file) as [e|content]; [reflexivity|]; cbn -[Markdown.render].
  destruct (Markdown.render (markdownProcessor this)
              (Plugin.runTransformMarkdown (plugins this) content file)) as [[message|] html];
    reflexivity.
Qed.

Lemma filter_flat_map_trace {A} (one : str -> M A) (result : str -> list Event)
    (files : list str) :
  (forall file, List.filter isLogError (fileTrace one file) = result file) ->
  List.filter isLogError (flat_map (fileTrace one) files) = flat_map result files.
Proof.
  intros H; induction files as [|file rest IH]; [reflexivity|].
  cbn [flat_map]; now rewrite List.filter_app, H, IH.
Qed.

(** X3: the calls of [logger.error] during a pass are, in the order of
    the enumerations: for a prose file, the read error that skips it or
    the error of the renderer on its text; for a listing of a source or
    component file whose parse throws, one entry with the file and the
    message thrown.  Nothing else is logged as an error. *)
Theorem failures_logged_once :
  List.filter isLogError (generate this env).1
  = flat_map (markdownLog this env) (fg env MarkdownFiles)
    ++ omap (fun file => logged file (parseTypeScriptFile env file)) (fg env ApiFiles)
    ++ omap (fun file => logged file (parseVueComponent env file)) (fg env VueFiles)
    ++ omap (fun file => logged file (parseReactComponent env file)) (fg env ReactFiles).
Proof.
  rewrite generate_trace, !app_assoc, !List.filter_app, !hooks_not_logged, !app_nil_r.
  rewrite <- !List.filter_app, <- !app_assoc, batch_trace, !List.filter_app.
  f_equal; [|f_equal; [|f_equal]].
  - apply filter_flat_map_trace, markdown_trace_logged.
  - apply filter_flat_map_logged; intros file.
    change (fileTrace (apiDoc this env) file)
      with (fileTrace (fun _ => apiDoc this env file) file).
    apply fileTrace_step; [|reflexivity].
    intros nodes; destruct (length nodes =? 0)%nat;
      (split; [reflexivity | eexists; reflexivity]).
  - apply filter_flat_map_logged; intros file.
    change (fileTrace (vueDoc this env) file)
      with (fileTrace (fun _ => vueDoc this env file) file).
    apply fileTrace_step; [|reflexivity].
    intros doc; split; [reflexivity | eexists; reflexivity].
  - apply filter_flat_map_logged; intros file.
    change (fileTrace (reactDoc this env) file)
      with (fileTrace (fun _ => reactDoc this env file) file).
    apply fileTrace_step; [|reflexivity].
    intros doc; split; [reflexivity | eexists; reflexivity].
Qed.

Lemma fileTrace_no_hook {A B} (ev : Event) (r : str + A) (k : A -> M B) (file : str) :
  (forall a, List.filter isHookCalled (k a).1 = []) ->
  isHookCalled ev = false ->
  List.filter isHookCalled (fileTrace (fun _ => emit ev ≫= fun _ => call r ≫= k) file) = [].
Proof.
  intros Hk Hev; unfold fileTrace; destruct r as [e|a]; cbn.
  - now rewrite Hev.
  - specialize (Hk a); destruct (k a) as [t [e|b]]; cbn in *;
      rewrite Hev, ?List.filter_app, Hk; reflexivity.
Qed.

Lemma flat_map_no_hook {A} (one : str -> M A) (files : list str) :
  (forall file, List.filter isHookCalled (fileTrace one file) = []) ->
  List.filter isHookCalled (flat_map (fileTrace one) files) = [].
Proof.
  intros H; induction files as [|file rest IH]; [reflexivity|].
  cbn [flat_map]; now rewrite List.filter_app, H, IH.
Qed.

(** X4: [generate] first works through the three categories, calling no
    generation hook; then it calls [beforeGenerate] and then
    [afterGenerate] on the plugins that define them, in registration
    order, every call with the same context, whose [docs] are the nodes
    returned and whose [files] are their paths. *)
Theorem hooks_see_the_returned_nodes :
  exists batch docs,
    let context := GenerateContext.mk (config this) (map DocNode.path docs) docs in
    generate this env
    = (batch
       ++ map (fun plugin => HookCalled plugin Plugin.beforeGenerate context)
            (Plugin.observerLoop Plugin.beforeGenerate (plugins this))
       ++ map (fun plugin => HookCalled plugin Plugin.afterGenerate context)
            (Plugin.observerLoop Plugin.afterGenerate (plugins this)),
       inr docs)
    /\ List.filter isHookCalled batch = [].
Proof.
  exists ((generateMarkdownDocs this env).1 ++ (generateApiDocs this env).1
          ++ (generateComponentDocs this env).1), (allNodes this env).
  split.
  - rewrite (surjective_pairing (generate this env)), generate_value, generate_trace.
    now rewrite <- !app_assoc.
  - rewrite batch_trace, !List.filter_app.
    rewrite !flat_map_no_hook; [reflexivity| | | |]; intros file.
    + change (fileTrace (reactDoc this env) file)
        with (fileTrace (fun _ => reactDoc this env file) file).
      now apply fileTrace_no_hook.
    + change (fileTrace (vueDoc this env) file)
        with (fileTrace (fun _ => vueDoc this env file) file).
      now apply fileTrace_no_hook.
    + change (fileTrace (apiDoc this env) file)
        with (fileTrace (fun _ => apiDoc this env file) file).
      apply fileTrace_no_hook; [|reflexivity].
      intros nodes; now destruct (length nodes =? 0)%nat.
    + unfold fileTrace, markdownDoc.
      destruct (readFile env file) as [e|content]; [reflexivity|];
        cbn -[Markdown.render].
      destruct (Markdown.render (markdownProcessor this)
                  (Plugin.runTransformMarkdown (plugins this) content file))
        as [[message|] html]; reflexivity.
Qed.

Lemma omap_length_filter {A B} (f : A -> option B) (g : A -> bool) (l : list A) :
  (forall x, match f x with Some _ => true | None => false end = g x) ->
  length (omap f l) = length (List.filter g l).
Proof.
  intros H; induction l as [|x l IH]; [reflexivity|].
  cbn [omap list_omap List.filter]; rewrite <- H.
  destruct (f x); cbn [length]; now rewrite IH.
Qed.

Lemma Forall_omap {A B} (P : B -> Prop) (f : A -> option B) (l : list A) :
  (forall x y, f x = Some y -> P y) -> Forall P (omap f l).
Proof.
  intros H; apply Forall_forall; intros y Hy.
  apply list_elem_of_omap in Hy as (x & _ & Hx); eauto.
Qed.

(** X5: [generate] returns the prose nodes, then the API nodes, then the
    component nodes: one prose node for every prose file that can be read,
    one API node, below [api/], for every source file that parses to at
    least one declaration, and one component node, below [components/],
    for every component file that parses. *)
Theorem one_node_per_processed_file :
  exists markdown api components,
    (generate this env).2 = inr (markdown ++ api ++ components)
    /\ Forall (fun doc => DocNode.type doc = DocNode.markdown) markdown
    /\ Forall (fun doc => DocNode.type doc = DocNode.api
                          /\ startsWith (lit "api/") (DocNode.path doc) = true) api
    /\ Forall (fun doc => DocNode.type doc = DocNode.component
                          /\ startsWith (lit "components/") (DocNode.path doc) = true)
         components
    /\ length markdown
       = length (List.filter (fun file => returns (readFile env file)) (fg env MarkdownFiles))
    /\ length api
       = length (List.filter (fun file => declares (parseTypeScriptFile env file))
                   (fg env ApiFiles))
    /\ length components
       = (length (List.filter (fun file => returns (parseVueComponent env file))
                    (fg env VueFiles))
          + length (List.filter (fun file => returns (parseReactComponent env file))
                      (fg env ReactFiles)))%nat.
Proof.
  exists (markdownNodes this env), (apiNodes this env), (componentNodes this env).
  split; [apply generate_value|].
  unfold markdownNodes, apiNodes, componentNodes.
  split; [|split; [|split; [|split; [|split]]]].
  - apply Forall_omap; intros file doc.
    unfold produced; rewrite markdownDoc_value.
    destruct (readFile env file); [discriminate|]. now intros [= <-].
  - apply Forall_omap; intros file doc.
    unfold produced, apiDoc; destruct (parseTypeScriptFile env file) as [e|nodes]; cbn;
      [discriminate|].
    destruct (length nodes =? 0)%nat; cbn; [discriminate|]. now intros [= <-].
  - apply Forall_app; split; apply Forall_omap; intros file doc.
    + unfold produced, vueDoc; destruct (parseVueComponent env file); cbn; [discriminate|].
      now intros [= <-].
    + unfold produced, reactDoc; destruct (parseReactComponent env file); cbn;
        [discriminate|].
      now intros [= <-].
  - apply omap_length_filter; intros file.
    unfold produced; rewrite markdownDoc_value; now destruct (readFile env file).
  - apply omap_length_filter; intros file.
    unfold produced, apiDoc; destruct (parseTypeScriptFile env file) as [e|[|n nodes]];
      reflexivity.
  - rewrite length_app; f_equal; apply omap_length_filter; intros file.
    + unfold produced, vueDoc; now destruct (parseVueComponent env file).
    + unfold produced, reactDoc; now destruct (parseReactComponent env file).
Qed.

End GeneratorProperties.

Section SkippedFiles.
Import JS Generator Spec Notions.

Variable this : DocGenerator.
Variable env : Env.

Lemma allNodes_withoutListing (g : Glob) (f e : str) :
  failsIn env g f e -> allNodes this (withoutListing g f env) = allNodes this env.
Proof.
  intros Hf; unfold allNodes, markdownNodes, apiNodes, componentNodes.
  destruct g; cbn [fg withoutListing sameGlob]; cbn [failsIn] in Hf.
  - f_equal.
    apply (omap_filter_skip (fun file => produced (markdownDoc this env file))).
    intros _; unfold produced; now rewrite markdownDoc_value, Hf.
  - f_equal; f_equal.
    apply (omap_filter_skip (fun file => mjoin (produced (apiDoc this env file)))).
    intros _; unfold produced, apiDoc; now rewrite Hf.
  - f_equal; f_equal; f_equal.
    apply (omap_filter_skip (fun file => produced (vueDoc this env file))).
    intros _; unfold produced, vueDoc; now rewrite Hf.
  - f_equal; f_equal; f_equal.
    apply (omap_filter_skip (fun file => produced (reactDoc this env file))).
    intros _; unfold produced, reactDoc; now rewrite Hf.
Qed.

Lemma fileTrace_logged {A} (one : str -> M A) (files : list str) (f e : str) :
  f ∈ files -> (one f).2 = inl e -> In (LogError f e) (flat_map (fileTrace one) files).
Proof.
  intros Hin He; apply in_flat_map; exists f; split; [now apply list_elem_of_In|].
  unfold fileTrace; rewrite He; apply in_or_app; right; now left.
Qed.

(** C6, amended: when processing a file as a member of one enumeration
    throws, [generate] still returns; what it returns is, in order, the
    node of every other listing whose processing returns, which is also
    what it returns for the project without that listing; and the error is
    logged with the file. *)
Theorem failing_listing_is_skipped (g : Glob) (f e : str) :
  f ∈ fg env g -> failsIn env g f e ->
  let listing := fg (withoutListing g f env) in
  (generate this env).2
  = inr (omap (fun file => produced (markdownDoc this env file)) (listing MarkdownFiles)
         ++ omap (fun file => mjoin (produced (apiDoc this env file))) (listing ApiFiles)
         ++ omap (fun file => produced (vueDoc this env file)) (listing VueFiles)
         ++ omap (fun file => produced (reactDoc this env file)) (listing ReactFiles))
  /\ (generate this (withoutListing g f env)).2 = (generate this env).2
  /\ In (LogError f e) (generate this env).1.
Proof.
  intros Hin Hf listing.
  pose proof (allNodes_withoutListing g f e Hf) as E.
  split; [|split].
  - rewrite generate_value, <- E; reflexivity.
  - now rewrite !generate_value, E.
  - rewrite generate_trace, !app_assoc.
    apply in_or_app; left; apply in_or_app; left.
    rewrite <- !app_assoc, batch_trace.
    destruct g; cbn [failsIn] in Hf.
    + apply in_or_app; left; apply fileTrace_logged; [exact Hin|].
      now rewrite markdownDoc_value, Hf.
    + apply in_or_app; right; apply in_or_app; left.
      apply fileTrace_logged; [exact Hin|]. unfold apiDoc; now rewrite Hf.
    + do 2 (apply in_or_app; right). apply in_or_app; left.
      apply fileTrace_logged; [exact Hin|]. unfold vueDoc; now rewrite Hf.
    + do 3 (apply in_or_app; right).
      apply fileTrace_logged; [exact Hin|]. unfold reactDoc; now rewrite Hf.
Qed.

End SkippedFiles.

Section SkippedFilesWitness.
Import JS Generator Spec Notions.

Lemma failing_listing_is_skipped_witness :
  let listing := fg (withoutListing MarkdownFiles Examples.broken Examples.env) in
  (generate Examples.generator Examples.env).2
  = inr (omap (fun file => produced (markdownDoc Examples.generator Examples.env file))
           (listing MarkdownFiles)
         ++ omap (fun file => mjoin (produced (apiDoc Examples.generator Examples.env file)))
              (listing ApiFiles)
         ++ omap (fun file => produced (vueDoc Examples.generator Examples.env file))
              (listing VueFiles)
         ++ omap (fun file => produced (reactDoc Examples.generator Examples.env file))
              (listing ReactFiles))
  /\ (generate Examples.generator
        (withoutListing MarkdownFiles Examples.broken Examples.env)).2
     = (generate Examples.generator Examples.env).2
  /\ In (LogError Examples.broken (lit "ENOENT: no such file or directory"))
       (generate Examples.generator Examples.env).1.
Proof.
  apply (failing_listing_is_skipped Examples.generator Examples.env MarkdownFiles
           Examples.broken (lit "ENOENT: no such file or directory")).
  - apply list_elem_of_here.
  - reflexivity.
Defined.

End SkippedFilesWitness.

Section HelperProperties.
Import JS Generator Spec Notions.

(** *** Front matter *)

Lemma frontmatterLine_no_title (acc : str * gmap str str) (line : str) :
  acc.2 !! lit "title" = None -> (frontmatterLine acc line).2 !! lit "title" = None.
Proof.
  intros H; unfold frontmatterLine.
  destruct (split 58 line) as [|key valueParts]; [exact H|].
  destruct (truthy key && negb (length valueParts =? 0)%nat); [|exact H].
  unfold eqb; case_bool_decide as Hk; [exact H|].
  case_bool_decide as Hp; [exact H|].
  cbn [snd]; rewrite lookup_insert_ne by congruence; exact H.
Qed.

(** X6: the [title] key of a front matter block is never stored among the
    metadata, however often and in whatever spelling of white space it is
    given. *)
Theorem title_is_not_metadata (content : str) (m : gmap str str) :
  meta (extractFrontmatter content) = Some m -> m !! lit "title" = None.
Proof.
  unfold extractFrontmatter; destruct (frontmatterMatch content) as [block|];
    [|discriminate].
  cbn [meta]; intros [= <-].
  assert (H : forall lines acc, acc.2 !! lit "title" = None ->
                (fold_left frontmatterLine lines acc).2 !! lit "title" = None).
  { induction lines as [|l ls IH]; intros acc Hacc; [exact Hacc|].
    cbn [fold_left]; now apply IH, frontmatterLine_no_title. }
  now apply H.
Qed.

Lemma title_is_not_metadata_witness :
  ({[ lit "tags" := lit "a, b" ]} : gmap str str) !! lit "title" = None.
Proof.
  apply (title_is_not_metadata
           (lit "---" ++ [10] ++ lit "title: Home" ++ [10] ++ lit "tags: a, b" ++ [10]
            ++ lit "---" ++ [10] ++ lit "# Welcome")).
  vm_compute; reflexivity.
Defined.

Lemma stripPrefix_app (p r : str) : stripPrefix p (p ++ r) = Some r.
Proof. induction p as [|c p IH]; [reflexivity|]; cbn; now rewrite N.eqb_refl. Qed.

Lemma lazyUntil_first (d a rest : str) :
  ~ In 10 a -> lazyUntil (10 :: d) (a ++ 10 :: d ++ rest) = Some a.
Proof.
  induction a as [|c a IH]; intros Ha.
  - cbn [app]; unfold lazyUntil; destruct rest, d; unfold startsWith;
      change (10 :: ?x ++ ?y) with ((10 :: x) ++ y); now rewrite stripPrefix_app.
  - cbn [app lazyUntil].
    assert (Hc : startsWith (10 :: d) (c :: a ++ 10 :: d ++ rest) = false).
    { unfold startsWith; cbn [stripPrefix].
      destruct (N.eqb_spec 10 c); [subst; exfalso; apply Ha; now left | reflexivity]. }
    rewrite Hc, IH; [reflexivity|].
    intros H; apply Ha; now right.
Qed.

Lemma split_nonempty (sep : N) (s : str) : split sep s <> [].
Proof.
  destruct s as [|c r]; cbn; [discriminate|].
  destruct (c =? sep); [discriminate|]; destruct (split sep r); discriminate.
Qed.

Lemma split_whole (sep : N) (s : str) : ~ In sep s -> split sep s = [s].
Proof.
  induction s as [|c r IH]; intros H; [reflexivity|].
  cbn; destruct (N.eqb_spec c sep); [subst; exfalso; apply H; now left|].
  rewrite IH; [reflexivity|]. intros Hin; apply H; now right.
Qed.

(** Joining the parts of a split with the separator gives the string
    back. *)
Lemma join_split (sep : N) (s : str) : join [sep] (split sep s) = s.
Proof.
  induction s as [|c r IH]; [reflexivity|].
  cbn [split]; destruct (N.eqb_spec c sep).
  - subst; pose proof (split_nonempty sep r).
    destruct (split sep r) as [|w ws]; [contradiction|].
    change (join [sep] ([] :: w :: ws)) with (sep :: join [sep] (w :: ws)).
    now rewrite IH.
  - pose proof (split_nonempty sep r).
    destruct (split sep r) as [|w ws]; [contradiction|].
    destruct ws as [|w' ws].
    + change (c :: w = c :: r); change (w = r) in IH; now subst.
    + change (c :: w ++ [sep] ++ join [sep] (w' :: ws) = c :: r).
      change (w ++ [sep] ++ join [sep] (w' :: ws) = r) in IH; now rewrite IH.
Qed.

(** X7: a block that consists of the one line [title:] followed by a
    value gives the value as title, trimmed and without a surrounding
    quote; colons inside the value are kept. *)
Theorem frontmatter_title_value (value rest : str) :
  ~ In 10 value ->
  title (extractFrontmatter
           (lit "---" ++ [10] ++ lit "title:" ++ value ++ [10] ++ lit "---" ++ rest))
  = unquote (trim value).
Proof.
  intros Hv; unfold extractFrontmatter, frontmatterMatch.
  change (lit "---" ++ [10] ++ lit "title:" ++ value ++ [10] ++ lit "---" ++ rest)
    with ((lit "---" ++ [10]) ++ 116 :: (lit "itle:" ++ value) ++ 10 :: lit "---" ++ rest).
  rewrite stripPrefix_app, (lazyUntil_first (lit "---")).
  2:{ intros [H|H]; [discriminate|].
      repeat (destruct H as [H|H]; [discriminate|]). contradiction. }
  cbn [fmap option_fmap option_map title].
  rewrite split_whole.
  2:{ intros H. repeat (destruct H as [H|H]; [discriminate|]). contradiction. }
  cbn [fold_left fst]; unfold frontmatterLine.
  change (split 58 (116 :: lit "itle:" ++ value)) with (lit "title" :: split 58 value).
  pose proof (split_nonempty 58 value) as Hne.
  destruct (split 58 value) as [|w ws] eqn:E; [contradiction|].
  cbn [truthy lit length Nat.eqb negb andb].
  rewrite <- E; change (lit ":") with [58]; rewrite join_split.
  reflexivity.
Qed.

Lemma frontmatter_title_value_witness :
  title (extractFrontmatter
           (lit "---" ++ [10] ++ lit "title:" ++ lit " 'Guide: part 1'" ++ [10]
            ++ lit "---" ++ [10] ++ lit "text"))
  = lit "Guide: part 1".
Proof.
  apply (frontmatter_title_value (lit " 'Guide: part 1'") (10 :: lit "text")).
  vm_compute; intros [H|H]; [discriminate|].
  repeat (destruct H as [H|H]; [discriminate|]). contradiction.
Defined.

End HelperProperties.

Section EscapeProperties.
Import JS Generator.

Lemma escapeUnit_cases (c : N) :
  (c = 38 /\ escapeUnit c = lit "&amp;") \/ (c = 60 /\ escapeUnit c = lit "&lt;")
  \/ (c = 62 /\ escapeUnit c = lit "&gt;") \/ (c = 34 /\ escapeUnit c = lit "&quot;")
  \/ (c = 39 /\ escapeUnit c = lit "&#039;") \/ (c <> 38 /\ escapeUnit c = [c]).
Proof.
  unfold escapeUnit.
  destruct (N.eqb_spec c 38); [now left|].
  destruct (N.eqb_spec c 60); [now right; left|].
  destruct (N.eqb_spec c 62); [now right; right; left|].
  destruct (N.eqb_spec c 34); [now right; right; right; left|].
  destruct (N.eqb_spec c 39); [now right; right; right; right; left|].
  now right; right; right; right; right.
Qed.

(** The code units of the literals of a hypothesis, as numerals. *)
Ltac literals H :=
  repeat match type of H with
         | context [lit ?s] =>
             let t := eval vm_compute in (lit s) in change (lit s) with t in H
         end.

Lemma escapeUnit_inj (c d : N) (X Y : str) :
  escapeUnit c ++ X = escapeUnit d ++ Y -> c = d /\ X = Y.
Proof.
  intros H.
  destruct (escapeUnit_cases c) as [[Hc Ec]|[[Hc Ec]|[[Hc Ec]|[[Hc Ec]|[[Hc Ec]|[Hc Ec]]]]]],
           (escapeUnit_cases d) as [[Hd Ed]|[[Hd Ed]|[[Hd Ed]|[[Hd Ed]|[[Hd Ed]|[Hd Ed]]]]]];
    rewrite Ec, Ed in H; literals H; cbn [app] in H; split; congruence.
Qed.

(** X8: escaping loses nothing: two texts with the same escaped form are
    the same text. *)
Theorem escapeHtml_injective (a b : str) : escapeHtml a = escapeHtml b -> a = b.
Proof.
  revert b; induction a as [|c a IH]; intros [|d b] H; [reflexivity| | |].
  - exfalso; change (@nil N ++ [] = escapeUnit d ++ escapeHtml b) in H.
    destruct (escapeUnit_cases d) as [[_ E]|[[_ E]|[[_ E]|[[_ E]|[[_ E]|[_ E]]]]]];
      rewrite E in H; literals H; discriminate H.
  - exfalso; change (escapeUnit c ++ escapeHtml a = @nil N ++ []) in H.
    destruct (escapeUnit_cases c) as [[_ E]|[[_ E]|[[_ E]|[[_ E]|[[_ E]|[_ E]]]]]];
      rewrite E in H; literals H; discriminate H.
  - change (escapeUnit c ++ escapeHtml a = escapeUnit d ++ escapeHtml b) in H.
    apply escapeUnit_inj in H as [-> H]; f_equal; now apply IH.
Qed.

Lemma escapeHtml_injective_witness :
  lit "a < b && c" = lit "a < b && c".
Proof. apply (escapeHtml_injective (lit "a < b && c") (lit "a < b && c")); reflexivity. Defined.

End EscapeProperties.

Section MarkdownProperties.
Import JS Markdown Notions.

Lemma replaceRuns_nil_class (class : N -> bool) (inRun : bool) (s : str) :
  Forall (fun c => class c = false) (replaceRuns class [] inRun s).
Proof.
  revert inRun; induction s as [|c r IH]; intros inRun; [constructor|].
  cbn [replaceRuns]; destruct (class c) eqn:E.
  - destruct inRun; [apply IH | cbn [app]; apply IH].
  - constructor; [exact E | apply IH].
Qed.

Ltac units :=
  unfold slugUnit, notSlugUnit, uriUnreserved, isWord, inRange in *;
  rewrite ?negb_false_iff, ?negb_true_iff in *;
  rewrite ?orb_true_iff, ?orb_false_iff, ?andb_true_iff, ?andb_false_iff,
    ?N.leb_le, ?N.leb_gt, ?N.eqb_eq, ?N.eqb_neq, ?N.ltb_lt, ?N.ltb_ge in *.

Lemma hexDigit_word (d : N) : d < 16 -> isWord (hexDigit d) = true.
Proof.
  intros H; unfold hexDigit; destruct (N.ltb_spec d 10); units; lia.
Qed.

Lemma percent_units (byte : N) : byte < 256 -> Forall (fun c => slugUnit c = true) (percent byte).
Proof.
  intros H; unfold percent.
  assert (H1 : isWord (hexDigit (byte / 16)) = true).
  { apply hexDigit_word, N.Div0.div_lt_upper_bound; lia. }
  assert (H2 : isWord (hexDigit (byte mod 16)) = true).
  { apply hexDigit_word, N.mod_lt; lia. }
  constructor; [reflexivity|].
  constructor; [unfold slugUnit; now rewrite H1|].
  constructor; [unfold slugUnit; now rewrite H2|].
  constructor.
Qed.

Lemma encode_slug_units (s : str) :
  Forall (fun c => notSlugUnit c = false) s ->
  exists t, encodeURIComponent s = Some t /\ Forall (fun c => slugUnit c = true) t.
Proof.
  induction 1 as [|c r Hc _ [t [Et Ht]]]; [now exists []|].
  cbn [encodeURIComponent]; rewrite Et; cbn [fmap option_fmap option_map].
  destruct (isWord c || (c =? 45)) eqn:W.
  - assert (U : uriUnreserved c = true) by (clear -W; units; lia).
    rewrite U; eexists; split; [reflexivity|].
    constructor; [unfold slugUnit; now rewrite W | exact Ht].
  - assert (R : 0x4e00 <= c <= 0x9fa5) by (clear -W Hc; units; lia).
    assert (U : uriUnreserved c = false) by (clear -R; units; lia).
    assert (L : inRange 0xDC00 0xDFFF c = false) by (clear -R; units; lia).
    assert (G : inRange 0xD800 0xDBFF c = false) by (clear -R; units; lia).
    rewrite U, L, G; eexists; split; [reflexivity|].
    apply Forall_app; split; [|exact Ht].
    unfold utf8.
    destruct (N.ltb_spec c 0x80); [lia|]. destruct (N.ltb_spec c 0x800); [lia|].
    destruct (N.ltb_spec c 0x10000); [|lia].
    assert (c / 4096 < 16) by (apply N.Div0.div_lt_upper_bound; lia).
    assert ((c / 64) mod 64 < 64) by (apply N.mod_lt; lia).
    assert (c mod 64 < 64) by (apply N.mod_lt; lia).
    cbn [flat_map]; rewrite app_nil_r.
    repeat (apply Forall_app; split); apply percent_units; lia.
Qed.

(** X9: [slugify] never throws, and its slug is made of word characters,
    hyphens and percent signs only, whatever the heading text. *)
Theorem slugify_yields_a_safe_slug (text : str) :
  exists slug, slugify text = Some slug /\ Forall (fun c => slugUnit c = true) slug.
Proof. apply encode_slug_units, replaceRuns_nil_class. Qed.

(** X10: [extractHeaders] never throws; every header it returns carries
    the slug [slugify] gives its text, and there are no more headers than
    [heading_open] tokens. *)
Theorem extractHeaders_returns (md : MarkdownIt) (content : str) :
  exists headers,
    extractHeaders md content = Some headers
    /\ Forall (fun h => slugify (text h) = Some (slug h)) headers
    /\ (length headers <= length (List.filter headingOpen (parse md content)))%nat.
Proof.
  unfold extractHeaders; induction (parse md content) as [|token rest IH].
  - exists []; repeat split; [constructor | cbn; lia].
  - destruct IH as [hs [E [F L]]].
    cbn [headersOf List.filter]; unfold headingOpen at 1.
    destruct (eqb (type token) (lit "heading_open")).
    2:{ exists hs; repeat split; assumption. }
    destruct rest as [|textToken rest'].
    { exists hs; repeat split; [assumption..|cbn [length] in *; lia]. }
    destruct (eqb (type textToken) (lit "inline")).
    2:{ exists hs; repeat split; [assumption..|cbn [length] in *; lia]. }
    destruct (encode_slug_units _ (replaceRuns_nil_class notSlugUnit false
                (hyphenateSpaces (toLowerCase (trim (tcontent textToken))))))
      as [sl [Hsl _]].
    change (slugify (tcontent textToken) = Some sl) in Hsl.
    rewrite Hsl, E; cbn [mbind option_bind].
    eexists; split; [reflexivity|]; split.
    + constructor; [exact Hsl | exact F].
    + cbn [length] in *; lia.
Qed.

End MarkdownProperties.

Section VueProperties.
Import JS Regex Vue Notions.

Lemma search_includes {A} (p : str) (at_ : str -> option A) :
  (forall s a, at_ s = Some a -> startsWith p s = true) ->
  forall s a, search at_ s = Some a -> includes p s = true.
Proof.
  intros Hp; induction s as [|c r IH]; intros a; cbn [search includes].
  - destruct (at_ []) eqn:E; [|discriminate]. intros _; now rewrite (Hp _ _ E).
  - destruct (at_ (c :: r)) eqn:E.
    + intros _; now rewrite (Hp _ _ E).
    + intros H; rewrite (IH _ H); apply orb_true_r.
Qed.

Lemma bind_prefix {A} (p s : str) (k : str -> option A) (a : A) :
  (stripPrefix p s ≫= k) = Some a -> startsWith p s = true.
Proof. unfold startsWith; destruct (stripPrefix p s); [reflexivity | discriminate]. Qed.

Lemma matchAllFrom_Forall {A} (P : A -> Prop) (at_ : str -> option (A * str)) :
  (forall s a rest, at_ s = Some (a, rest) -> P a) ->
  forall s k, Forall P (matchAllFrom at_ k s).
Proof.
  intros HP; induction s as [|c r IH]; intros k.
  - destruct k; cbn [matchAllFrom]; [|constructor].
    destruct (at_ []) as [[a rest]|] eqn:E; constructor; [eauto | constructor].
  - destruct k; cbn [matchAllFrom]; [|apply IH].
    destruct (at_ (c :: r)) as [[a rest]|] eqn:E; [|apply IH].
    constructor; [eauto | apply IH].
Qed.

Lemma matchAll_none {A} (at_ : str -> option (A * str)) (P : N -> Prop) :
  (forall s, Forall P s -> at_ s = None) ->
  forall s, Forall P s -> matchAll at_ s = [].
Proof.
  intros HP; induction 1 as [|c r Hc Hr IH].
  - unfold matchAll; cbn [matchAllFrom]; rewrite HP; [reflexivity | constructor].
  - rewrite matchAll_miss; [exact IH|]. apply HP; now constructor.
Qed.

Lemma word_wordName (s w r : str) : word s = Some (w, r) -> wordName w.
Proof.
  unfold word; pose proof (Forall_takeWhile isWord s) as H.
  destruct (takeWhile isWord s) as [|c t]; [discriminate|].
  intros [= <- _]; split; [discriminate | exact H].
Qed.

(** *** Props *)

(** X11: a component whose script has no typed prop block has no props:
    an options-style [props] object contributes nothing. *)
Theorem options_style_props_are_lost (d : Descriptor) :
  includes (lit "defineProps<{") (scriptContent d) = false -> extractProps d = [].
Proof.
  intros H; rewrite extractProps_typed_only.
  destruct (negb (hasScript d)); [reflexivity|].
  destruct (search definePropsAt (scriptContent d)) as [block|] eqn:E; [|reflexivity].
  apply (search_includes (lit "defineProps<{")) in E; [congruence|].
  intros s a; apply bind_prefix.
Qed.

Lemma options_style_props_are_lost_witness : extractProps optionsComponent = [].
Proof. apply (options_style_props_are_lost optionsComponent); vm_compute; reflexivity. Defined.

Lemma typedPropAt_name (s name ty whole rest : str) :
  typedPropAt s = Some ((name, ty, whole), rest) -> wordName name.
Proof.
  unfold typedPropAt; destruct (word s) as [[w s1]|] eqn:W; [|discriminate].
  apply word_wordName in W; cbn [mbind option_bind].
  intros H.
  repeat match type of H with
         | context [match ?x with _ => _ end] => destruct x; try discriminate H
         end;
    now injection H as <- _ _ _.
Qed.

(** X12: every prop read from a Vue component has a non-empty name made
    of word characters, one type text and a required flag, and neither a
    default value nor a description. *)
Theorem vue_props_shape (d : Descriptor) :
  Forall (fun p => wordName (PropDoc.name p)
                   /\ (exists type, PropDoc.type p = inl type)
                   /\ (exists required, PropDoc.required p = Some required)
                   /\ PropDoc.default p = None
                   /\ PropDoc.description p = None)
    (extractProps d).
Proof.
  rewrite extractProps_typed_only.
  destruct (negb (hasScript d)); [constructor|].
  destruct (search definePropsAt (scriptContent d)) as [block|]; [|constructor].
  apply List.Forall_map.
  apply (matchAllFrom_Forall _ typedPropAt).
  intros s [[name ty] whole] rest H; apply typedPropAt_name in H.
  cbn; eauto 7.
Qed.

(** *** Slots *)

Lemma slotAt_space (s : str) (m : option str * str) (rest : str) :
  slotAt s = Some (m, rest) -> exists c, In c s /\ isWhiteSpace c = true.
Proof.
  unfold slotAt.
  destruct (stripPrefix (lit "<slot") s) as [s1|] eqn:E; [|discriminate].
  cbn [mbind option_bind].
  pose proof (Forall_takeWhile isWhiteSpace s1) as H.
  destruct s1 as [|c s1']; [discriminate|].
  cbn [takeWhile] in *; destruct (isWhiteSpace c) eqn:W; [|discriminate].
  intros _; exists c; split; [|exact W].
  eapply In_stripPrefix; [exact E | now left].
Qed.

(** X13: a template without white space declares no slot; [<slot>] and
    [<slot/>] written without a blank are not recognised. *)
Theorem slot_needs_white_space (d : Descriptor) (templateContent : str) :
  template d = Some templateContent ->
  Forall (fun c => isWhiteSpace c = false) templateContent ->
  extractSlots d = [].
Proof.
  intros Ht H; unfold extractSlots; rewrite Ht.
  rewrite (matchAll_none slotAt (fun c => isWhiteSpace c = false)); [reflexivity| |exact H].
  intros s Hs; destruct (slotAt s) as [[m rest]|] eqn:E; [|reflexivity].
  apply slotAt_space in E as [c [Hin W]].
  apply (proj1 (List.Forall_forall _ _) Hs) in Hin; congruence.
Qed.

Lemma slot_needs_white_space_witness : extractSlots optionsComponent = [].
Proof.
  apply (slot_needs_white_space optionsComponent (lit "<div><slot></slot></div>"));
    [reflexivity|].
  vm_compute; repeat constructor.
Defined.

Lemma slotAt_name (s : str) (name : option str) (attrs rest : str) :
  slotAt s = Some ((name, attrs), rest) ->
  match name with Some n => wordName n | None => True end.
Proof.
  unfold slotAt.
  destruct (stripPrefix (lit "<slot") s) as [s1|]; [|discriminate].
  cbn [mbind option_bind].
  destruct (takeWhile isWhiteSpace s1); [discriminate|].
  destruct (slotNameGroup (skipSpaces s1)) as [[found r]|] eqn:G.
  - destruct (stripPrefix (lit ">") (dropWhile notGt r)); [|discriminate].
    cbn [mbind option_bind]; intros [= <- _ _].
    unfold slotNameGroup in G.
    destruct (stripPrefix (lit "name=") (skipSpaces s1)) as [s2|]; [|discriminate].
    cbn [mbind option_bind] in G.
    destruct (quote s2) as [s3|]; [|discriminate]; cbn [mbind option_bind] in G.
    destruct (word s3) as [[w s4]|] eqn:W; [|discriminate]; cbn [mbind option_bind] in G.
    destruct (quote s4); [|discriminate]; cbn [mbind option_bind] in G.
    injection G as <- _; now apply word_wordName in W.
  - destruct (stripPrefix (lit ">") (dropWhile notGt (skipSpaces s1))); [|discriminate].
    cbn [mbind option_bind]; now intros [= <- _ _].
Qed.

Lemma pushSlots_Forall (P : SlotDoc.t -> Prop) (ms : list (option str * str)) :
  (forall name attrs,
      In (name, attrs) ms ->
      P (SlotDoc.mk (orElse (default [] name) (lit "default")) None
           (Some (includes (lit ":") attrs || includes (lit "v-bind") attrs)))) ->
  forall slots, Forall P slots -> Forall P (pushSlots slots ms).
Proof.
  induction ms as [|[name attrs] rest IH]; intros Hms slots Hs; [exact Hs|].
  cbn [pushSlots]; destruct (existsb _ slots).
  - apply IH; [|exact Hs]. intros n a Hin; apply Hms; now right.
  - apply IH; [intros n a Hin; apply Hms; now right|].
    apply Forall_app; split; [exact Hs|].
    constructor; [apply Hms; now left | constructor].
Qed.

(** X14: the slots of a Vue component have pairwise distinct names; each
    name is [default] or a non-empty run of word characters, each slot has
    a scoped flag and none has a description. *)
Theorem vue_slots_are_distinct (d : Descriptor) :
  List.NoDup (map SlotDoc.name (extractSlots d))
  /\ Forall (fun slot => wordName (SlotDoc.name slot)
                         /\ (exists scoped, SlotDoc.scoped slot = Some scoped)
                         /\ SlotDoc.description slot = None)
       (extractSlots d).
Proof.
  split; [apply extractSlots_NoDup|].
  unfold extractSlots; destruct (template d) as [templateContent|]; [|constructor].
  apply pushSlots_Forall; [|constructor].
  intros name attrs Hin.
  pose proof (matchAllFrom_Forall
                (fun m => match m.1 with Some n => wordName n | None => True end) slotAt)
    as H.
  specialize (H ltac:(intros s [n a] r E; exact (slotAt_name _ _ _ _ E)) templateContent 0%nat).
  apply (proj1 (List.Forall_forall _ _) H) in Hin; cbn [fst] in Hin.
  cbn [SlotDoc.name SlotDoc.scoped SlotDoc.description].
  split; [|split; [eauto | reflexivity]].
  destruct name as [n|]; cbn [default].
  - destruct Hin as [Hn Hw]; destruct n; [contradiction | cbn; split; [discriminate | exact Hw]].
  - cbn [orElse truthy]; split; [discriminate | vm_compute; repeat constructor].
Qed.

(** *** Events *)

Lemma pushEmits_Forall (P : EventDoc.t -> Prop) (names : list str) :
  (forall name, In name names -> P (EventDoc.mk name None None)) ->
  forall events, Forall P events -> Forall P (pushEmits events names).
Proof.
  induction names as [|name rest IH]; intros Hn events He; [exact He|].
  cbn [pushEmits]; destruct (existsb _ events).
  - apply IH; [|exact He]. intros n Hin; apply Hn; now right.
  - apply IH; [intros n Hin; apply Hn; now right|].
    apply Forall_app; split; [exact He|].
    constructor; [apply Hn; now left | constructor].
Qed.

Lemma emitCallAt_name (s name rest : str) : emitCallAt s = Some (name, rest) -> wordName name.
Proof.
  unfold emitCallAt.
  destruct (stripPrefix (lit "$emit(") s) as [s1|]; [|discriminate].
  cbn [mbind option_bind].
  destruct (quote s1) as [s2|]; [|discriminate]; cbn [mbind option_bind].
  destruct (word s2) as [[w s3]|] eqn:W; [|discriminate]; cbn [mbind option_bind].
  destruct (quote s3); [|discriminate]; cbn [mbind option_bind].
  intros [= <- _]; now apply word_wordName in W.
Qed.

(** X15: for a component without a typed [defineEmits] block the events
    are the names of its [$emit] calls, each once: the names are pairwise
    distinct, non-empty runs of word characters, and no event has a payload
    or a description. *)
Theorem emitted_events_are_distinct (d : Descriptor) :
  includes (lit "defineEmits<{") (scriptContent d) = false ->
  List.NoDup (map EventDoc.name (extractEvents d))
  /\ Forall (fun event => wordName (EventDoc.name event)
                          /\ EventDoc.payload event = None
                          /\ EventDoc.description event = None)
       (extractEvents d).
Proof.
  intros H; unfold extractEvents.
  destruct (negb (hasScript d)); [split; constructor|].
  destruct (search defineEmitsAt (scriptContent d)) as [block|] eqn:E.
  { apply (search_includes (lit "defineEmits<{")) in E; [congruence|].
    intros s a; apply bind_prefix. }
  split; [apply pushEmits_NoDup; constructor|].
  apply pushEmits_Forall; [|constructor].
  intros name Hin.
  pose proof (matchAllFrom_Forall wordName emitCallAt emitCallAt_name
                (scriptContent d) 0%nat) as F.
  apply (proj1 (List.Forall_forall _ _) F) in Hin.
  split; [exact Hin | split; reflexivity].
Qed.

Lemma emitted_events_are_distinct_witness :
  map EventDoc.name (extractEvents emittingComponent) = [lit "open"; lit "close"]
  /\ List.NoDup (map EventDoc.name (extractEvents emittingComponent)).
Proof.
  split; [vm_compute; reflexivity|].
  apply (emitted_events_are_distinct emittingComponent); vm_compute; reflexivity.
Defined.

End VueProperties.

Section ReactProperties.
Import JS React Notions.

(** X16: a component written as an arrow function is not recognised: a
    variable declarator changes nothing in the result, wherever it stands
    in the file and whatever it declares. *)
Theorem arrow_components_are_ignored (filePath : str) (before after : list Visited)
    (id : option str) (init : Init) (leadingComments : list Comment) :
  parseReactComponent filePath (before ++ VariableDeclarator id init leadingComments :: after)
  = parseReactComponent filePath (before ++ after).
Proof.
  assert (H : forall st, visit st (VariableDeclarator id init leadingComments) = st)
    by (intros st; destruct id, init; reflexivity).
  unfold parseReactComponent; rewrite !fold_left_app; cbn [fold_left]; now rewrite H.
Qed.

Lemma dedupFrom_sublist (seen : gset str) (props : list PropDoc.t) :
  sublist (dedupFrom seen props) props.
Proof.
  revert seen; induction props as [|p rest IH]; intros seen; [constructor|].
  cbn [dedupFrom]; case_bool_decide; [apply sublist_cons | apply sublist_skip]; apply IH.
Qed.

(** X17: [deduplicateProps] keeps, in their order, exactly the first
    prop of every name: the result is a sublist of the input with pairwise
    distinct names, and looking a name up gives the same prop before and
    after. *)
Theorem deduplicateProps_keeps_the_first (props : list PropDoc.t) :
  sublist (deduplicateProps props) props
  /\ List.NoDup (map PropDoc.name (deduplicateProps props))
  /\ forall name,
      find (fun p => eqb (PropDoc.name p) name) (deduplicateProps props)
      = find (fun p => eqb (PropDoc.name p) name) props.
Proof.
  split; [apply dedupFrom_sublist | apply deduplicateProps_first_wins].
Qed.

End ReactProperties.

Section ExtractorProperties.
Import JS TS Notions.

Lemma getSourceLocation_located (fileName : str) (node : Node) :
  locatedIn fileName (Some (getSourceLocation fileName node)).
Proof.
  exists (startLine node + 1), (startCharacter node + 1); unfold getSourceLocation.
  split; [reflexivity | lia].
Qed.

Lemma declared_located (fileName : str) (node : Node) :
  Forall (fun d => locatedIn fileName (ApiDocNode.source d)
                   /\ Forall (fun child => locatedIn fileName (ApiDocNode.source child))
                        (default [] (ApiDocNode.children d)))
    (declared fileName node).
Proof.
  unfold declared.
  repeat match goal with
         | |- context [if ?b then _ else _] => destruct b
         end;
    try (constructor; [|constructor]; split; cbn [ApiDocNode.source ApiDocNode.children
           parseFunctionDeclaration parseClassDeclaration parseInterfaceDeclaration
           parseTypeAliasDeclaration parseEnumDeclaration default];
         [apply getSourceLocation_located|]); try constructor.
  - apply Forall_flat_map, Forall_forall; intros member _; unfold classMember.
    destruct (name member); [|constructor].
    destruct (isKind MethodDeclaration member);
      [constructor; [apply getSourceLocation_located | constructor]|].
    destruct (isKind PropertyDeclaration member); constructor;
      [apply getSourceLocation_located | constructor].
  - apply Forall_flat_map, Forall_forall; intros member _; unfold interfaceMember.
    destruct (name member); [|constructor].
    destruct (isKind PropertySignature member); constructor;
      [apply getSourceLocation_located | constructor].
  - unfold parseVariableStatement.
    apply Forall_flat_map, Forall_forall; intros declaration _.
    destruct (name declaration) as [n|]; [|constructor].
    destruct (isIdentifier n); constructor; [|constructor].
    split; [apply getSourceLocation_located | constructor].
Qed.

(** X18: every node [parseTypeScriptFile] returns, and every member
    listed among the children of a class or an interface, carries a source
    location in the parsed file whose line and column count from 1. *)
Theorem api_nodes_are_located (fileName : str) (sourceFile : Node) :
  Forall (fun d => locatedIn fileName (ApiDocNode.source d)
                   /\ Forall (fun child => locatedIn fileName (ApiDocNode.source child))
                        (default [] (ApiDocNode.children d)))
    (parseTypeScriptFile fileName sourceFile).
Proof.
  unfold parseTypeScriptFile; rewrite filter_isExported, visit_preorder.
  apply Forall_flat_map, Forall_forall; intros node _; apply declared_located.
Qed.

Lemma examples_fold (tags : list JSDocTag) (acc : list str * list (str * (str + list str))) :
  (fold_left
     (fun (acc : list str * list (str * (str + list str))) tag =>
        let tagText := default [] (tagComment tag) in
        if eqb (tagName tag) (lit "example") then (acc.1 ++ [tagText], acc.2)
        else (acc.1, addTag acc.2 (tagName tag) tagText))
     tags acc).1
  = acc.1 ++ map tagText (List.filter isExample tags).
Proof.
  revert acc; induction tags as [|tag rest IH]; intros acc; cbn [fold_left List.filter map].
  - now rewrite app_nil_r.
  - rewrite IH; unfold isExample at 2.
    destruct (eqb (tagName tag) (lit "example")); cbn [fst map]; [|reflexivity].
    now rewrite <- app_assoc.
Qed.

(** X19: the examples of a documented declaration are the texts of its
    [example] tags, in order, one per tag, the empty text for a tag without
    text; a declaration without a JSDoc block has no examples field. *)
Theorem examples_are_the_example_tags (node : Node) :
  docExamples node
  = match jsDoc node with
    | [] => None
    | _ :: _ => Some (map tagText (List.filter isExample (jsDocTags node)))
    end.
Proof.
  unfold docExamples, getJSDocComment; destruct (jsDoc node); [reflexivity|].
  cbn [fmap option_fmap option_map examples]; f_equal; apply examples_fold.
Qed.

End ExtractorProperties.

Section BuilderProperties.
Import JS Spec Builder Notions.

Variable join : str -> str -> str.
Variable dirname : str -> str.
Variable renderPage : DocsConfig.t -> DocNode.t -> str.

Lemma written_Some (pathOf : DocNode.t -> str) (page : DocNode.t -> str)
    (docs : list DocNode.t) (path html : str) :
  written pathOf page docs path = Some html -> In path (map pathOf docs).
Proof.
  revert html; induction docs as [|doc rest IH]; intros html; cbn [written map];
    [discriminate|].
  destruct (written pathOf page rest path) as [found|];
    [intros _; right; now apply (IH found)|].
  unfold eqb; case_bool_decide; [intros _; now left | discriminate].
Qed.

Lemma written_distinct (pathOf : DocNode.t -> str) (page : DocNode.t -> str)
    (docs : list DocNode.t) (doc : DocNode.t) :
  List.NoDup (map pathOf docs) -> In doc docs ->
  written pathOf page docs (pathOf doc) = Some (page doc).
Proof.
  induction docs as [|d rest IH]; [contradiction|].
  cbn [map written]; intros Hnd [-> | Hin]; apply List.NoDup_cons_iff in Hnd as [Hd Hr].
  - destruct (written pathOf page rest (pathOf doc)) eqn:E;
      [apply written_Some in E; contradiction|].
    unfold eqb; now rewrite bool_decide_eq_true_2.
  - now rewrite IH.
Qed.

Lemma written_doc (pathOf : DocNode.t -> str) (page : DocNode.t -> str)
    (docs : list DocNode.t) (path html : str) :
  written pathOf page docs path = Some html ->
  exists doc, In doc docs /\ pathOf doc = path /\ html = page doc.
Proof.
  revert html; induction docs as [|doc rest IH]; intros html; cbn [written];
    [discriminate|].
  destruct (written pathOf page rest path) as [found|].
  - intros [= <-]; destruct (IH found eq_refl) as (d & Hd & Hp & Hh).
    exists d; repeat split; [now right | exact Hp | exact Hh].
  - unfold eqb; case_bool_decide as Hp; [|discriminate].
    intros [= <-]; exists doc; repeat split; [now left | exact Hp].
Qed.

(** X20: when the nodes resolve to pairwise distinct output paths, none
    of them below another one taken as a directory, then after
    [generateHtmlFiles] on an emptied output tree the tree holds the page of
    every node at the node's path, and nothing else. *)
Theorem distinct_paths_keep_every_page (config : DocsConfig.t) (docs : list DocNode.t) :
  List.NoDup (map (htmlPath join config) docs) ->
  unnested (map (htmlPath join config) docs) ->
  let tree := (generateHtmlFiles join dirname renderPage config docs ∅).2 in
  Forall (fun doc => tree !! htmlPath join config doc = Some (renderPage config doc)) docs
  /\ forall path html,
      tree !! path = Some html ->
      exists doc, In doc docs /\ htmlPath join config doc = path
                  /\ html = renderPage config doc.
Proof.
  intros H _ tree; split.
  - apply List.Forall_forall; intros doc Hin; unfold tree.
    rewrite (proj2 (generateHtmlFiles_run join dirname renderPage config docs ∅)).
    now rewrite written_distinct.
  - intros path html; unfold tree.
    rewrite (proj2 (generateHtmlFiles_run join dirname renderPage config docs ∅)).
    destruct (written (htmlPath join config) (renderPage config) docs path) as [found|] eqn:E;
      [|rewrite lookup_empty; discriminate].
    intros [= <-]; now apply written_doc in E.
Qed.

End BuilderProperties.

Section BuilderWitnesses.
Import JS Spec Builder Notions.

Lemma distinct_paths_keep_every_page_witness :
  let tree := (generateHtmlFiles Examples.joinPath Examples.dirnamePath Examples.page
                 Examples.cfg [guideDoc; Examples.vueButton] ∅).2 in
  Forall (fun doc => tree !! htmlPath Examples.joinPath Examples.cfg doc
                     = Some (Examples.page Examples.cfg doc))
    [guideDoc; Examples.vueButton]
  /\ forall path html,
      tree !! path = Some html ->
      exists doc, In doc [guideDoc; Examples.vueButton]
                  /\ htmlPath Examples.joinPath Examples.cfg doc = path
                  /\ html = Examples.page Examples.cfg doc.
Proof.
  apply (distinct_paths_keep_every_page Examples.joinPath Examples.dirnamePath Examples.page
           Examples.cfg [guideDoc; Examples.vueButton]).
  - vm_compute; repeat constructor; intros H; [|exact H].
    destruct H as [H|H]; [discriminate H | exact H].
  - vm_compute; repeat constructor.
Defined.

End BuilderWitnesses.

Section PathProperties.
Import JS Generator Notions.

Lemma takeWhile_stop (p : N -> bool) (a rest : str) :
  Forall (fun c => p c = true) a ->
  match rest with c :: _ => p c = false | [] => True end ->
  takeWhile p (a ++ rest) = a.
Proof.
  intros Ha Hr; rewrite takeWhile_app_all by exact Ha.
  destruct rest as [|c r]; cbn [takeWhile]; [|rewrite Hr]; apply app_nil_r.
Qed.

Lemma Forall_not_unit (x : N) (s : str) :
  ~ In x s -> Forall (fun c => negb (c =? x) = true) s.
Proof.
  intros H; apply List.Forall_forall; intros c Hc.
  destruct (N.eqb_spec c x); [subst; contradiction | reflexivity].
Qed.

Lemma rev_directory (dir : str) :
  directory dir -> match rev dir with c :: _ => negb (c =? 47) = false | [] => True end.
Proof.
  intros [->|H]; [exact I|].
  apply last_Some in H as [d ->]; now rewrite rev_app_distr.
Qed.

Lemma lastSegment_file (dir seg : str) :
  directory dir -> seg <> [] -> ~ In 47 seg -> Path.lastSegment (dir ++ seg) = seg.
Proof.
  intros Hd Hs Hn; unfold Path.lastSegment, Path.slash; rewrite rev_app_distr.
  assert (Hr : ~ In 47 (rev seg)) by (now rewrite <- in_rev).
  destruct (rev seg) as [|c t] eqn:E.
  { apply (f_equal (@rev N)) in E; rewrite rev_involutive in E; contradiction. }
  cbn [app dropWhile].
  destruct (N.eqb_spec c 47) as [->|_]; [exfalso; apply Hr; now left|].
  change (c :: t ++ rev dir) with ((c :: t) ++ rev dir).
  rewrite takeWhile_stop; [now rewrite <- E, rev_involutive | | now apply rev_directory].
  now apply Forall_not_unit.
Qed.

Lemma extname_file (dir stem ext : str) :
  directory dir -> stem <> [] -> ext <> [] ->
  ~ In 47 stem -> ~ In 47 ext -> ~ In 46 ext ->
  Path.extname (dir ++ stem ++ 46 :: ext) = 46 :: ext.
Proof.
  intros Hd Hs He Hn1 Hn2 Hdot; unfold Path.extname, Path.dot.
  rewrite lastSegment_file; [|exact Hd|now destruct stem|].
  2:{ rewrite in_app_iff; intros [H|[H|H]]; [auto|discriminate|auto]. }
  rewrite rev_app_distr; cbn [rev]; rewrite <- app_assoc; cbn [app].
  rewrite takeWhile_stop;
    [|apply Forall_not_unit; now rewrite <- in_rev | reflexivity].
  rewrite length_rev, length_app; cbn [length].
  assert (0 < length stem)%nat by (destruct stem; [contradiction | cbn; lia]).
  assert (0 < length ext)%nat by (destruct ext; [contradiction | cbn; lia]).
  destruct (Nat.eqb_spec (length ext) (length stem + S (length ext))); [lia|].
  destruct (Nat.eqb_spec (S (length ext)) (length stem + S (length ext))); [lia|].
  unfold eqb; case_bool_decide as Hb.
  { apply (f_equal (@length N)) in Hb; rewrite length_app in Hb; cbn in Hb; lia. }
  replace (length stem + S (length ext) - S (length ext))%nat with (length stem) by lia.
  apply drop_app_length.
Qed.

Lemma endsWith_app (stem ext : str) : endsWith ext (stem ++ ext) = true.
Proof.
  unfold endsWith, startsWith; now rewrite rev_app_distr, stripPrefix_app.
Qed.

Lemma basename_file (dir stem ext : str) :
  directory dir -> stem <> [] -> ext <> [] -> ~ In 47 stem -> ~ In 47 ext ->
  Path.basename (dir ++ stem ++ ext) ext = stem.
Proof.
  intros Hd Hs He Hn1 Hn2; unfold Path.basename.
  rewrite lastSegment_file; [|exact Hd|now destruct stem|].
  2:{ rewrite in_app_iff; intros [H|H]; auto. }
  assert (0 < length stem)%nat by (destruct stem; [contradiction | cbn; lia]).
  destruct ext as [|e ext']; [contradiction|]; cbn [truthy andb].
  unfold eqb at 1; case_bool_decide as Hb.
  { apply (f_equal (@length N)) in Hb; rewrite !length_app in Hb; cbn in Hb; lia. }
  rewrite endsWith_app; cbn [andb].
  unfold eqb; case_bool_decide as Hb'.
  { apply (f_equal (@length N)) in Hb'; rewrite !length_app in Hb'; cbn in Hb'; lia. }
  cbn [negb]; rewrite length_app.
  replace (length stem + length (e :: ext') - length (e :: ext'))%nat with (length stem)
    by lia.
  apply take_app_length.
Qed.

(** X21: the title made from a path is made from the file name alone,
    without the directory and the last extension: its parts between hyphens,
    each with its first letter in upper case, separated by blanks. *)
Theorem title_from_file_name (dir stem ext : str) :
  directory dir -> stem <> [] -> ext <> [] ->
  ~ In 47 stem -> ~ In 47 ext -> ~ In 46 ext ->
  getTitleFromPath (dir ++ stem ++ 46 :: ext)
  = join (lit " ") (map capitalize (split 45 stem)).
Proof.
  intros Hd Hs He Hn1 Hn2 Hdot; unfold getTitleFromPath.
  rewrite extname_file by assumption.
  rewrite basename_file; [reflexivity | assumption.. | discriminate | assumption |].
  intros [H|H]; [discriminate | auto].
Qed.

Lemma title_from_file_name_witness :
  getTitleFromPath (lit "guide/getting-started.md") = lit "Getting Started".
Proof.
  change (getTitleFromPath (lit "guide/" ++ lit "getting-started" ++ 46 :: lit "md")
          = join (lit " ") (map capitalize (split 45 (lit "getting-started")))).
  apply (title_from_file_name (lit "guide/") (lit "getting-started") (lit "md"));
    try discriminate; try (right; reflexivity);
    vm_compute; intros H; repeat (destruct H as [H|H]; [discriminate H|]); exact H.
Defined.

Lemma split_app_sep (sep : N) (a b : str) :
  exists w ws, split sep (a ++ sep :: b) = w :: ws ++ split sep b.
Proof.
  induction a as [|c a [w [ws IH]]]; cbn [app split].
  - rewrite N.eqb_refl; now exists [], [].
  - rewrite IH; destruct (c =? sep); [now exists [], (w :: ws) | now exists (c :: w), ws].
Qed.

Lemma popSplit_file (dir seg : str) :
  directory dir -> ~ In 47 seg -> popSplit 47 (dir ++ seg) = seg.
Proof.
  intros [->|H] Hn; unfold popSplit.
  - cbn [app]; now rewrite split_whole.
  - apply last_Some in H as [d ->]; rewrite <- app_assoc; cbn [app].
    destruct (split_app_sep 47 d seg) as [w [ws ->]].
    rewrite split_whole by exact Hn.
    change (w :: ws ++ [seg]) with ((w :: ws) ++ [seg]); now rewrite last_snoc.
Qed.

Lemma fileName_of_path (dir seg fallback : str) :
  directory dir -> seg <> [] -> ~ In 47 seg ->
  orElse (popSplit 47 (dir ++ seg)) fallback = seg.
Proof. intros Hd Hs Hn; rewrite popSplit_file by assumption; now destruct seg. Qed.

Lemma replaceExt_here (e : str) (rest : list str) (base : str) :
  replaceExt (e :: rest) [] (base ++ e) = base.
Proof.
  cbn [replaceExt]; rewrite endsWith_app, app_nil_r, length_app.
  replace (length base + length e - length e)%nat with (length base) by lia.
  apply take_app_length.
Qed.

Lemma stripPrefix_differs (a r1 r2 : str) (x y : N) :
  x <> y -> stripPrefix (a ++ x :: r1) (a ++ y :: r2) = None.
Proof.
  intros Hxy; induction a as [|c a IH]; cbn [app stripPrefix].
  - destruct (N.eqb_spec x y); [contradiction | reflexivity].
  - rewrite N.eqb_refl; apply IH.
Qed.

(** An alternative that differs from the extension at some unit, counted
    from the end, does not match. *)
Lemma replaceExt_next (e : str) (rest : list str) (base ext a b c : str) (x y : N) :
  rev e = a ++ x :: c -> rev ext = a ++ y :: b -> x <> y ->
  replaceExt (e :: rest) [] (base ++ ext) = replaceExt rest [] (base ++ ext).
Proof.
  intros He Hx Hxy; cbn [replaceExt]; unfold endsWith, startsWith.
  rewrite rev_app_distr, He, Hx, <- !app_assoc; cbn [app].
  now rewrite stripPrefix_differs.
Qed.

(** X22: the name the React parser starts from is the file name without
    directory and extension; a backslash is not taken as a separator. *)
Theorem react_name_is_the_file_name (dir base ext : str) :
  directory dir -> ~ In 47 base ->
  In ext [lit ".ts"; lit ".tsx"; lit ".js"; lit ".jsx"] ->
  React.extractComponentName (dir ++ base ++ ext) = base.
Proof.
  intros Hd Hn He; unfold React.extractComponentName.
  assert (Hseg : base ++ ext <> [] /\ ~ In 47 (base ++ ext)).
  { rewrite in_app_iff; split.
    - destruct He as [<-|[<-|[<-|[<-|[]]]]]; now destruct base.
    - intros [H|H]; [auto|].
      destruct He as [<-|[<-|[<-|[<-|[]]]]]; vm_compute in H;
        repeat (destruct H as [H|H]; [discriminate H|]); exact H. }
  destruct Hseg as [H1 H2]; rewrite fileName_of_path by assumption.
  destruct He as [<-|[<-|[<-|[<-|[]]]]].
  - apply replaceExt_here.
  - rewrite (replaceExt_next _ _ _ _ [] (lit "st.") (lit "t.") 115 120); [apply replaceExt_here|..];
      [reflexivity | reflexivity | discriminate].
  - rewrite (replaceExt_next _ _ _ _ [115] (lit ".") (lit ".") 116 106);
      [|reflexivity | reflexivity | discriminate].
    rewrite (replaceExt_next _ _ _ _ [] (lit "j.") (lit "st.") 120 115);
      [apply replaceExt_here|..]; [reflexivity | reflexivity | discriminate].
  - rewrite (replaceExt_next _ _ _ _ [] (lit "sj.") (lit "t.") 115 120);
      [|reflexivity | reflexivity | discriminate].
    rewrite (replaceExt_next _ _ _ _ [120; 115] (lit ".") (lit ".") 116 106);
      [|reflexivity | reflexivity | discriminate].
    rewrite (replaceExt_next _ _ _ _ [] (lit "sj.") (lit "j.") 115 120);
      [apply replaceExt_here|..]; [reflexivity | reflexivity | discriminate].
Qed.

Lemma react_name_is_the_file_name_witness :
  React.extractComponentName (lit "/proj/src/components/Button.tsx") = lit "Button".
Proof.
  change (React.extractComponentName
            (lit "/proj/src/components/" ++ lit "Button" ++ lit ".tsx") = lit "Button").
  apply (react_name_is_the_file_name (lit "/proj/src/components/") (lit "Button") (lit ".tsx")).
  - right; reflexivity.
  - vm_compute; intros H; repeat (destruct H as [H|H]; [discriminate H|]); exact H.
  - right; left; reflexivity.
Defined.

End PathProperties.

Section VueNameProperties.
Import JS Regex Vue Generator Notions.

(** X23: a Vue component whose script has no [name:] entry is named
    after its file: the file name without directory and [.vue]. *)
Theorem vue_name_is_the_file_name (dir base : str) (d : Descriptor) :
  directory dir -> ~ In 47 base ->
  includes (lit "name:") (scriptContent d) = false ->
  extractComponentName (dir ++ base ++ lit ".vue") d = base.
Proof.
  intros Hd Hn Hs; unfold extractComponentName.
  assert (E : (if hasScript d then search nameAt (scriptContent d) else None) = None).
  { destruct (hasScript d); [|reflexivity].
    destruct (search nameAt (scriptContent d)) as [found|] eqn:E; [|reflexivity].
    apply (search_includes (lit "name:")) in E; [congruence|].
    intros s a; apply bind_prefix. }
  rewrite E, fileName_of_path; [apply replaceExt_here | assumption | now destruct base |].
  rewrite in_app_iff; intros [H|H]; [auto|].
  vm_compute in H; repeat (destruct H as [H|H]; [discriminate H|]); exact H.
Qed.

Lemma vue_name_is_the_file_name_witness :
  extractComponentName (lit "/proj/src/components/Card.vue") optionsComponent = lit "Card".
Proof.
  change (extractComponentName (lit "/proj/src/components/" ++ lit "Card" ++ lit ".vue")
            optionsComponent = lit "Card").
  apply (vue_name_is_the_file_name (lit "/proj/src/components/") (lit "Card") optionsComponent).
  - right; reflexivity.
  - vm_compute; intros H; repeat (destruct H as [H|H]; [discriminate H|]); exact H.
  - vm_compute; reflexivity.
Defined.

End VueNameProperties.

Section IndexerProperties.
Import JS Regex Indexer Notions.

Lemma dropWhile_idem (p : N -> bool) (s : str) : dropWhile p (dropWhile p s) = dropWhile p s.
Proof.
  induction s as [|c r IH]; [reflexivity|].
  cbn [dropWhile]; destruct (p c) eqn:E; [exact IH|].
  cbn [dropWhile]; now rewrite E.
Qed.

Lemma dropWhile_head (p : N -> bool) (s : str) :
  match dropWhile p s with c :: _ => p c = false | [] => True end.
Proof.
  induction s as [|c r IH]; cbn [dropWhile]; [exact I|].
  destruct (p c) eqn:E; [exact IH | exact E].
Qed.

(** Trimming twice is trimming once. *)
Lemma trim_idem (s : str) : trim (trim s) = trim s.
Proof.
  unfold trim, trimEnd, trimStart.
  set (u := dropWhile isWhiteSpace s).
  set (t := rev (dropWhile isWhiteSpace (rev u))).
  assert (Hu : u = t ++ rev (takeWhile isWhiteSpace (rev u))).
  { unfold t; rewrite <- rev_app_distr, takeWhile_dropWhile; now rewrite rev_involutive. }
  assert (Ht : dropWhile isWhiteSpace t = t).
  { pose proof (dropWhile_head isWhiteSpace s) as Hh; fold u in Hh.
    destruct t as [|c t']; [reflexivity|].
    rewrite Hu in Hh; cbn [app] in Hh; cbn [dropWhile]; now rewrite Hh. }
  rewrite Ht; unfold t at 1; rewrite rev_involutive, dropWhile_idem; reflexivity.
Qed.

Lemma In_trim (x : N) (s : str) : In x (trim s) -> In x s.
Proof.
  unfold trim, trimEnd, trimStart; intros H.
  apply in_rev, In_dropWhile, in_rev in H; now apply In_dropWhile in H.
Qed.

Lemma headerAt_text (s text rest : str) :
  headerAt s = Some (text, rest) -> Forall (fun c => notLt c = true) text.
Proof.
  unfold headerAt; intros H.
  repeat match type of H with
         | context [match ?x with _ => _ end] => destruct x eqn:?; try discriminate H
         end.
  injection H as <- _.
  match goal with E : takeWhile notLt _ = _ |- _ => rewrite <- E end.
  apply Forall_takeWhile.
Qed.

(** X24: the headers put into the search index are plain text: none
    contains a less-than sign, and none has white space at either end. *)
Theorem indexed_headers_are_plain_text (html : str) :
  Forall (fun header => ~ In 60 header /\ trim header = header) (extractHeaders html).
Proof.
  unfold extractHeaders, matchAll; apply List.Forall_map.
  apply (matchAllFrom_Forall _ headerAt); intros s text rest H.
  split; [|apply trim_idem].
  intros Hin; apply In_trim in Hin; apply headerAt_text in H.
  apply (proj1 (List.Forall_forall _ _) H) in Hin; discriminate.
Qed.

End IndexerProperties.

Section LoggerProperties.
Import Logger.

(** X25: success messages are printed at every log level; error messages
    are printed at every level but [success]; debug messages are printed
    at level [debug] only. *)
Theorem log_levels (logLevel : LogLevel) :
  shouldLog logLevel success = true
  /\ (shouldLog logLevel error = false <-> logLevel = success)
  /\ (shouldLog logLevel debug = true <-> logLevel = debug).
Proof.
  destruct logLevel; vm_compute; repeat split; intros; congruence.
Qed.

End LoggerProperties.

Section PageProperties.
Import JS Generator Spec Notions.

(** X26: a component page is not escaped: the row of every prop holds
    the prop's name and type text exactly as the parser returned them. *)
Theorem component_page_embeds_props_verbatim (component : ComponentDoc.t)
    (props : list PropDoc.t) (prop : PropDoc.t) (type : str) :
  ComponentDoc.props component = Some props -> In prop props ->
  PropDoc.type prop = inl type ->
  infix (tpl "<td><code>" ++ PropDoc.name prop ++ tpl "</code></td>"
         ++ tpl "<td><code>" ++ type ++ tpl "</code></td>")
    (renderComponentDoc component).
Proof.
  intros Hprops Hin Htype; unfold renderComponentDoc.
  do 5 apply infix_app_r. apply infix_app_l.
  rewrite Hprops; destruct props as [|p0 rest]; [destruct Hin|].
  cbn [nonEmptyList default].
  do 14 apply infix_app_r. apply infix_app_l.
  apply infix_flat_map with prop; [exact Hin|].
  unfold renderProp; rewrite Htype.
  eexists (tpl "<tr>"), _; rewrite <- !app_assoc; reflexivity.
Qed.

Lemma component_page_embeds_props_verbatim_witness :
  infix (tpl "<td><code>" ++ lit "items" ++ tpl "</code></td>"
         ++ tpl "<td><code>" ++ lit "Array<string>" ++ tpl "</code></td>")
    (renderComponentDoc listComponent).
Proof.
  apply (component_page_embeds_props_verbatim listComponent
           [PropDoc.mk (lit "items") (inl (lit "Array<string>")) None (Some true) None]
           (PropDoc.mk (lit "items") (inl (lit "Array<string>")) None (Some true) None)
           (lit "Array<string>"));
    [reflexivity | left; reflexivity | reflexivity].
Defined.

End PageProperties.

Section VueDescriptionProperties.
Import JS Regex Vue Notions.

Lemma lazyLine_line (s t : str) :
  lazyLine s = Some t -> t <> [] /\ Forall (fun c => isLineTerminator c = false) t.
Proof.
  revert t; induction s as [|c r IH]; intros t; cbn [lazyLine]; [discriminate|].
  destruct (isLineTerminator c) eqn:L; [discriminate|].
  destruct (hasLineFeed (takeWhile isWhiteSpace r)).
  - intros [= <-]; split; [discriminate | repeat constructor; exact L].
  - destruct (lazyLine r) as [t'|]; [|discriminate].
    intros [= <-]; split; [discriminate|].
    constructor; [exact L | now apply (IH t')].
Qed.

Lemma firstOf_Some {A} (f : str -> option A) (cands : list str) (a : A) :
  firstOf f cands = Some a -> exists s, f s = Some a.
Proof.
  induction cands as [|s rest IH]; cbn [firstOf]; [discriminate|].
  destruct (f s) eqn:E; [intros [= <-]; eauto | exact IH].
Qed.

(** X27: the description of a Vue component, when there is one, is a
    single non-empty line: it holds no line terminator, so of a comment of
    several lines only the first is kept. *)
Theorem vue_description_is_one_line (d : Descriptor) :
  match extractDescription d with
  | Some description =>
      description <> [] /\ Forall (fun c => isLineTerminator c = false) description
  | None => True
  end.
Proof.
  unfold extractDescription.
  destruct (search descriptionAt (scriptContent d)) as [t|] eqn:E; [|exact I].
  apply search_Some in E as [s E]; unfold descriptionAt in E.
  destruct (stripPrefix (lit "/**") s) as [r|]; [|discriminate].
  cbn [mbind option_bind] in E.
  destruct (hasLineFeed (takeWhile isWhiteSpace r)); [|discriminate].
  destruct (stripPrefix (lit "*") (skipSpaces r)) as [r2|]; [|discriminate].
  cbn [mbind option_bind] in E.
  apply firstOf_Some in E as [s' E]; now apply lazyLine_line in E.
Qed.

End VueDescriptionProperties.
